(** * ClipToEpub: content processing and ePub assembly

    A shallow embedding of [src/cliptoepub/content_processor.py] and of the
    ePub assembly of [src/converter.py], with the properties of the
    specification stated and settled against it.

    Python [str] values are Rocq [string]s read as sequences of code points
    below 256; the library predicates ([str.isspace], [str.lower], the [re]
    classes) are given on that range. *)

From Stdlib Require Import String Ascii List Bool Arith ZArith Lia.
Import ListNotations.
Open Scope list_scope.
Open Scope string_scope.
Open Scope nat_scope.

(** ** Python [str] operations used by the sources *)

Module PyStr.

Definition code (c : ascii) : nat := nat_of_ascii c.
Definition chr (n : nat) : ascii := ascii_of_nat n.

Definition between (lo hi n : nat) : bool := (lo <=? n) && (n <=? hi).

(** One-character strings the sources spell with an escape. *)
Definition NL : string := String (chr 10) EmptyString.
Definition TAB : string := String (chr 9) EmptyString.
Definition CR : string := String (chr 13) EmptyString.
Definition NUL : string := String (chr 0) EmptyString.
Definition DQ : string := String (chr 34) EmptyString.
Definition BSL : string := String (chr 92) EmptyString.

(** [str.isspace] on one code point: TAB..CR, FS..US, space, NEL, NBSP. *)
Definition isspace (c : ascii) : bool :=
  between 9 13 (code c) || between 28 32 (code c)
  || (code c =? 133) || (code c =? 160).

Definition isdigit (c : ascii) : bool := between 48 57 (code c).
Definition isupper_ascii (c : ascii) : bool := between 65 90 (code c).
Definition islower_ascii (c : ascii) : bool := between 97 122 (code c).
Definition isalpha_ascii (c : ascii) : bool := isupper_ascii c || islower_ascii c.

(** [str.isalnum] on one code point below 256. *)
Definition isalnum (c : ascii) : bool :=
  isalpha_ascii c || isdigit c
  || (code c =? 170) || (code c =? 178) || (code c =? 179) || (code c =? 181)
  || (code c =? 185) || (code c =? 186) || between 188 190 (code c)
  || (between 192 255 (code c) && negb (code c =? 215) && negb (code c =? 247)).

(** [str.lower] on one code point below 256. *)
Definition lower_char (c : ascii) : ascii :=
  if isupper_ascii c then chr (code c + 32)
  else if between 192 222 (code c) && negb (code c =? 215) then chr (code c + 32)
  else c.

Fixpoint map_chars (f : ascii -> ascii) (s : string) : string :=
  match s with
  | EmptyString => EmptyString
  | String c s' => String (f c) (map_chars f s')
  end.

Definition lower (s : string) : string := map_chars lower_char s.

Definition is_empty (s : string) : bool :=
  match s with EmptyString => true | String _ _ => false end.

Fixpoint forall_chars (p : ascii -> bool) (s : string) : bool :=
  match s with
  | EmptyString => true
  | String c s' => p c && forall_chars p s'
  end.

Fixpoint exists_char (p : ascii -> bool) (s : string) : bool :=
  match s with
  | EmptyString => false
  | String c s' => p c || exists_char p s'
  end.

(** [c in s] for a one-character [c]. *)
Definition has_char (c : ascii) (s : string) : bool :=
  exists_char (Ascii.eqb c) s.

Definition startswith (s pre : string) : bool := String.prefix pre s.

(** [sub in s]. *)
Fixpoint contains (sub s : string) : bool :=
  String.prefix sub s
  || match s with
     | EmptyString => false
     | String _ s' => contains sub s'
     end.

(** [s.lstrip(chars)] and [s.rstrip(chars)], the character set as a predicate. *)
Fixpoint lstrip_with (p : ascii -> bool) (s : string) : string :=
  match s with
  | EmptyString => EmptyString
  | String c s' => if p c then lstrip_with p s' else s
  end.

Fixpoint rstrip_with (p : ascii -> bool) (s : string) : string :=
  match s with
  | EmptyString => EmptyString
  | String c s' =>
      let r := rstrip_with p s' in
      if is_empty r && p c then EmptyString else String c r
  end.

(** [s.strip()]. *)
Definition strip (s : string) : string := rstrip_with isspace (lstrip_with isspace s).

(** [s.replace(c, "")] for a one-character [c]. *)
Fixpoint remove_char (c : ascii) (s : string) : string :=
  match s with
  | EmptyString => EmptyString
  | String d s' => if Ascii.eqb c d then remove_char c s' else String d (remove_char c s')
  end.

(** [s.replace(c, by)] for a one-character [c]. *)
Fixpoint replace_char (c : ascii) (by_ : string) (s : string) : string :=
  match s with
  | EmptyString => EmptyString
  | String d s' =>
      if Ascii.eqb c d then by_ ++ replace_char c by_ s'
      else String d (replace_char c by_ s')
  end.

(** [s.find(c)] for a one-character [c]; [None] is Python's -1. *)
Fixpoint find_char (c : ascii) (s : string) : option nat :=
  match s with
  | EmptyString => None
  | String d s' =>
      if Ascii.eqb c d then Some 0
      else match find_char c s' with Some i => Some (S i) | None => None end
  end.

(** [s[:n]] and [s[n:]]. *)
Fixpoint take (n : nat) (s : string) : string :=
  match n, s with
  | S n', String c s' => String c (take n' s')
  | _, _ => EmptyString
  end.

Fixpoint drop (n : nat) (s : string) : string :=
  match n, s with
  | S n', String _ s' => drop n' s'
  | _, _ => s
  end.

(** [s.partition(c)]: head, whether the separator was found, tail. *)
Definition partition (c : ascii) (s : string) : string * bool * string :=
  match find_char c s with
  | Some i => (take i s, true, drop (S i) s)
  | None => (s, false, EmptyString)
  end.

(** [s.rpartition(c)[2]]: what follows the last [c], the whole of [s] without one. *)
Fixpoint after_last (c : ascii) (s : string) : string :=
  match s with
  | EmptyString => EmptyString
  | String d s' =>
      if has_char c s' then after_last c s'
      else if Ascii.eqb c d then s' else s
  end.

(** [s.split()]: the maximal runs of non-whitespace, [cur] the run being read. *)
Fixpoint split_from (cur : string) (s : string) : list string :=
  match s with
  | EmptyString => if is_empty cur then [] else [cur]
  | String c s' =>
      if isspace c then
        if is_empty cur then split_from EmptyString s'
        else cur :: split_from EmptyString s'
      else split_from (cur ++ String c EmptyString) s'
  end.

Definition split (s : string) : list string := split_from EmptyString s.

(** [sep.join(parts)]. *)
Fixpoint join (sep : string) (parts : list string) : string :=
  match parts with
  | [] => EmptyString
  | [p] => p
  | p :: rest => p ++ sep ++ join sep rest
  end.

(** [str(n)] for a non-negative integer. *)
Definition digit_char (d : nat) : ascii := chr (48 + d).

Fixpoint str_of_nat_fuel (fuel n : nat) (acc : string) : string :=
  match fuel with
  | O => acc
  | S fuel' =>
      let acc' := String (digit_char (n mod 10)) acc in
      if n <? 10 then acc' else str_of_nat_fuel fuel' (n / 10) acc'
  end.

Definition str_of_nat (n : nat) : string := str_of_nat_fuel (S n) n EmptyString.

End PyStr.

(** ** The fragment of Python's [re] the detector uses

    Patterns are regular expressions over character classes; [re.search] asks
    whether some position starts a match, which for these patterns (no
    back-reference, no look-around) is membership of a prefix in the
    pattern's language, decided here with derivatives. *)

Module Re.
Import PyStr.

Inductive regex : Type :=
| Void : regex
| Eps : regex
| Cls : (ascii -> bool) -> regex
| Seq : regex -> regex -> regex
| Alt : regex -> regex -> regex
| Star : regex -> regex.

Fixpoint nullable (r : regex) : bool :=
  match r with
  | Void => false
  | Eps => true
  | Cls _ => false
  | Seq r1 r2 => nullable r1 && nullable r2
  | Alt r1 r2 => nullable r1 || nullable r2
  | Star _ => true
  end.

Definition seq (r1 r2 : regex) : regex :=
  match r1, r2 with
  | Void, _ => Void
  | _, Void => Void
  | Eps, _ => r2
  | _, _ => Seq r1 r2
  end.

Definition alt (r1 r2 : regex) : regex :=
  match r1, r2 with
  | Void, _ => r2
  | _, Void => r1
  | _, _ => Alt r1 r2
  end.

Fixpoint deriv (c : ascii) (r : regex) : regex :=
  match r with
  | Void => Void
  | Eps => Void
  | Cls p => if p c then Eps else Void
  | Seq r1 r2 =>
      if nullable r1 then alt (seq (deriv c r1) r2) (deriv c r2)
      else seq (deriv c r1) r2
  | Alt r1 r2 => alt (deriv c r1) (deriv c r2)
  | Star r1 => seq (deriv c r1) (Star r1)
  end.

(** Some prefix of [s] matches [r]: what [re.match(r, s)] decides. *)
Fixpoint match_prefix (r : regex) (s : string) : bool :=
  nullable r
  || match s with
     | EmptyString => false
     | String c s' => match_prefix (deriv c r) s'
     end.

(** [re.search(r, s)] for a pattern without anchor. *)
Fixpoint search (r : regex) (s : string) : bool :=
  match_prefix r s
  || match s with
     | EmptyString => false
     | String _ s' => search r s'
     end.

(** [re.search("^" + r, s, re.MULTILINE)]: a match may start at the
    beginning of the text and right after each newline. *)
Fixpoint search_after_newline (r : regex) (s : string) : bool :=
  match s with
  | EmptyString => false
  | String c s' =>
      (Ascii.eqb c (chr 10) && match_prefix r s') || search_after_newline r s'
  end.

Definition search_bol (r : regex) (s : string) : bool :=
  match_prefix r s || search_after_newline r s.

(** Length of the shortest non-empty match of [r] at the start of [s]. *)
Fixpoint match_len (r : regex) (s : string) : option nat :=
  match s with
  | EmptyString => None
  | String c s' =>
      let r' := deriv c r in
      if nullable r' then Some 1
      else match match_len r' s' with Some n => Some (S n) | None => None end
  end.

(** [len(re.findall(r, s))] for a pattern whose match at a position, when
    there is one, has a single possible end (so the shortest match is the
    match Python finds) and is never empty. *)
Fixpoint findall_count (fuel : nat) (r : regex) (s : string) : nat :=
  match fuel with
  | O => 0
  | S fuel' =>
      match s with
      | EmptyString => 0
      | String _ s' =>
          match match_len r s with
          | Some n => S (findall_count fuel' r (drop n s))
          | None => findall_count fuel' r s'
          end
      end
  end.

(** Pattern syntax. *)
Definition lit (c : ascii) : regex := Cls (Ascii.eqb c).
Definition lit_i (c : ascii) : regex := Cls (fun d => Ascii.eqb (lower_char c) (lower_char d)).
Definition not_lit (c : ascii) : regex := Cls (fun d => negb (Ascii.eqb c d)).
Definition one_of (cs : string) : regex := Cls (fun d => has_char d cs).
Definition plus (r : regex) : regex := Seq r (Star r).
Definition opt (r : regex) : regex := Alt Eps r.

Fixpoint word (mk : ascii -> regex) (s : string) : regex :=
  match s with
  | EmptyString => Eps
  | String c s' => Seq (mk c) (word mk s')
  end.

Fixpoint seqs (rs : list regex) : regex :=
  match rs with
  | [] => Eps
  | r :: rs' => Seq r (seqs rs')
  end.

(** [r{1,n}] *)
Fixpoint upto (n : nat) (r : regex) : regex :=
  match n with
  | O => Eps
  | S n' => opt (Seq r (upto n' r))
  end.

Definition rep1 (n : nat) (r : regex) : regex := Seq r (upto (pred n) r).

(** [\s], [\S], [\d] of a [str] pattern. *)
Definition ws : regex := Cls isspace.
Definition non_ws : regex := Cls (fun c => negb (isspace c)).
Definition digit : regex := Cls isdigit.

End Re.

(** ** [urllib.parse.urlparse], as far as [_is_url] reads its result

    The scheme and the netloc of [urlsplit]; [None] stands for the
    [ValueError] the function raises on a malformed bracketed host. The last
    check of a bracketed host ([ipaddress.ip_address]) is a parameter. On code
    points below 256 [_checknetloc] never raises, so it is absent. *)

Module UrlParse.
Import PyStr.

Definition C0_CONTROL_OR_SPACE (c : ascii) : bool := code c <=? 32.

Definition scheme_chars (c : ascii) : bool :=
  isalpha_ascii c || isdigit c || has_char c "+-.".

(** [_splitnetloc(url, 2)]: the netloc ends at the first of [/], [?], [#]. *)
Fixpoint netloc_of (s : string) : string :=
  match s with
  | EmptyString => EmptyString
  | String c s' => if has_char c "/?#" then EmptyString else String c (netloc_of s')
  end.

Section Bracketed.
Variable check_bracketed_host : string -> bool.

Definition _check_bracketed_netloc (netloc : string) : bool :=
  let hostname_and_port := after_last "@" netloc in
  match partition "[" hostname_and_port with
  | (before_bracket, true, bracketed) =>
      if negb (is_empty before_bracket) then false
      else
        match partition "]" bracketed with
        | (hostname, _, port) =>
            if negb (is_empty port) && negb (startswith port ":") then false
            else check_bracketed_host hostname
        end
  | (_, false, _) =>
      match partition ":" hostname_and_port with
      | (hostname, _, _) => check_bracketed_host hostname
      end
  end.

Definition urlparse (url : string) : option (string * string) :=
  let url := lstrip_with C0_CONTROL_OR_SPACE url in
  let url := remove_char (chr 10) (remove_char (chr 13) (remove_char (chr 9) url)) in
  let (scheme, url) :=
    match find_char ":" url with
    | Some (S i) =>
        match url with
        | String c0 _ =>
            if isalpha_ascii c0 && forall_chars scheme_chars (take (S i) url)
            then (lower (take (S i) url), drop (S (S i)) url)
            else (EmptyString, url)
        | EmptyString => (EmptyString, url)
        end
    | _ => (EmptyString, url)
    end in
  if String.prefix "//" url then
    let netloc := netloc_of (drop 2 url) in
    let has_open := has_char "[" netloc in
    let has_close := has_char "]" netloc in
    if xorb has_open has_close then None
    else if has_open && has_close then
      if _check_bracketed_netloc netloc then Some (scheme, netloc) else None
    else Some (scheme, netloc)
  else Some (scheme, EmptyString).

End Bracketed.
End UrlParse.

(** ** Format detection: [ContentDetector] *)

Inductive DetectedFormat : Set := url | rtf | html | markdown | plain.

Definition format_name (f : DetectedFormat) : string :=
  match f with
  | url => "url" | rtf => "rtf" | html => "html"
  | markdown => "markdown" | plain => "plain"
  end.

Module ContentDetector.
Import PyStr Re.

(** [<name[^>]*>], case-insensitive. *)
Definition open_tag (name : regex) : regex :=
  seqs [lit "<"; name; Star (not_lit ">"); lit ">"].

Definition html_patterns : list regex :=
  [ open_tag (word lit_i "html");
    open_tag (word lit_i "body");
    open_tag (word lit_i "div");
    open_tag (word lit_i "p");
    open_tag (word lit_i "span");
    open_tag (Seq (lit_i "h") (one_of "123456")) ].

(** [<[^>]+>] *)
Definition any_tag : regex := seqs [lit "<"; plus (not_lit ">"); lit ">"].

Definition _is_html (text : string) : bool :=
  existsb (fun pattern => search pattern text) html_patterns
  || (3 <=? findall_count (S (String.length text)) any_tag text).

(** A pattern with whether it opens with [^]. *)
Definition hashes : regex := rep1 6 (lit "#").

Definition strong_heading : regex := seqs [hashes; plus ws; plus non_ws].

Definition markdown_patterns : list (bool * regex) :=
  [ (true, seqs [hashes; plus ws]);
    (false, seqs [word lit "**"; plus (not_lit "*"); word lit "**"]);
    (false, seqs [word lit "__"; plus (not_lit "_"); word lit "__"]);
    (false, seqs [lit "*"; plus (not_lit "*"); lit "*"]);
    (false, seqs [lit "_"; plus (not_lit "_"); lit "_"]);
    (true, seqs [Star ws; one_of "-*+"; plus ws]);
    (true, seqs [Star ws; plus digit; lit "."; plus ws]);
    (false, seqs [lit "["; plus (not_lit "]"); word lit "]("; plus (not_lit ")"); lit ")"]);
    (false, seqs [word lit "!["; Star (not_lit "]"); word lit "]("; plus (not_lit ")"); lit ")"]);
    (true, word lit "```");
    (false, seqs [lit "`"; plus (not_lit "`"); lit "`"]);
    (true, seqs [lit ">"; plus ws]) ].

Definition search_pattern (p : bool * regex) (text : string) : bool :=
  if fst p then search_bol (snd p) text else search (snd p) text.

Definition _is_markdown (text : string) : bool :=
  if search_bol strong_heading text then true
  else
    let score := length (filter (fun p => search_pattern p text) markdown_patterns) in
    2 <=? score.

Section Detect.
Variable check_bracketed_host : string -> bool.

Definition _is_url (text : string) : bool :=
  if has_char (chr 10) text then false
  else
    match UrlParse.urlparse check_bracketed_host text with
    | Some (scheme, netloc) =>
        (String.eqb scheme "http" || String.eqb scheme "https")
        && negb (is_empty netloc)
    | None => false
    end.

Definition detect_format (content : string) : DetectedFormat :=
  if is_empty content then plain
  else
    let content := strip content in
    if _is_url content then url
    else if startswith content ("{" ++ BSL ++ "rtf") then rtf
    else if _is_html content then html
    else if _is_markdown content then markdown
    else plain.

End Detect.

(** A bracketed-host check for evaluating inputs without brackets. *)
Definition no_bracketed_host (hostname : string) : bool := false.

End ContentDetector.

(** ** The BeautifulSoup object model

    The tree [BeautifulSoup(markup, "html.parser")] builds and the operations
    of [bs4] the sources call on it (bs4 4.11 and later: attributes are
    written in key order, and [get_text] keeps the strings whose class is the
    one of the tag it is called on). *)

Module Bs4.
Import PyStr.

(** The classes of string a tree holds. *)
Inductive str_kind : Set :=
| NavigableString | Comment | CData | ProcessingInstruction | Declaration
| Doctype | Script | Stylesheet | TemplateString
| RubyTextString | RubyParenthesisString.

Definition str_kind_eqb (a b : str_kind) : bool :=
  match a, b with
  | NavigableString, NavigableString | Comment, Comment | CData, CData
  | ProcessingInstruction, ProcessingInstruction | Declaration, Declaration
  | Doctype, Doctype | Script, Script | Stylesheet, Stylesheet
  | TemplateString, TemplateString | RubyTextString, RubyTextString
  | RubyParenthesisString, RubyParenthesisString => true
  | _, _ => false
  end.

(** A tag's attributes: a dict, kept in key order without repeated key. *)
Definition attrs_t : Type := list (string * string).

#[warnings="-register-all"]
Inductive node : Type :=
| Str (kind : str_kind) (s : string)
| Tag (name : string) (attrs : attrs_t) (contents : list node).

(** The [BeautifulSoup] object, by its contents. *)
Definition soup_t : Type := list node.

Definition is_tag (n : node) : bool :=
  match n with Tag _ _ _ => true | Str _ _ => false end.

Definition name_in (names : list string) (name : string) : bool :=
  existsb (String.eqb name) names.

(** [tag[key] = value] *)
Fixpoint set_attr (key value : string) (attrs : attrs_t) : attrs_t :=
  match attrs with
  | [] => [(key, value)]
  | (k, v) :: rest =>
      if String.eqb key k then (key, value) :: rest
      else if String.ltb key k then (key, value) :: (k, v) :: rest
      else (k, v) :: set_attr key value rest
  end.

Definition attr_eqb (a b : string * string) : bool :=
  String.eqb (fst a) (fst b) && String.eqb (snd a) (snd b).

Fixpoint list_eqb {A : Type} (eqb : A -> A -> bool) (l1 l2 : list A) : bool :=
  match l1, l2 with
  | [], [] => true
  | x :: r1, y :: r2 => eqb x y && list_eqb eqb r1 r2
  | _, _ => false
  end.

(** [Tag.__eq__]: same name, same attributes, equal contents; strings
    compare by their text. *)
Fixpoint node_eqb (a b : node) {struct a} : bool :=
  match a, b with
  | Str _ s, Str _ t => String.eqb s t
  | Tag n1 a1 c1, Tag n2 a2 c2 =>
      String.eqb n1 n2 && list_eqb attr_eqb a1 a2
      && (fix contents_eqb (l1 l2 : list node) {struct l1} : bool :=
            match l1, l2 with
            | [], [] => true
            | x :: r1, y :: r2 => node_eqb x y && contents_eqb r1 r2
            | _, _ => false
            end) c1 c2
  | _, _ => false
  end.

(** [x in nodes] *)
Definition node_in (x : node) (nodes : list node) : bool :=
  existsb (node_eqb x) nodes.

(** *** Output: [str(tag)], [tag.decode_contents()] *)

Definition empty_element_tags : list string :=
  [ "area"; "base"; "br"; "col"; "embed"; "hr"; "img"; "input"; "keygen";
    "link"; "menuitem"; "meta"; "param"; "source"; "track"; "wbr";
    "basefont"; "bgsound"; "command"; "frame"; "image"; "isindex"; "nextid";
    "spacer" ].

Definition cdata_containing_tags : list string := [ "script"; "style" ].

(** [EntitySubstitution.substitute_xml] *)
Fixpoint substitute_xml (s : string) : string :=
  match s with
  | EmptyString => EmptyString
  | String c s' =>
      (if Ascii.eqb c "&" then "&amp;"
       else if Ascii.eqb c "<" then "&lt;"
       else if Ascii.eqb c ">" then "&gt;"
       else String c EmptyString) ++ substitute_xml s'
  end.

Definition quoted_attribute_value (value : string) : string :=
  if has_char (chr 34) value then
    if has_char "'" value then DQ ++ replace_char (chr 34) "&quot;" value ++ DQ
    else "'" ++ value ++ "'"
  else DQ ++ value ++ DQ.

Fixpoint attribute_string (attrs : attrs_t) : string :=
  match attrs with
  | [] => EmptyString
  | (k, v) :: rest =>
      " " ++ k ++ "=" ++ quoted_attribute_value (substitute_xml v)
      ++ attribute_string rest
  end.

Definition str_prefix (k : str_kind) : string :=
  match k with
  | Comment => "<!--" | CData => "<![CDATA[" | ProcessingInstruction => "<?"
  | Declaration => "<?" | Doctype => "<!DOCTYPE "
  | _ => EmptyString
  end.

Definition str_suffix (k : str_kind) : string :=
  match k with
  | Comment => "-->" | CData => "]]>" | ProcessingInstruction => ">"
  | Declaration => "?>" | Doctype => ">" ++ NL
  | _ => EmptyString
  end.

Definition preformatted (k : str_kind) : bool :=
  match k with
  | Comment | CData | ProcessingInstruction | Declaration | Doctype => true
  | _ => false
  end.

(** [decode parent n]: the text of [n] when its parent is named [parent]. *)
Fixpoint decode (parent : string) (n : node) : string :=
  match n with
  | Str k s =>
      if preformatted k then str_prefix k ++ s ++ str_suffix k
      else if name_in cdata_containing_tags parent then s
      else substitute_xml s
  | Tag name attrs contents =>
      match contents with
      | [] =>
          if name_in empty_element_tags name
          then "<" ++ name ++ attribute_string attrs ++ "/>"
          else "<" ++ name ++ attribute_string attrs ++ "></" ++ name ++ ">"
      | _ =>
          "<" ++ name ++ attribute_string attrs ++ ">"
          ++ (fix decode_list (l : list node) : string :=
                match l with
                | [] => EmptyString
                | c :: r => decode name c ++ decode_list r
                end) contents
          ++ "</" ++ name ++ ">"
      end
  end.

Definition decode_list (parent : string) (l : list node) : string :=
  String.concat EmptyString (map (decode parent) l).

Definition ROOT_TAG_NAME : string := "[document]".

(** [str(soup)] *)
Definition str_soup (soup : soup_t) : string := decode_list ROOT_TAG_NAME soup.

(** [str(tag)]; a tag's own output does not depend on its parent. *)
Definition str_tag (n : node) : string := decode ROOT_TAG_NAME n.

(** [tag.decode_contents()] *)
Definition decode_contents (n : node) : string :=
  match n with
  | Tag name _ contents => decode_list name contents
  | Str _ _ => EmptyString
  end.

(** *** Text: [tag.get_text()] *)

Definition interesting_string_type (name : string) : str_kind :=
  if String.eqb name "style" then Stylesheet
  else if String.eqb name "script" then Script
  else if String.eqb name "template" then TemplateString
  else if String.eqb name "rt" then RubyTextString
  else if String.eqb name "rp" then RubyParenthesisString
  else NavigableString.

(** The strings of class [k] below [n], in document order, joined. *)
Fixpoint strings_of (k : str_kind) (n : node) : string :=
  match n with
  | Str k' s => if str_kind_eqb k' k then s else EmptyString
  | Tag _ _ contents =>
      (fix strings_list (l : list node) : string :=
         match l with
         | [] => EmptyString
         | c :: r => strings_of k c ++ strings_list r
         end) contents
  end.

Definition strings_list (k : str_kind) (l : list node) : string :=
  String.concat EmptyString (map (strings_of k) l).

(** [soup.get_text()] *)
Definition get_text_soup (soup : soup_t) : string :=
  strings_list NavigableString soup.

(** [tag.get_text()] *)
Definition get_text (n : node) : string :=
  match n with
  | Tag name _ contents => strings_list (interesting_string_type name) contents
  | Str _ s => s
  end.

(** *** Search: [find_all], [find], [find_next_sibling] *)

(** The tags selected by [sel], in document order, each with the nodes that
    follow it under its parent. *)
Fixpoint walk (sel : string -> bool) (n : node) (after : list node)
  : list (node * list node) :=
  match n with
  | Str _ _ => []
  | Tag name _ contents =>
      ((if sel name then [(n, after)] else [])
       ++ (fix walk_list (l : list node) : list (node * list node) :=
             match l with
             | [] => []
             | c :: r => walk sel c r ++ walk_list r
             end) contents)%list
  end.

Fixpoint walk_list (sel : string -> bool) (l : list node) : list (node * list node) :=
  match l with
  | [] => []
  | c :: r => (walk sel c r ++ walk_list sel r)%list
  end.

(** [soup.find_all(names)] *)
Definition find_all (names : list string) (soup : soup_t) : list node :=
  map fst (walk_list (name_in names) soup).

(** [soup.find(names)] *)
Definition find (names : list string) (soup : soup_t) : option node :=
  hd_error (find_all names soup).

(** The chain [tag.find_next_sibling()], [.find_next_sibling()], ...: the
    tags among the nodes that follow. *)
Definition next_sibling_tags (after : list node) : list node := filter is_tag after.

(** *** Tree surgery *)

(** [for element in soup(names): element.decompose()] *)
Fixpoint decompose_in (names : list string) (n : node) : list node :=
  match n with
  | Str _ _ => [n]
  | Tag name attrs contents =>
      if name_in names name then []
      else
        [Tag name attrs
           ((fix decompose_list (l : list node) : list node :=
               match l with
               | [] => []
               | c :: r => (decompose_in names c ++ decompose_list r)%list
               end) contents)]
  end.

Definition decompose_all (names : list string) (soup : soup_t) : soup_t :=
  flat_map (decompose_in names) soup.

(** Apply [f] to the first tag, in document order, whose name [sel] selects;
    [None] when there is none. *)
Fixpoint modify_first (sel : string -> bool) (f : node -> node) (n : node)
  : option node :=
  match n with
  | Str _ _ => None
  | Tag name attrs contents =>
      if sel name then Some (f n)
      else
        match
          (fix modify_list (l : list node) : option (list node) :=
             match l with
             | [] => None
             | c :: r =>
                 match modify_first sel f c with
                 | Some c' => Some (c' :: r)
                 | None =>
                     match modify_list r with
                     | Some r' => Some (c :: r')
                     | None => None
                     end
                 end
             end) contents
        with
        | Some contents' => Some (Tag name attrs contents')
        | None => None
        end
  end.

Fixpoint modify_first_list (sel : string -> bool) (f : node -> node) (l : list node)
  : option (list node) :=
  match l with
  | [] => None
  | c :: r =>
      match modify_first sel f c with
      | Some c' => Some (c' :: r)
      | None =>
          match modify_first_list sel f r with
          | Some r' => Some (c :: r')
          | None => None
          end
      end
  end.

(** [tag[key] = value] as a tree transformer. *)
Definition with_attr (key value : string) (n : node) : node :=
  match n with
  | Tag name attrs contents => Tag name (set_attr key value attrs) contents
  | Str _ _ => n
  end.

(** [tag.append(child)] and [tag.insert(0, child)]. *)
Definition append_child (child : node) (n : node) : node :=
  match n with
  | Tag name attrs contents => Tag name attrs (contents ++ [child])%list
  | Str _ _ => n
  end.

Definition insert_first (child : node) (n : node) : node :=
  match n with
  | Tag name attrs contents => Tag name attrs (child :: contents)
  | Str _ _ => n
  end.

End Bs4.

(** ** A reference [html.parser] tree builder

    The instance of the parser the examples are evaluated with. It covers
    character data with the references [&amp;] [&lt;] [&gt;] [&quot;], start
    tags with quoted, bare and valueless attributes, [/>] endings, end tags,
    void elements, the raw text of [script] and [style], comments and the
    doctype, and the collapse of whitespace-only strings. Markup outside this
    fragment is read as character data. The general theorems do not depend on
    it: they hold for every parser. *)

Module HtmlParser.
Import PyStr Bs4.

Inductive token : Type :=
| TData (s : string)
| TStart (name : string) (attrs : list (string * string)) (startend : bool)
| TEnd (name : string)
| TComment (s : string)
| TDecl (s : string).

(** Position of the first occurrence of [sub] in [s]. *)
Fixpoint find_sub (sub s : string) : option nat :=
  if String.prefix sub s then Some 0
  else
    match s with
    | EmptyString => None
    | String _ s' => match find_sub sub s' with Some i => Some (S i) | None => None end
    end.

Definition name_stop (c : ascii) : bool :=
  has_char c (TAB ++ NL ++ CR ++ String (chr 12) EmptyString ++ " />" ++ NUL).

Fixpoint take_while (p : ascii -> bool) (s : string) : string :=
  match s with
  | EmptyString => EmptyString
  | String c s' => if p c then String c (take_while p s') else EmptyString
  end.

Fixpoint drop_while (p : ascii -> bool) (s : string) : string :=
  match s with
  | EmptyString => EmptyString
  | String c s' => if p c then drop_while p s' else s
  end.

(** [html.unescape] on the references of the fragment; [skip] counts the
    characters of a reference still to pass over. *)
Fixpoint unescape_from (skip : nat) (s : string) : string :=
  match s with
  | EmptyString => EmptyString
  | String c s' =>
      match skip with
      | S k => unescape_from k s'
      | O =>
          if String.prefix "&amp;" s then "&" ++ unescape_from 4 s'
          else if String.prefix "&lt;" s then "<" ++ unescape_from 3 s'
          else if String.prefix "&gt;" s then ">" ++ unescape_from 3 s'
          else if String.prefix "&quot;" s then DQ ++ unescape_from 5 s'
          else String c (unescape_from 0 s')
      end
  end.

Definition unescape (s : string) : string := unescape_from 0 s.

(** The attributes of a start tag, read from what follows the tag name up to
    the closing [>]. *)
Fixpoint parse_attrs (fuel : nat) (s : string) : list (string * string) :=
  match fuel with
  | O => []
  | S fuel' =>
      let s := drop_while (fun c => isspace c || Ascii.eqb c "/") s in
      match s with
      | EmptyString => []
      | String _ _ =>
          let name := take_while (fun c => negb (isspace c || has_char c "/=>")) s in
          let rest := drop (String.length name) s in
          let rest1 := drop_while isspace rest in
          if is_empty name then []
          else
            match rest1 with
            | String "=" after_eq =>
                let v := drop_while (fun c => isspace c || Ascii.eqb c "=") after_eq in
                match v with
                | String q v' =>
                    if Ascii.eqb q (chr 34) || Ascii.eqb q "'" then
                      let value := take_while (fun c => negb (Ascii.eqb c q)) v' in
                      (lower name, unescape value)
                        :: parse_attrs fuel' (drop (S (String.length value)) v')
                    else
                      let value := take_while (fun c => negb (isspace c)) v in
                      (lower name, unescape value)
                        :: parse_attrs fuel' (drop (String.length value) v)
                | EmptyString => [(lower name, EmptyString)]
                end
            | _ => (lower name, EmptyString) :: parse_attrs fuel' rest
            end
      end
  end.

(** End of a start tag: the first [>] outside a quoted attribute value. *)
Fixpoint tag_end (quote : option ascii) (s : string) : option nat :=
  match s with
  | EmptyString => None
  | String c s' =>
      match quote with
      | Some q =>
          option_map S (tag_end (if Ascii.eqb c q then None else quote) s')
      | None =>
          if Ascii.eqb c ">" then Some 0
          else option_map S
                 (tag_end (if Ascii.eqb c (chr 34) || Ascii.eqb c "'"
                           then Some c else None) s')
      end
  end.

Definition CDATA_CONTENT_ELEMENTS : list string := [ "script"; "style" ].

Definition first_is (p : ascii -> bool) (s : string) : bool :=
  match s with String c _ => p c | EmptyString => false end.

(** [goahead]: the events of the markup; [cdata] is the [script] or [style]
    element whose raw text is being read. *)
Fixpoint goahead (fuel : nat) (cdata : option string) (s : string) : list token :=
  match fuel with
  | O => []
  | S fuel' =>
      match s with
      | EmptyString => []
      | String c s' =>
          match cdata with
          | Some elem =>
              let close := "</" ++ elem ++ ">" in
              match find_sub close (lower s) with
              | Some i =>
                  (if i =? 0 then [] else [TData (take i s)])
                  ++ TEnd elem :: goahead fuel' None (drop (i + String.length close) s)
              | None => [TData s]
              end
          | None =>
              if Ascii.eqb c "<" then
                if first_is isalpha_ascii s' then
                  match tag_end None s' with
                  | Some j =>
                      let inside := take j s' in
                      let name := lower (take_while (fun c => negb (name_stop c)) inside) in
                      let rest := drop (String.length name) inside in
                      let startend := first_is (Ascii.eqb "/") (drop (pred j) s') in
                      TStart name (parse_attrs (S (String.length rest)) rest) startend
                        :: goahead fuel'
                             (if name_in CDATA_CONTENT_ELEMENTS name && negb startend
                              then Some name else None)
                             (drop (S j) s')
                  | None => [TData s]
                  end
                else if String.prefix "/" s' && first_is isalpha_ascii (drop 1 s') then
                  match find_char ">" s' with
                  | Some j =>
                      TEnd (lower (take_while (fun c => negb (name_stop c)) (take j (drop 1 s'))))
                        :: goahead fuel' None (drop (S j) s')
                  | None => [TData s]
                  end
                else if String.prefix "!--" s' then
                  match find_sub "-->" (drop 3 s') with
                  | Some j =>
                      TComment (take j (drop 3 s'))
                        :: goahead fuel' None (drop (3 + j + 3) s')
                  | None => [TData s]
                  end
                else if String.prefix "!doctype" (lower s') then
                  match find_char ">" s' with
                  | Some j => TDecl (take (pred j) (drop 1 s')) :: goahead fuel' None (drop (S j) s')
                  | None => [TData s]
                  end
                else TData "<" :: goahead fuel' None s'
              else if String.prefix "&amp;" s then TData "&" :: goahead fuel' None (drop 4 s')
              else if String.prefix "&lt;" s then TData "<" :: goahead fuel' None (drop 3 s')
              else if String.prefix "&gt;" s then TData ">" :: goahead fuel' None (drop 3 s')
              else if String.prefix "&quot;" s then TData DQ :: goahead fuel' None (drop 5 s')
              else TData (String c EmptyString) :: goahead fuel' None s'
          end
      end
  end.

(** *** The tree builder: [BeautifulSoup.handle_starttag], [handle_endtag],
    [endData], [_popToTag] *)

Record frame : Type := mkFrame {
  f_name : string;
  f_attrs : attrs_t;
  f_rev_contents : list node }.

(** The open tags, innermost first, under the contents of the document read
    so far; [current_data] is the pending character data. *)
Record builder : Type := mkBuilder {
  tagStack : list frame;
  root_rev : list node;
  current_data : string;
  already_closed_empty_element : list string }.

Definition ASCII_SPACES (c : ascii) : bool :=
  has_char c (" " ++ NL ++ TAB ++ String (chr 12) EmptyString ++ CR).

Definition preserve_whitespace_tags : list string := [ "pre"; "textarea" ].

Definition string_containers (name : string) : option str_kind :=
  if String.eqb name "rt" then Some RubyTextString
  else if String.eqb name "rp" then Some RubyParenthesisString
  else if String.eqb name "style" then Some Stylesheet
  else if String.eqb name "script" then Some Script
  else if String.eqb name "template" then Some TemplateString
  else None.

(** The class of a new string: that of the innermost open container tag. *)
Fixpoint string_container (stack : list frame) : str_kind :=
  match stack with
  | [] => NavigableString
  | f :: rest =>
      match string_containers (f_name f) with
      | Some k => k
      | None => string_container rest
      end
  end.

Definition add_node (n : node) (b : builder) : builder :=
  match tagStack b with
  | [] => mkBuilder [] (n :: root_rev b) (current_data b) (already_closed_empty_element b)
  | f :: rest =>
      mkBuilder (mkFrame (f_name f) (f_attrs f) (n :: f_rev_contents f) :: rest)
                (root_rev b) (current_data b) (already_closed_empty_element b)
  end.

Definition endData (kind : option str_kind) (b : builder) : builder :=
  let data := current_data b in
  if is_empty data then b
  else
    let data :=
      if forall_chars ASCII_SPACES data
         && negb (existsb (fun f => name_in preserve_whitespace_tags (f_name f)) (tagStack b))
      then if has_char (chr 10) data then NL else " "
      else data in
    let k := match kind with Some k => k | None => string_container (tagStack b) end in
    add_node (Str k data)
      (mkBuilder (tagStack b) (root_rev b) EmptyString (already_closed_empty_element b)).

Definition close_frame (f : frame) : node :=
  Tag (f_name f) (f_attrs f) (rev (f_rev_contents f)).

Definition popTag (b : builder) : builder :=
  match tagStack b with
  | [] => b
  | f :: rest =>
      add_node (close_frame f)
        (mkBuilder rest (root_rev b) (current_data b) (already_closed_empty_element b))
  end.

Fixpoint pop_n (n : nat) (b : builder) : builder :=
  match n with
  | O => b
  | S n' => pop_n n' (popTag b)
  end.

(** Depth of the innermost open tag named [name]. *)
Fixpoint open_depth (name : string) (stack : list frame) : option nat :=
  match stack with
  | [] => None
  | f :: rest =>
      if String.eqb (f_name f) name then Some 1
      else option_map S (open_depth name rest)
  end.

Definition _popToTag (name : string) (b : builder) : builder :=
  match open_depth name (tagStack b) with
  | Some d => pop_n d b
  | None => b
  end.

Fixpoint remove_one (name : string) (l : list string) : list string :=
  match l with
  | [] => []
  | x :: r => if String.eqb x name then r else x :: remove_one name r
  end.

Definition attr_dict (attrs : list (string * string)) : attrs_t :=
  fold_left (fun d kv => set_attr (fst kv) (snd kv) d) attrs [].

Definition handle_starttag (name : string) (attrs : list (string * string))
    (handle_empty_element : bool) (b : builder) : builder :=
  let b := endData None b in
  let b := mkBuilder (mkFrame name (attr_dict attrs) [] :: tagStack b)
                     (root_rev b) (current_data b) (already_closed_empty_element b) in
  if name_in empty_element_tags name && handle_empty_element then
    let b := _popToTag name (endData None b) in
    mkBuilder (tagStack b) (root_rev b) (current_data b)
              (name :: already_closed_empty_element b)
  else b.

Definition handle_endtag (name : string) (b : builder) : builder :=
  if name_in (already_closed_empty_element b) name then
    mkBuilder (tagStack b) (root_rev b) (current_data b)
              (remove_one name (already_closed_empty_element b))
  else _popToTag name (endData None b).

Definition handle (t : token) (b : builder) : builder :=
  match t with
  | TData s =>
      mkBuilder (tagStack b) (root_rev b) (current_data b ++ s)
                (already_closed_empty_element b)
  | TStart name attrs false => handle_starttag name attrs true b
  | TStart name attrs true =>
      _popToTag name (endData None (handle_starttag name attrs false b))
  | TEnd name => handle_endtag name b
  | TComment s =>
      let b := endData None b in
      endData (Some Comment)
        (mkBuilder (tagStack b) (root_rev b) s (already_closed_empty_element b))
  | TDecl s =>
      let b := endData None b in
      endData (Some Doctype)
        (mkBuilder (tagStack b) (root_rev b) (drop 8 s) (already_closed_empty_element b))
  end.

Definition empty_builder : builder := mkBuilder [] [] EmptyString [].

(** [BeautifulSoup(markup, "html.parser")] *)
Definition BeautifulSoup (markup : string) : soup_t :=
  let b := fold_left (fun b t => handle t b)
             (goahead (S (String.length markup)) None markup) empty_builder in
  let b := endData None b in
  rev (root_rev (pop_n (List.length (tagStack b)) b)).

End HtmlParser.

(** ** Chapters *)

Record Chapter : Type := mkChapter {
  title : string;
  content : string }.

Definition chapter_eqb (a b : Chapter) : bool :=
  String.eqb (title a) (title b) && String.eqb (content a) (content b).

(** [title or default]: [None] and the empty string are falsy. *)
Definition or_default (t : option string) (default : string) : string :=
  match t with
  | Some s => if PyStr.is_empty s then default else s
  | None => default
  end.

(** ** [ChapterSplitter] *)

Module ChapterSplitter.
Import PyStr Bs4.

Definition heading_names : list string := [ "h1"; "h2" ].

Definition block_names : list string :=
  [ "p"; "div"; "h1"; "h2"; "h3"; "h4"; "h5"; "h6"; "blockquote"; "ul"; "ol" ].

(** [len(text.split())] *)
Definition word_count (text : string) : nat := List.length (split text).

(** The body of the [for] loop of [_split_by_headings] for one heading:
    walk the following sibling tags up to the first one that is among the
    headings. *)
Fixpoint collect_until (headings : list node) (siblings : list node) : list string :=
  match siblings with
  | [] => []
  | current :: rest =>
      if node_in current headings then []
      else str_tag current :: collect_until headings rest
  end.

Definition heading_chapter (headings : list node) (h : node * list node)
  : list Chapter :=
  let chapter_title := strip (get_text (fst h)) in
  let chapter_content := collect_until headings (next_sibling_tags (snd h)) in
  match chapter_content with
  | [] => []
  | _ => [mkChapter chapter_title (join NL chapter_content)]
  end.

Definition _split_by_headings (soup : soup_t) (headings : list (node * list node))
  : list Chapter :=
  let chapters := flat_map (heading_chapter (map fst headings)) headings in
  match chapters with
  | [] => [mkChapter "Chapter 1" (str_soup soup)]
  | _ => chapters
  end.

(** The state of the loop of [_split_by_word_count]. *)
Record wc_state : Type := mkWc {
  chapters : list Chapter;
  chapter_num : nat;
  current_chapter_content : list string;
  current_word_count : nat }.

Definition numbered (chapter_num : nat) (parts : list string) : Chapter :=
  mkChapter ("Chapter " ++ str_of_nat chapter_num) (join NL parts).

Definition is_nil {A : Type} (l : list A) : bool :=
  match l with [] => true | _ => false end.

Section WordCount.
Variable words_per_chapter : Z.

Definition wc_step (st : wc_state) (element : node) : wc_state :=
  let element_text := get_text element in
  let element_word_count := word_count element_text in
  let st :=
    if (words_per_chapter <? Z.of_nat (current_word_count st + element_word_count))%Z
       && negb (is_nil (current_chapter_content st))
    then mkWc (chapters st ++ [numbered (chapter_num st) (current_chapter_content st)])%list
              (chapter_num st + 1) [] 0
    else st in
  mkWc (chapters st) (chapter_num st)
       (current_chapter_content st ++ [str_tag element])%list
       (current_word_count st + element_word_count).

Definition wc_flush (st : wc_state) : list Chapter :=
  if is_nil (current_chapter_content st) then chapters st
  else (chapters st ++ [numbered (chapter_num st) (current_chapter_content st)])%list.

Definition _split_by_word_count (soup : soup_t) (title : option string)
  : list Chapter :=
  let text := get_text_soup soup in
  let words := split text in
  if (Z.of_nat (List.length words) <=? words_per_chapter)%Z then
    [mkChapter (or_default title "Chapter 1") (str_soup soup)]
  else
    let elements := find_all block_names soup in
    wc_flush (fold_left wc_step elements (mkWc [] 1 [] 0)).

Section Split.
Variable BeautifulSoup : string -> soup_t.

Definition split_content (html_content : string) (title : option string)
  : list Chapter :=
  let soup := BeautifulSoup html_content in
  let headings := walk_list (name_in heading_names) soup in
  if 1 <? List.length headings then _split_by_headings soup headings
  else _split_by_word_count soup title.

End Split.
End WordCount.
End ChapterSplitter.

(** ** [TOCGenerator] *)

Module TOCGenerator.
Import PyStr Bs4.

(** [html.escape(s)] *)
Fixpoint html_escape (s : string) : string :=
  match s with
  | EmptyString => EmptyString
  | String c s' =>
      (if Ascii.eqb c "&" then "&amp;"
       else if Ascii.eqb c "<" then "&lt;"
       else if Ascii.eqb c ">" then "&gt;"
       else if Ascii.eqb c (chr 34) then "&quot;"
       else if Ascii.eqb c "'" then "&#x27;"
       else String c EmptyString) ++ html_escape s'
  end.

Definition chapter_id (i : nat) : string := "chapter_" ++ str_of_nat i.

(** [enumerate(l, i)] *)
Fixpoint enumerate {A : Type} (i : nat) (l : list A) : list (nat * A) :=
  match l with
  | [] => []
  | x :: r => (i, x) :: enumerate (S i) r
  end.

Definition toc_item (ic : nat * Chapter) : string :=
  "<li><a href=" ++ DQ ++ "#" ++ chapter_id (fst ic) ++ DQ ++ ">"
  ++ html_escape (title (snd ic)) ++ "</a></li>".

Definition generate_toc_html (chapters : list Chapter) (toc_title : string) : string :=
  let toc_items := map toc_item (enumerate 1 chapters) in
  NL ++ "        <div class=" ++ DQ ++ "toc" ++ DQ ++ ">" ++ NL
  ++ "            <h1>" ++ html_escape toc_title ++ "</h1>" ++ NL
  ++ "            <nav>" ++ NL
  ++ "                <ul>" ++ NL
  ++ "                    " ++ String.concat EmptyString toc_items ++ NL
  ++ "                </ul>" ++ NL
  ++ "            </nav>" ++ NL
  ++ "        </div>" ++ NL
  ++ "        ".

Definition anchor_names : list string := [ "h1"; "h2"; "h3" ].

(** The tree of one chapter after the anchor is set. *)
Definition anchor_soup (i : nat) (soup : soup_t) : soup_t :=
  match find anchor_names soup with
  | Some _ =>
      match modify_first_list (name_in anchor_names) (with_attr "id" (chapter_id i)) soup with
      | Some soup' => soup'
      | None => soup
      end
  | None => [Tag "div" [("id", chapter_id i)] soup]
  end.

Section Anchors.
Variable BeautifulSoup : string -> soup_t.

Definition add_anchor (ic : nat * Chapter) : Chapter :=
  let soup := BeautifulSoup (content (snd ic)) in
  mkChapter (title (snd ic)) (str_soup (anchor_soup (fst ic) soup)).

Definition add_anchors_to_chapters (chapters : list Chapter) : list Chapter :=
  map add_anchor (enumerate 1 chapters).

End Anchors.
End TOCGenerator.

(** ** Python dicts with string keys, in insertion order *)

Module PyDict.

Inductive value : Type :=
| VStr (s : string)
| VNone
| VList (l : list string).

Definition dict : Type := list (string * value).

(** [d.get(key)]; [None] when the key is absent. *)
Fixpoint get (key : string) (d : dict) : option value :=
  match d with
  | [] => None
  | (k, v) :: rest => if String.eqb key k then Some v else get key rest
  end.

(** [d.get(key, default)] *)
Definition get_default (key : string) (default : value) (d : dict) : value :=
  match get key d with Some v => v | None => default end.

(** [d[key] = v] *)
Fixpoint set (key : string) (v : value) (d : dict) : dict :=
  match d with
  | [] => [(key, v)]
  | (k, w) :: rest =>
      if String.eqb key k then (k, v) :: rest else (k, w) :: set key v rest
  end.

(** [{**a, **b}] *)
Definition merge (a b : dict) : dict :=
  fold_left (fun d kv => set (fst kv) (snd kv) d) b a.

(** Truth value of a dict value. *)
Definition truthy (v : value) : bool :=
  match v with
  | VStr s => negb (PyStr.is_empty s)
  | VNone => false
  | VList l => match l with [] => false | _ => true end
  end.

(** A value read as an [Optional[str]]. *)
Definition as_optional_str (v : value) : option string :=
  match v with VStr s => Some s | _ => None end.

End PyDict.

(** ** [CSSTemplates] *)

Module CSSTemplates.

Definition get_default_css : string := "
        /* Default ePub CSS Template */
        body {
            font-family: Georgia, 'Times New Roman', serif;
            font-size: 1em;
            line-height: 1.6;
            margin: 1em;
            text-align: justify;
        }

        h1, h2, h3, h4, h5, h6 {
            font-family: 'Helvetica Neue', Arial, sans-serif;
            font-weight: bold;
            line-height: 1.2;
            margin-top: 1.5em;
            margin-bottom: 0.5em;
            text-align: left;
        }

        h1 { font-size: 2em; }
        h2 { font-size: 1.75em; }
        h3 { font-size: 1.5em; }
        h4 { font-size: 1.25em; }
        h5 { font-size: 1.1em; }
        h6 { font-size: 1em; }

        p {
            margin: 0.5em 0 1em 0;
            text-indent: 1.5em;
        }

        p:first-of-type,
        h1 + p, h2 + p, h3 + p, h4 + p, h5 + p, h6 + p {
            text-indent: 0;
        }

        blockquote {
            margin: 1em 2em;
            font-style: italic;
            border-left: 3px solid #ccc;
            padding-left: 1em;
        }

        code {
            font-family: 'Courier New', monospace;
            font-size: 0.9em;
            background-color: #f4f4f4;
            padding: 0.1em 0.3em;
        }

        pre {
            font-family: 'Courier New', monospace;
            font-size: 0.9em;
            background-color: #f4f4f4;
            padding: 1em;
            overflow-x: auto;
            white-space: pre-wrap;
        }

        ul, ol {
            margin: 1em 0;
            padding-left: 2em;
        }

        li {
            margin: 0.5em 0;
        }

        a {
            color: #0066cc;
            text-decoration: underline;
        }

        img {
            max-width: 100%;
            height: auto;
            display: block;
            margin: 1em auto;
        }
        ".

End CSSTemplates.

(** ** [ContentConverter] *)

Module ContentConverter.
Import PyStr Bs4 PyDict.

(** [text.split("\n\n")], [cur] the piece being read. *)
Fixpoint split_blank_lines (cur : string) (s : string) : list string :=
  match s with
  | EmptyString => [cur]
  | String c s' =>
      match s' with
      | String d s'' =>
          if Ascii.eqb c (chr 10) && Ascii.eqb d (chr 10)
          then cur :: split_blank_lines EmptyString s''
          else split_blank_lines (cur ++ String c EmptyString) s'
      | EmptyString => [cur ++ String c EmptyString]
      end
  end.

Definition paragraph (para : string) : list string :=
  let para := strip para in
  if is_empty para then []
  else ["<p>" ++ replace_char (chr 10) "<br>" para ++ "</p>"].

Definition _text_to_html_paragraphs (text : string) : string :=
  let text := TOCGenerator.html_escape text in
  let paragraphs := split_blank_lines EmptyString text in
  join NL (flat_map paragraph paragraphs).

Definition _convert_plain (content : string) : string * dict :=
  (_text_to_html_paragraphs content, [("type", VStr "plain")]).

Definition strip_names : list string := [ "script"; "style"; "meta"; "link" ].

Section Convert.
Variable BeautifulSoup : string -> soup_t.

(** The collaborators of the converters: the network fetch of
    [_convert_url] with its three tiers, [markdown2.markdown] with the extras
    of the source, and [rtf_to_text] ([None] when it raises). *)
Variable _convert_url : string -> string * dict.
Variable markdown2_markdown : string -> string.
Variable rtf_to_text : string -> option string.

Definition _convert_markdown (content : string) : string * dict :=
  let html_content := markdown2_markdown content in
  let soup := BeautifulSoup html_content in
  let metadata := [("type", VStr "markdown")] in
  match find ["h1"] soup with
  | Some h1 => (html_content, set "title" (VStr (get_text h1)) metadata)
  | None => (html_content, metadata)
  end.

Definition _convert_html (content : string) : string * dict :=
  let metadata := [("type", VStr "html")] in
  let soup := BeautifulSoup content in
  let metadata :=
    match find ["title"] soup with
    | Some t => set "title" (VStr (get_text t)) metadata
    | None => metadata
    end in
  let soup := decompose_all strip_names soup in
  match find ["body"] soup with
  | Some body => (str_tag body, metadata)
  | None => (str_soup soup, metadata)
  end.

Definition _convert_rtf (content : string) : string * dict :=
  match rtf_to_text content with
  | Some plain_text => (_text_to_html_paragraphs plain_text, [("type", VStr "rtf")])
  | None => (_text_to_html_paragraphs content, [("type", VStr "rtf")])
  end.

Definition html_open : Re.regex :=
  ContentDetector.open_tag (Re.word Re.lit_i "html").

Definition wrap_document (css html_content : string) : string :=
  NL ++ "<!DOCTYPE html>" ++ NL
  ++ "<html>" ++ NL
  ++ "<head>" ++ NL
  ++ "    <meta charset=" ++ DQ ++ "UTF-8" ++ DQ ++ ">" ++ NL
  ++ "    <style>" ++ NL
  ++ "        " ++ css ++ NL
  ++ "    </style>" ++ NL
  ++ "</head>" ++ NL
  ++ "<body>" ++ NL
  ++ "    " ++ html_content ++ NL
  ++ "</body>" ++ NL
  ++ "</html>" ++ NL
  ++ "            ".

(** [None]: the [AttributeError] of [soup.html.insert] when the text matches
    the pattern but the tree has no [html] tag. *)
Definition _apply_styling (html_content : string) : option string :=
  let css := CSSTemplates.get_default_css in
  if negb (Re.search html_open html_content) then
    Some (wrap_document css html_content)
  else
    let soup := BeautifulSoup html_content in
    let with_head :=
      match find ["head"] soup with
      | Some _ => Some soup
      | None =>
          modify_first_list (String.eqb "html") (insert_first (Tag "head" [] [])) soup
      end in
    match with_head with
    | None => None
    | Some soup =>
        let style := Tag "style" [] [Str NavigableString css] in
        match modify_first_list (String.eqb "head") (append_child style) soup with
        | Some soup' => Some (str_soup soup')
        | None => None
        end
    end.

Definition converter_for (format_type : DetectedFormat) : string -> string * dict :=
  match format_type with
  | url => _convert_url
  | markdown => _convert_markdown
  | html => _convert_html
  | rtf => _convert_rtf
  | plain => _convert_plain
  end.

Definition convert (content : string) (format_type : DetectedFormat)
  : option (string * dict) :=
  let (html_content, metadata) := converter_for format_type content in
  match _apply_styling html_content with
  | Some styled_html => Some (styled_html, metadata)
  | None => None
  end.

End Convert.
End ContentConverter.

(** ** The orchestrator: [process_clipboard_content] *)

Record Options : Type := mkOptions {
  split_chapters : bool;
  words_per_chapter : Z;
  force_toc : bool;
  css_template : string }.

(** [options = {}]: every key at its default. *)
Definition default_options : Options := mkOptions true 3000%Z false "default".

Record ProcessedContent : Type := mkProcessed {
  chapters : list Chapter;
  metadata : PyDict.dict;
  css : string;
  format : DetectedFormat;
  toc_html : option string }.

Module Pipeline.
Import PyStr Bs4 PyDict.

(** A metadata title as the text of a chapter title; the converters store
    strings under ["title"]. *)
Definition title_text (v : value) : string :=
  match v with VStr s => s | _ => EmptyString end.

Section Process.
Variable check_bracketed_host : string -> bool.
Variable BeautifulSoup : string -> soup_t.
Variable _convert_url : string -> string * dict.
Variable markdown2_markdown : string -> string.
Variable rtf_to_text : string -> option string.
(** [datetime.now().isoformat()] and [CSSTemplates().get_template]. *)
Variable now_isoformat : string.
Variable get_template : string -> string.

Definition process_clipboard_content (content : string) (options : Options)
  : option ProcessedContent :=
  let format_type := ContentDetector.detect_format check_bracketed_host content in
  match ContentConverter.convert BeautifulSoup _convert_url markdown2_markdown
          rtf_to_text content format_type with
  | None => None
  | Some (html_content, metadata) =>
      let metadata := set "detected_format" (VStr (format_name format_type)) metadata in
      let metadata := set "processing_date" (VStr now_isoformat) metadata in
      let chapters :=
        if split_chapters options then
          ChapterSplitter.split_content (words_per_chapter options) BeautifulSoup
            html_content
            (as_optional_str (get_default "title" (VStr "Untitled") metadata))
        else
          [mkChapter (title_text (get_default "title" (VStr "Content") metadata))
                     html_content] in
      let anchored :=
        if (1 <? List.length chapters) || force_toc options then
          let chapters := TOCGenerator.add_anchors_to_chapters BeautifulSoup chapters in
          (chapters, Some (TOCGenerator.generate_toc_html chapters "Table of Contents"))
        else (chapters, None) in
      Some (mkProcessed (fst anchored) metadata
              (get_template (css_template options)) format_type (snd anchored))
  end.

End Process.
End Pipeline.

(** ** ePub assembly: [ClipboardToEpubConverter] *)

Module Epub.
Import PyStr Bs4 PyDict.

(** [epub.EpubHtml] *)
Record EpubHtml : Type := mkHtml {
  uid : string;
  file_name : string;
  html_title : string;
  html_content : string }.

Inductive item : Type :=
| StyleItem (file : string) (content : string)
| HtmlItem (doc : EpubHtml)
| EpubNcx
| EpubNav.

(** An entry of [book.spine]: the string ["nav"] or a document. *)
Inductive spine_entry : Type :=
| SpineNav
| SpineDoc (doc : EpubHtml).

Record EpubBook : Type := mkBook {
  identifier : string;
  book_title : string;
  language : value;
  authors : list value;
  dc_metadata : list (string * string);
  items : list item;
  spine : list spine_entry;
  toc : list EpubHtml }.

(** [str(v)]; the text of a list is exact for items without quote,
    backslash or control character. *)
Definition py_str (v : value) : string :=
  match v with
  | VStr s => s
  | VNone => "None"
  | VList l => "[" ++ join ", " (map (fun s => "'" ++ s ++ "'") l) ++ "]"
  end.

(** [a or b] *)
Definition py_or (a b : value) : value := if truthy a then a else b.

Definition get_or_none (key : string) (d : dict) : value := get_default key VNone d.

Definition author_list (v : value) : list value :=
  match v with
  | VList l => map VStr l
  | _ => [v]
  end.

Definition safe_char (c : ascii) : ascii :=
  if isalnum c || has_char c " _-" then c else "_"%char.

Definition safe_title (t : string) : string := take 100 (map_chars safe_char t).

Definition xhtml_ns : string := "http://www.w3.org/1999/xhtml".

Definition stylesheet_link : string :=
  "    <link rel=" ++ DQ ++ "stylesheet" ++ DQ ++ " type=" ++ DQ ++ "text/css" ++ DQ
  ++ " href=" ++ DQ ++ "style.css" ++ DQ ++ "/>".

(** The skeleton of [_ensure_xhtml]. *)
Definition xhtml_skeleton (doc_title inner : string) : string :=
  NL ++ "<html xmlns=" ++ DQ ++ xhtml_ns ++ DQ ++ ">" ++ NL
  ++ "<head>" ++ NL
  ++ "    <meta charset=" ++ DQ ++ "UTF-8" ++ DQ ++ "/>" ++ NL
  ++ "    <title>" ++ doc_title ++ "</title>" ++ NL
  ++ stylesheet_link ++ NL
  ++ "</head>" ++ NL
  ++ "<body>" ++ NL
  ++ "    <h1>" ++ doc_title ++ "</h1>" ++ NL
  ++ "    " ++ inner ++ NL
  ++ "</body>" ++ NL
  ++ "</html>".

(** The skeleton of the table of contents page of [_create_epub_async]. *)
Definition toc_skeleton (inner : string) : string :=
  NL ++ "<html xmlns=" ++ DQ ++ xhtml_ns ++ DQ ++ ">" ++ NL
  ++ "<head>" ++ NL
  ++ "    <meta charset=" ++ DQ ++ "UTF-8" ++ DQ ++ "/>" ++ NL
  ++ "    <title>Table of Contents</title>" ++ NL
  ++ stylesheet_link ++ NL
  ++ "</head>" ++ NL
  ++ "<body>" ++ NL
  ++ "    " ++ inner ++ NL
  ++ "</body>" ++ NL
  ++ "</html>".

(** The skeletons of [_create_epub_from_cached_async]. *)
Definition cached_chapter_skeleton (chapter_title chapter_content : string) : string :=
  "<!DOCTYPE html>" ++ NL
  ++ "<html xmlns=" ++ DQ ++ xhtml_ns ++ DQ ++ ">" ++ NL
  ++ "<head>" ++ NL
  ++ "    <title>" ++ chapter_title ++ "</title>" ++ NL
  ++ stylesheet_link ++ NL
  ++ "</head>" ++ NL
  ++ "<body>" ++ NL
  ++ "    <h1>" ++ chapter_title ++ "</h1>" ++ NL
  ++ "    " ++ chapter_content ++ NL
  ++ "</body>" ++ NL
  ++ "</html>".

Definition cached_toc_skeleton (page_content : string) : string :=
  "<!DOCTYPE html>" ++ NL
  ++ "<html xmlns=" ++ DQ ++ xhtml_ns ++ DQ ++ ">" ++ NL
  ++ "<head>" ++ NL
  ++ "    <title>Table of Contents</title>" ++ NL
  ++ stylesheet_link ++ NL
  ++ "</head>" ++ NL
  ++ "<body>" ++ NL
  ++ "    " ++ page_content ++ NL
  ++ "</body>" ++ NL
  ++ "</html>".

Definition chapter_doc (idx : nat) (chapter_title body : string) : EpubHtml :=
  mkHtml ("chapter_" ++ str_of_nat idx) ("chapter_" ++ str_of_nat idx ++ ".xhtml")
         chapter_title body.

Definition toc_doc (body : string) : EpubHtml :=
  mkHtml "toc" "toc.xhtml" "Table of Contents" body.

(** The document of the chapter at position [idx], its body made by [wrap]. *)
Definition chapter_item (wrap : string -> string -> string) (ic : nat * Chapter)
  : EpubHtml :=
  chapter_doc (fst ic) (title (snd ic)) (wrap (title (snd ic)) (content (snd ic))).

(** [processed.get("metadata", {})] *)
Definition proc_metadata_of (processed : ProcessedContent) : dict :=
  metadata processed.

(** [if toc_html:] *)
Definition toc_present (toc_html : option string) : bool :=
  match toc_html with
  | Some s => negb (is_empty s)
  | None => false
  end.

Section Assemble.
Variable BeautifulSoup : string -> soup_t.
(** [str(uuid4())], [datetime.now().strftime("%Y%m%d_%H%M%S")] and the
    converter's configured defaults. *)
Variable uuid : string.
Variable timestamp : string.
Variable default_author : string.
Variable default_language : string.

(** The body of a parsed document, when it has one with content. *)
Definition body_inner (txt : string) : string :=
  match find ["body"] (BeautifulSoup txt) with
  | Some body =>
      let inner := decode_contents body in
      if is_empty inner then txt else inner
  | None => txt
  end.

Definition _ensure_xhtml (doc_title content : string) : string :=
  let txt := strip content in
  let txt := if has_char (chr 0) txt then remove_char (chr 0) txt else txt in
  xhtml_skeleton doc_title (body_inner txt).

Definition toc_page (toc_html : string) : EpubHtml :=
  let page_content := strip toc_html in
  let page_content :=
    if has_char (chr 0) page_content then remove_char (chr 0) page_content
    else page_content in
  toc_doc (toc_skeleton (body_inner page_content)).

Definition dc_fields : list string := [ "date"; "description"; "source" ].

Definition dc_of (d : dict) : list (string * string) :=
  flat_map (fun kv =>
              if Bs4.name_in dc_fields (fst kv) && truthy (snd kv)
              then [(fst kv, py_str (snd kv))] else []) d.

(** The book [_create_epub_async] writes, with its file name; [None] for
    "No chapters to convert". The write itself is taken to succeed. *)
Definition _create_epub_async (processed : ProcessedContent) (metadata : dict)
  : option (EpubBook * string) :=
  match chapters processed with
  | [] => None
  | _ =>
      let proc_metadata := proc_metadata_of processed in
      let title :=
        py_str (py_or (get_or_none "title" metadata)
                  (py_or (get_or_none "title" proc_metadata)
                     (VStr ("Clipboard_" ++ timestamp)))) in
      let authors :=
        py_or (get_or_none "authors" metadata)
              (get_default "authors" (VList [default_author]) proc_metadata) in
      let dc_type := ("type", "clipboard_" ++ format_name (format processed)) in
      let dc := (dc_of (merge proc_metadata metadata) ++ [dc_type])%list in
      let toc_pages :=
        match toc_html processed with
        | Some t => if toc_present (Some t) then [toc_page t] else []
        | None => []
        end in
      let chapter_docs :=
        map (chapter_item _ensure_xhtml)
            (TOCGenerator.enumerate 1 (chapters processed)) in
      let epub_chapters := (toc_pages ++ chapter_docs)%list in
      Some (mkBook uuid title
              (get_default "language" (VStr default_language) metadata)
              (author_list authors) dc
              (StyleItem "style.css" (css processed)
                 :: map HtmlItem epub_chapters ++ [EpubNcx; EpubNav])%list
              (SpineNav :: map SpineDoc epub_chapters)
              epub_chapters,
            safe_title title ++ "_" ++ timestamp ++ ".epub")
  end.

(** The chapter body of [_create_epub_from_cached_async]. *)
Definition cached_chapter_content (chapter_title chapter_content : string) : string :=
  if negb (startswith (strip chapter_content) "<!DOCTYPE"
           || startswith (strip chapter_content) "<html")
  then cached_chapter_skeleton chapter_title chapter_content
  else chapter_content.

Definition cached_toc_page (toc_html : string) : EpubHtml :=
  let page_content := strip toc_html in
  toc_doc
    (if negb (startswith (lower page_content) "<!doctype"
              || startswith (lower page_content) "<html")
     then cached_toc_skeleton page_content
     else page_content).

Definition cached_dc_of (proc_metadata : dict) : list (string * string) :=
  flat_map (fun key =>
              let val := get_or_none key proc_metadata in
              if truthy val then [(key, py_str val)] else []) dc_fields.

(** The book [_create_epub_from_cached_async] writes, with its file name. *)
Definition _create_epub_from_cached_async (cached : ProcessedContent)
  : option (EpubBook * string) :=
  match chapters cached with
  | [] => None
  | _ =>
      let proc_metadata := proc_metadata_of cached in
      let title :=
        py_str (py_or (get_or_none "title" proc_metadata)
                  (VStr ("Clipboard_" ++ timestamp))) in
      let authors :=
        py_or (get_or_none "authors" proc_metadata) (VList [default_author]) in
      let dc_type := ("type", "clipboard_" ++ format_name (format cached)) in
      let dc := (cached_dc_of proc_metadata ++ [dc_type])%list in
      let toc_pages :=
        match toc_html cached with
        | Some t => if toc_present (Some t) then [cached_toc_page t] else []
        | None => []
        end in
      let chapter_docs :=
        map (chapter_item cached_chapter_content)
            (TOCGenerator.enumerate 1 (chapters cached)) in
      let epub_chapters := (toc_pages ++ chapter_docs)%list in
      Some (mkBook uuid title
              (get_default "language" (VStr default_language) proc_metadata)
              (author_list authors) dc
              (StyleItem "style.css" (css cached)
                 :: map HtmlItem epub_chapters ++ [EpubNcx; EpubNav])%list
              (SpineNav :: map SpineDoc epub_chapters)
              epub_chapters,
            safe_title title ++ "_" ++ timestamp ++ "_cached.epub")
  end.

End Assemble.
End Epub.

(** ** More of Python's [str] and [re], for the subtitle and title helpers *)

Module PyText.
Import PyStr.

(** [str.isdigit] on one code point below 256: the decimal digits and the
    superscripts one, two and three. *)
Definition str_isdigit (c : ascii) : bool :=
  isdigit c || (code c =? 178) || (code c =? 179) || (code c =? 185).

(** [s.isdigit()] *)
Definition all_digits (s : string) : bool :=
  negb (is_empty s) && forall_chars str_isdigit s.

(** The line boundaries of [str.splitlines] below 256. *)
Definition is_linebreak (c : ascii) : bool :=
  between 10 13 (code c) || between 28 30 (code c) || (code c =? 133).

(** [s.splitlines()], [cur] the line being read; a carriage return followed
    by a line feed is one boundary. *)
Fixpoint splitlines_from (cur : string) (s : string) : list string :=
  match s with
  | EmptyString => if is_empty cur then [] else [cur]
  | String c s' =>
      if is_linebreak c then
        cur :: match s' with
               | String d s'' =>
                   if Ascii.eqb c (chr 13) && Ascii.eqb d (chr 10)
                   then splitlines_from EmptyString s''
                   else splitlines_from EmptyString s'
               | EmptyString => []
               end
      else splitlines_from (cur ++ String c EmptyString) s'
  end.

Definition splitlines (s : string) : list string := splitlines_from EmptyString s.

(** [re.sub(r"\s+", " ", text)]: each maximal run of whitespace becomes one
    space; [in_run] tells that the run being read is already written. *)
Fixpoint sub_ws (in_run : bool) (s : string) : string :=
  match s with
  | EmptyString => EmptyString
  | String c s' =>
      if isspace c then
        if in_run then sub_ws true s' else String " " (sub_ws true s')
      else String c (sub_ws false s')
  end.

Definition collapse_whitespace (text : string) : string := sub_ws false text.

(** [str.upper] on one code point below 256 whose image is one such code
    point; the others (sharp s, micro, y with diaeresis) are left, none of
    them becomes a letter the sources compare with. *)
Definition upper_char (c : ascii) : ascii :=
  if islower_ascii c then chr (code c - 32)
  else if between 224 254 (code c) && negb (code c =? 247) then chr (code c - 32)
  else c.

Definition upper (s : string) : string := map_chars upper_char s.

(** [s.strip(chars)] *)
Definition strip_with (p : ascii -> bool) (s : string) : string :=
  rstrip_with p (lstrip_with p s).

End PyText.

(** ** [llm_anthropic.sanitize_first_line] *)

Module LlmAnthropic.
Import PyStr PyText.

(** A character of a file name: [c.isalnum() or c in (" ", "_", "-")]. *)
Definition path_friendly (c : ascii) : bool := isalnum c || has_char c " _-".

Definition sanitize_first_line (text : string) : string :=
  let s :=
    if negb (is_empty text) && negb (is_empty (strip text))
    then hd EmptyString (splitlines (strip text))
    else EmptyString in
  let s := if startswith s "# " then drop 2 s else s in
  let safe := strip (map_chars (fun c => if path_friendly c then c else "_"%char) s) in
  if is_empty (take 80 safe) then "LLM Result" else take 80 safe.

End LlmAnthropic.

(** ** Subtitles and YouTube addresses: [ClipboardToEpubConverter] *)

Module Subtitles.
Import PyStr PyText.

(** A time line such as [00:00:05,000 --> 00:00:07,000]. *)
Definition is_timestamp (s : string) : bool :=
  contains "-->" s && exists_char str_isdigit s.

Definition srt_line (raw : string) : list string :=
  let s := strip raw in
  if is_empty s then []
  else if all_digits s then []
  else if is_timestamp s then []
  else [s].

Definition _srt_to_text (srt : string) : string :=
  let lines := flat_map srt_line (splitlines srt) in
  let text := join " " lines in
  let text := collapse_whitespace text in
  strip text.

(** The characters of [raw.strip(chars)] below 256: newline, carriage return
    and space (the byte order mark lies above). *)
Definition vtt_strip_chars (c : ascii) : bool := has_char c (NL ++ CR ++ " ").

Definition vtt_line (raw : string) : list string :=
  let s := strip_with vtt_strip_chars raw in
  if is_empty s then []
  else if startswith (upper s) "WEBVTT" then []
  else if is_timestamp s then []
  else if startswith s "NOTE" || startswith s "STYLE" || startswith s "REGION" then []
  else [s].

Definition annotations : list string :=
  [ "[music]"; "[applause]"; "[laughter]"; "[silence]" ].

(** The length of the annotation that opens [s], in any case of letters. *)
Definition annotation_at (s : string) : option nat :=
  match filter (fun a => String.prefix a (lower s)) annotations with
  | a :: _ => Some (String.length a)
  | [] => None
  end.

(** [re.sub(r"\[(?:Music|Applause|Laughter|Silence)\]", "", text,
    flags=re.IGNORECASE)]; [skip] counts the characters of an annotation
    still to pass over. *)
Fixpoint remove_annotations_from (skip : nat) (s : string) : string :=
  match s with
  | EmptyString => EmptyString
  | String c s' =>
      match skip with
      | S k => remove_annotations_from k s'
      | O =>
          match annotation_at s with
          | Some n => remove_annotations_from (pred n) s'
          | None => String c (remove_annotations_from 0 s')
          end
      end
  end.

Definition remove_annotations (text : string) : string :=
  remove_annotations_from 0 text.

Definition _vtt_to_text (vtt : string) : string :=
  let lines := flat_map vtt_line (splitlines vtt) in
  let text := join NL lines in
  let text := remove_annotations text in
  let text := collapse_whitespace text in
  strip text.

End Subtitles.

Module YouTube.
Import PyStr PyText.

Definition youtube_hosts : list string := [ "youtube.com"; "youtu.be" ].

Section Url.
Variable check_bracketed_host : string -> bool.

Definition _looks_like_youtube_url (text : string) : bool :=
  match UrlParse.urlparse check_bracketed_host (strip text) with
  | Some (scheme, netloc) =>
      if negb (String.eqb scheme "http" || String.eqb scheme "https") then false
      else
        let host := lower netloc in
        existsb (fun h => contains h host) youtube_hosts
  | None => false
  end.

End Url.

(** The loop of [__init__] over the subtitle languages asked for. *)
Fixpoint normalize_langs (langs_norm : list string) (youtube_langs : list string)
  : list string :=
  match youtube_langs with
  | [] => langs_norm
  | c :: rest =>
      let cc := lower (strip c) in
      let langs_norm :=
        if negb (is_empty cc) && negb (existsb (String.eqb cc) langs_norm)
        then (langs_norm ++ [cc])%list else langs_norm in
      if 3 <=? List.length langs_norm then langs_norm
      else normalize_langs langs_norm rest
  end.

Definition default_langs : list string := [ "en"; "es"; "pt" ].

(** [self.youtube_langs] for the argument [youtube_langs] of [__init__];
    [None] and the empty list stand for the default. *)
Definition youtube_langs_of (youtube_langs : option (list string)) : list string :=
  let given :=
    match youtube_langs with
    | Some (c :: rest) => c :: rest
    | _ => default_langs
    end in
  match normalize_langs [] given with
  | [] => default_langs
  | langs_norm => langs_norm
  end.

End YouTube.

(** ** An environment for the examples

    The reference parser, no bracketed host, and no network: the URL
    converter answers with the error page of its last tier. The examples do
    not reach the Markdown and RTF libraries; the two functions below stand
    in for them. No template file is on disk, and the style asked for is the
    default one. *)

Module Env.
Import PyStr PyDict.

Definition BeautifulSoup : string -> Bs4.soup_t := HtmlParser.BeautifulSoup.

Definition check_bracketed_host : string -> bool := ContentDetector.no_bracketed_host.

Definition network_error : string := "network unreachable".

Definition _convert_url (url : string) : string * dict :=
  (NL ++ "                <h1>Error Loading URL</h1>" ++ NL
   ++ "                <p>Could not load content from: <a href=" ++ DQ
   ++ TOCGenerator.html_escape url ++ DQ ++ ">" ++ TOCGenerator.html_escape url
   ++ "</a></p>" ++ NL
   ++ "                <p>Error: " ++ TOCGenerator.html_escape network_error ++ "</p>" ++ NL
   ++ "                ",
   [("source", VStr url); ("type", VStr "web_article")]).

Definition markdown2_markdown (content : string) : string :=
  "<p>" ++ content ++ "</p>".

Definition rtf_to_text (content : string) : option string := None.

Definition now_isoformat : string := "2024-01-01T00:00:00".

Definition get_template (name : string) : string := CSSTemplates.get_default_css.

Definition detect_format : string -> DetectedFormat :=
  ContentDetector.detect_format check_bracketed_host.

Definition split_content (words_per_chapter : Z) : string -> option string -> list Chapter :=
  ChapterSplitter.split_content words_per_chapter BeautifulSoup.

Definition add_anchors_to_chapters : list Chapter -> list Chapter :=
  TOCGenerator.add_anchors_to_chapters BeautifulSoup.

Definition convert : string -> DetectedFormat -> option (string * dict) :=
  ContentConverter.convert BeautifulSoup _convert_url markdown2_markdown rtf_to_text.

Definition process_clipboard_content : string -> Options -> option ProcessedContent :=
  Pipeline.process_clipboard_content check_bracketed_host BeautifulSoup _convert_url
    markdown2_markdown rtf_to_text now_isoformat get_template.

Definition _create_epub_async
  : ProcessedContent -> dict -> option (Epub.EpubBook * string) :=
  Epub._create_epub_async BeautifulSoup "00000000-0000-4000-8000-000000000000"
    "20240101_000000" "Unknown Author" "en".

Definition _create_epub_from_cached_async
  : ProcessedContent -> option (Epub.EpubBook * string) :=
  Epub._create_epub_from_cached_async "00000000-0000-4000-8000-000000000000"
    "20240101_000000" "Unknown Author" "en".

End Env.

(** ** The documents of the examples *)

Module Samples.
Import PyStr.




End Samples.

(** * Properties *)

(** ** Strings *)

Module PyStrFacts.
Import PyStr.

Lemma is_empty_true (s : string) : is_empty s = true <-> s = EmptyString.
Proof. destruct s; simpl; split; intro H; congruence. Qed.

Lemma is_empty_false (s : string) : is_empty s = false <-> s <> EmptyString.
Proof. destruct s; simpl; split; intro H; congruence. Qed.

Lemma append_assoc (a b c : string) : (a ++ b) ++ c = a ++ (b ++ c).
Proof. induction a as [|x a IH]; cbn; [reflexivity|]. rewrite IH. reflexivity. Qed.

Lemma append_empty_r (a : string) : a ++ EmptyString = a.
Proof. induction a as [|x a IH]; cbn; [reflexivity|]. rewrite IH. reflexivity. Qed.

(** A string that does not open with a character of the set. *)
Definition no_lead (p : ascii -> bool) (s : string) : Prop :=
  match s with
  | EmptyString => True
  | String c _ => p c = false
  end.

Lemma lstrip_no_lead (p : ascii -> bool) (s : string) : no_lead p (lstrip_with p s).
Proof.
  induction s as [|c s IH]; simpl; [exact I|].
  destruct (p c) eqn:E; [exact IH|exact E].
Qed.

Lemma lstrip_fixed (p : ascii -> bool) (s : string) :
  no_lead p s -> lstrip_with p s = s.
Proof. destruct s as [|c s]; simpl; [reflexivity|]. intros ->. reflexivity. Qed.

Lemma rstrip_no_lead (p : ascii -> bool) (s : string) :
  no_lead p s -> no_lead p (rstrip_with p s).
Proof.
  destruct s as [|c s]; simpl; [exact (fun H => H)|].
  intros E. rewrite E, andb_false_r. exact E.
Qed.

Lemma rstrip_idempotent (p : ascii -> bool) (s : string) :
  rstrip_with p (rstrip_with p s) = rstrip_with p s.
Proof.
  induction s as [|c s IH]; simpl; [reflexivity|].
  destruct (is_empty (rstrip_with p s) && p c) eqn:E; simpl; [reflexivity|].
  rewrite IH, E. reflexivity.
Qed.

Lemma strip_idempotent (s : string) : strip (strip s) = strip s.
Proof.
  unfold strip.
  rewrite (lstrip_fixed isspace (rstrip_with isspace (lstrip_with isspace s))).
  - apply rstrip_idempotent.
  - apply rstrip_no_lead, lstrip_no_lead.
Qed.

End PyStrFacts.

(** ** Trees *)

Module Bs4Facts.
Import PyStr PyStrFacts Bs4.

(** Induction on a tree, with the hypothesis on all the contents of a tag. *)
Section NodeInduction.
Variable P : node -> Prop.
Hypothesis HStr : forall k s, P (Str k s).
Hypothesis HTag :
  forall name attrs contents, Forall P contents -> P (Tag name attrs contents).

Fixpoint node_induction (n : node) : P n :=
  match n with
  | Str k s => HStr k s
  | Tag name attrs contents =>
      HTag name attrs contents
        ((fix all (l : list node) : Forall P l :=
            match l with
            | [] => Forall_nil P
            | c :: r => Forall_cons c (node_induction c) (all r)
            end) contents)
  end.
End NodeInduction.

Lemma concat_cons (x : string) (l : list string) :
  String.concat EmptyString (x :: l) = x ++ String.concat EmptyString l.
Proof.
  destruct l as [|y l]; simpl; [|reflexivity].
  induction x as [|c x IH]; simpl; [reflexivity|]. rewrite <- IH. reflexivity.
Qed.

Lemma decode_tag (parent name : string) (attrs : attrs_t) (contents : list node) :
  decode parent (Tag name attrs contents)
  = match contents with
    | [] =>
        if name_in empty_element_tags name
        then "<" ++ name ++ attribute_string attrs ++ "/>"
        else "<" ++ name ++ attribute_string attrs ++ "></" ++ name ++ ">"
    | _ =>
        "<" ++ name ++ attribute_string attrs ++ ">"
        ++ decode_list name contents ++ "</" ++ name ++ ">"
    end.
Proof.
  assert (E : forall l,
    (fix decode_list (l : list node) : string :=
       match l with
       | [] => EmptyString
       | c :: r => decode name c ++ decode_list r
       end) l = decode_list name l).
  { induction l as [|x l IH]; [reflexivity|].
    unfold decode_list. cbn [map]. rewrite concat_cons, IH. reflexivity. }
  destruct contents as [|c r]; [reflexivity|].
  rewrite <- E. reflexivity.
Qed.



Lemma walk_tag (sel : string -> bool) (name : string) (attrs : attrs_t)
    (contents after : list node) :
  walk sel (Tag name attrs contents) after
  = ((if sel name then [(Tag name attrs contents, after)] else [])
     ++ walk_list sel contents)%list.
Proof.
  cbn [walk]. f_equal.
  induction contents as [|x l IH]; [reflexivity|].
  cbn [walk_list]. rewrite IH. reflexivity.
Qed.





Lemma modify_first_tag (sel : string -> bool) (f : node -> node) (name : string)
    (attrs : attrs_t) (contents : list node) :
  modify_first sel f (Tag name attrs contents)
  = if sel name then Some (f (Tag name attrs contents))
    else match modify_first_list sel f contents with
         | Some contents' => Some (Tag name attrs contents')
         | None => None
         end.
Proof.
  cbn [modify_first]. destruct (sel name); [reflexivity|].
  assert (E : forall l,
    (fix modify_list (l : list node) : option (list node) :=
       match l with
       | [] => None
       | c :: r =>
           match modify_first sel f c with
           | Some c' => Some (c' :: r)
           | None =>
               match modify_list r with
               | Some r' => Some (c :: r')
               | None => None
               end
           end
       end) l = modify_first_list sel f l).
  { induction l as [|x l IH]; [reflexivity|].
    cbn [modify_first_list]. rewrite IH. reflexivity. }
  rewrite E. reflexivity.
Qed.


End Bs4Facts.

(** ** Chapter splitting *)

Module SplitterFacts.
Import PyStr PyStrFacts Bs4 Bs4Facts ChapterSplitter.

(** *** Words of a concatenation *)






(** *** The loop of the word-count split *)

Section Loop.
Variable words_per_chapter : Z.

Definition words_of (element : node) : nat := word_count (get_text element).

Definition total_words (elements : list node) : nat :=
  list_sum (map words_of elements).

Lemma total_words_cons (e : node) (r : list node) :
  total_words (e :: r) = words_of e + total_words r.
Proof. reflexivity. Qed.

Lemma wc_step_content (st : wc_state) (e : node) :
  current_chapter_content (wc_step words_per_chapter st e) <> [].
Proof.
  unfold wc_step.
  destruct ((_ <? _)%Z && _); cbn; intro H; [discriminate H|].
  apply app_eq_nil in H. destruct H; discriminate.
Qed.

Lemma wc_step_chapters (st : wc_state) (e : node) :
  List.length (chapters (wc_step words_per_chapter st e)) >= List.length (chapters st).
Proof.
  unfold wc_step.
  destruct ((_ <? _)%Z && _); cbn; [rewrite length_app; simpl|]; lia.
Qed.

(** Once a chapter is open, the flush closes one more than were closed. *)
Lemma fold_open (elements : list node) (st : wc_state) :
  current_chapter_content st <> [] \/ elements <> [] ->
  List.length (wc_flush (fold_left (wc_step words_per_chapter) elements st))
  >= S (List.length (chapters st)).
Proof.
  revert st. induction elements as [|e r IH]; intros st H; cbn [fold_left].
  - destruct H as [H|H]; [|congruence].
    unfold wc_flush. destruct (current_chapter_content st); [congruence|].
    cbn. rewrite length_app. simpl. lia.
  - specialize (IH (wc_step words_per_chapter st e)
                  (or_introl (wc_step_content st e))).
    pose proof (wc_step_chapters st e). lia.
Qed.



End Loop.

(** *** Text inside block elements *)




Lemma total_words_app (a b : list node) :
  total_words (a ++ b) = total_words a + total_words b.
Proof.
  induction a as [|x a IH]; [reflexivity|].
  cbn [app]. rewrite !total_words_cons, IH. lia.
Qed.




(** *** The results of the two splits *)

Lemma split_by_headings_not_empty (soup : soup_t) (headings : list (node * list node)) :
  _split_by_headings soup headings <> [].
Proof.
  unfold _split_by_headings.
  destruct (flat_map _ headings); discriminate.
Qed.

Section Results.
Variable words_per_chapter : Z.

(** The word-count split is empty exactly on a text over the threshold
    without any block-level element. *)
Lemma split_by_word_count_empty (soup : soup_t) (title : option string) :
  _split_by_word_count words_per_chapter soup title = []
  <-> (words_per_chapter < Z.of_nat (word_count (get_text_soup soup)))%Z
      /\ find_all block_names soup = [].
Proof.
  unfold _split_by_word_count. fold (word_count (get_text_soup soup)).
  destruct (Z.leb_spec (Z.of_nat (word_count (get_text_soup soup))) words_per_chapter)
    as [Hle|Hlt].
  - split; [discriminate|]. intros [H _]. lia.
  - destruct (find_all block_names soup) as [|e r] eqn:E.
    + split; [auto|reflexivity].
    + split; [|intros [_ H]; discriminate].
      intros H.
      pose proof (fold_open words_per_chapter (e :: r) (mkWc [] 1 [] 0)) as F.
      rewrite H in F. cbn in F.
      assert (1 <= 0); [|lia]. apply F. right. discriminate.
Qed.

End Results.






Section Split.
Variable words_per_chapter : Z.
Variable BeautifulSoup : string -> soup_t.

(** [split_content] returns no chapter exactly when the document has at
    most one [h1]/[h2] heading, more words than the threshold and no
    block-level element. *)
Lemma split_content_empty (html_content : string) (title : option string) :
  split_content words_per_chapter BeautifulSoup html_content title = []
  <-> List.length (find_all heading_names (BeautifulSoup html_content)) <= 1
      /\ (words_per_chapter
          < Z.of_nat (word_count (get_text_soup (BeautifulSoup html_content))))%Z
      /\ find_all block_names (BeautifulSoup html_content) = [].
Proof.
  unfold split_content, find_all. rewrite length_map.
  destruct (Nat.ltb_spec 1
              (List.length (walk_list (name_in heading_names) (BeautifulSoup html_content))))
    as [H|H].
  - split.
    + intros E. destruct (split_by_headings_not_empty _ _ E).
    + intros [H' _]. lia.
  - rewrite split_by_word_count_empty. unfold find_all. tauto.
Qed.

End Split.

(** C1, where the code departs from it: a text of two words without any
    block-level element, split with a threshold of one word, yields no
    chapter at all. *)
Theorem split_content_returns_no_chapter :
  Env.split_content 1 "one two" None = [].
Proof. vm_compute. reflexivity. Qed.



(** The count is that of the whole text: [get_text] joins the strings of
    the document without separator, so the last word of a block and the
    first word of the next one count as one word when no whitespace lies
    between the two elements. *)
Remark adjacent_blocks_share_a_word :
  word_count (get_text_soup (Env.BeautifulSoup "<p>one two</p><p>three</p>")) = 2
  /\ word_count (get_text_soup (Env.BeautifulSoup "<p>one two</p> <p>three</p>")) = 3.
Proof. split; vm_compute; reflexivity. Qed.

(** The same boundary through [split_content], which takes the word-count
    path when the document has at most one [h1]/[h2] heading. *)
Corollary split_content_boundary (words_per_chapter : Z)
    (BeautifulSoup : string -> soup_t) (html_content : string) (title : option string) :
  List.length (find_all heading_names (BeautifulSoup html_content)) <= 1 ->
  Z.of_nat (word_count (get_text_soup (BeautifulSoup html_content))) = words_per_chapter ->
  List.length (split_content words_per_chapter BeautifulSoup html_content title) = 1.
Proof.
  intros Hh Hw. unfold split_content.
  unfold find_all in Hh. rewrite length_map in Hh.
  destruct (Nat.ltb_spec 1
              (List.length (walk_list (name_in heading_names) (BeautifulSoup html_content))))
    as [H|_]; [lia|].
  unfold _split_by_word_count. fold (word_count (get_text_soup (BeautifulSoup html_content))).
  rewrite Hw, Z.leb_refl. reflexivity.
Qed.

End SplitterFacts.

(** ** Anchors *)

Module AnchorFacts.
Import PyStr PyStrFacts Bs4 Bs4Facts TOCGenerator.

Lemma set_attr_idempotent (key value : string) (attrs : attrs_t) :
  set_attr key value (set_attr key value attrs) = set_attr key value attrs.
Proof.
  induction attrs as [|[k v] rest IH]; cbn [set_attr].
  - rewrite String.eqb_refl. reflexivity.
  - destruct (String.eqb key k) eqn:E1.
    + cbn [set_attr]. rewrite String.eqb_refl. reflexivity.
    + destruct (String.ltb key k) eqn:E2; cbn [set_attr].
      * rewrite String.eqb_refl. reflexivity.
      * rewrite E1, E2, IH. reflexivity.
Qed.

(** A transformer that keeps the name of the tag it is applied to and that
    changes nothing when applied again. *)
Definition stable (f : node -> node) : Prop :=
  forall name attrs contents,
    exists attrs' contents',
      f (Tag name attrs contents) = Tag name attrs' contents'
      /\ f (Tag name attrs' contents') = Tag name attrs' contents'.

Lemma with_attr_stable (key value : string) : stable (with_attr key value).
Proof.
  intros name attrs contents. exists (set_attr key value attrs), contents.
  cbn [with_attr]. rewrite set_attr_idempotent. split; reflexivity.
Qed.

Section First.
Variable sel : string -> bool.
Variable f : node -> node.
Hypothesis f_stable : stable f.

Lemma modify_first_list_again (l : list node) :
  Forall (fun n => forall n', modify_first sel f n = Some n' ->
                              modify_first sel f n' = Some n') l ->
  forall l', modify_first_list sel f l = Some l' ->
             modify_first_list sel f l' = Some l'.
Proof.
  induction 1 as [|n l Hn _ IH]; intros l' E; cbn [modify_first_list] in E;
    [discriminate|].
  destruct (modify_first sel f n) as [n'|] eqn:En.
  - injection E as <-. cbn [modify_first_list]. rewrite (Hn n' eq_refl). reflexivity.
  - destruct (modify_first_list sel f l) as [r'|] eqn:El; [|discriminate].
    injection E as <-. cbn [modify_first_list]. rewrite En, (IH r' eq_refl).
    reflexivity.
Qed.

Lemma modify_first_again (n n' : node) :
  modify_first sel f n = Some n' -> modify_first sel f n' = Some n'.
Proof.
  revert n'. induction n as [k s|name attrs contents IH] using node_induction;
    intros n' E; [discriminate|].
  rewrite modify_first_tag in E. destruct (sel name) eqn:Es.
  - injection E as <-.
    destruct (f_stable name attrs contents) as (attrs' & contents' & E1 & E2).
    rewrite E1, modify_first_tag, Es, E2. reflexivity.
  - destruct (modify_first_list sel f contents) as [contents'|] eqn:Ec; [|discriminate].
    injection E as <-. rewrite modify_first_tag, Es.
    rewrite (modify_first_list_again contents IH contents' Ec). reflexivity.
Qed.

Lemma modify_first_list_twice (l l' : list node) :
  modify_first_list sel f l = Some l' -> modify_first_list sel f l' = Some l'.
Proof.
  apply modify_first_list_again, Forall_forall.
  intros n _ n'. apply modify_first_again.
Qed.

(** The transformer finds a tag exactly when the search does. *)
Lemma modify_first_none_list (l : list node) :
  Forall (fun n => forall after, modify_first sel f n = None <-> walk sel n after = []) l ->
  modify_first_list sel f l = None <-> walk_list sel l = [].
Proof.
  induction 1 as [|n l Hn _ IH]; cbn [modify_first_list walk_list]; [tauto|].
  specialize (Hn l). destruct (modify_first sel f n) as [n'|].
  - split; [discriminate|]. intros E. apply app_eq_nil in E. destruct E as [E _].
    apply Hn in E. discriminate.
  - destruct Hn as [Hn _]. rewrite (Hn eq_refl). cbn [app].
    destruct (modify_first_list sel f l).
    + split; [discriminate|]. intros E. apply IH in E. discriminate.
    + split; [intros _; apply IH; reflexivity|reflexivity].
Qed.

Lemma modify_first_none (n : node) (after : list node) :
  modify_first sel f n = None <-> walk sel n after = [].
Proof.
  revert after. induction n as [k s|name attrs contents IH] using node_induction;
    intros after; [cbn; tauto|].
  rewrite modify_first_tag, walk_tag. destruct (sel name).
  - split; discriminate.
  - cbn [app]. rewrite <- (modify_first_none_list contents IH).
    destruct (modify_first_list sel f contents); split; congruence.
Qed.

Lemma modify_first_list_none (l : list node) :
  modify_first_list sel f l = None <-> walk_list sel l = [].
Proof.
  apply modify_first_none_list, Forall_forall. intros n _ after.
  apply modify_first_none.
Qed.

End First.

Lemma find_none (names : list string) (soup : soup_t) :
  find names soup = None <-> walk_list (name_in names) soup = [].
Proof.
  unfold find, find_all. destruct (walk_list (name_in names) soup); cbn; split;
    congruence.
Qed.

(** On a tree with a heading, setting the anchor again changes nothing. *)
Lemma anchor_soup_idempotent (i : nat) (soup : soup_t) :
  find anchor_names soup <> None ->
  anchor_soup i (anchor_soup i soup) = anchor_soup i soup.
Proof.
  intros Hf.
  destruct (modify_first_list (name_in anchor_names) (with_attr "id" (chapter_id i)) soup)
    as [soup'|] eqn:Em.
  - assert (E1 : anchor_soup i soup = soup').
    { unfold anchor_soup. rewrite Em. destruct (find anchor_names soup); congruence. }
    pose proof (modify_first_list_twice _ _ (with_attr_stable "id" (chapter_id i)) _ _ Em)
      as Em'.
    rewrite E1. unfold anchor_soup. rewrite Em'.
    destruct (find anchor_names soup') eqn:E'; [reflexivity|].
    apply find_none in E'.
    apply (modify_first_list_none _ (with_attr "id" (chapter_id i))) in E'.
    congruence.
  - apply modify_first_list_none in Em. apply find_none in Em. congruence.
Qed.

(** On a tree without heading, the anchor is a new container around it. *)
Lemma anchor_soup_wraps (i : nat) (soup : soup_t) :
  find anchor_names soup = None ->
  anchor_soup i soup = [Tag "div" [("id", chapter_id i)] soup]
  /\ find anchor_names (anchor_soup i soup) = None.
Proof.
  intros E. unfold anchor_soup. rewrite E. split; [reflexivity|].
  apply find_none. apply find_none in E.
  cbn [walk_list]. rewrite walk_tag, E. reflexivity.
Qed.

(** The text of a number is made of digits, so a chapter id is written
    between double quotes as it is. *)
Definition plain_char (c : ascii) : bool :=
  negb (has_char c ("&<>" ++ DQ)).

Lemma plain_unchanged (s : string) :
  forall_chars plain_char s = true ->
  substitute_xml s = s /\ has_char (chr 34) s = false.
Proof.
  induction s as [|c s IH]; cbn [forall_chars substitute_xml]; [split; reflexivity|].
  intros H. apply andb_true_iff in H. destruct H as [Hc Hs].
  destruct (IH Hs) as [IH1 IH2].
  unfold plain_char, has_char in Hc. cbn [exists_char append DQ] in Hc.
  rewrite !negb_orb in Hc. rewrite !andb_true_iff, !negb_true_iff in Hc.
  destruct Hc as (H1 & H2 & H3 & H4 & _).
  rewrite H1, H2, H3, IH1. split; [reflexivity|].
  unfold has_char in *. cbn [exists_char]. rewrite IH2.
  rewrite Ascii.eqb_sym, H4. reflexivity.
Qed.

Lemma digit_plain (d : nat) : d < 10 -> plain_char (digit_char d) = true.
Proof.
  intros H. do 10 (destruct d as [|d]; [reflexivity|]). lia.
Qed.

Lemma str_of_nat_fuel_plain (fuel n : nat) (acc : string) :
  forall_chars plain_char acc = true ->
  forall_chars plain_char (str_of_nat_fuel fuel n acc) = true.
Proof.
  revert n acc. induction fuel as [|fuel IH]; intros n acc H; cbn [str_of_nat_fuel];
    [exact H|].
  assert (H' : forall_chars plain_char (String (digit_char (n mod 10)) acc) = true).
  { cbn [forall_chars]. rewrite H, digit_plain; [reflexivity|].
    apply Nat.mod_upper_bound. discriminate. }
  destruct (n <? 10); [exact H'|apply IH, H'].
Qed.

Lemma chapter_id_quoted (i : nat) :
  quoted_attribute_value (substitute_xml (chapter_id i)) = DQ ++ chapter_id i ++ DQ.
Proof.
  assert (P : forall_chars plain_char (chapter_id i) = true).
  { unfold chapter_id, str_of_nat.
    generalize (str_of_nat_fuel_plain (S i) i EmptyString eq_refl).
    generalize (str_of_nat_fuel (S i) i EmptyString). intros s Hs.
    cbn [append forall_chars]. rewrite Hs. reflexivity. }
  destruct (plain_unchanged _ P) as [E1 E2].
  unfold quoted_attribute_value. rewrite E1, E2. reflexivity.
Qed.

Section Anchors.
Variable BeautifulSoup : string -> soup_t.

(** Reading back what [add_anchor] wrote gives the tree it wrote. *)
Definition reads_back (i : nat) (c : Chapter) : Prop :=
  BeautifulSoup (str_soup (anchor_soup i (BeautifulSoup (content c))))
  = anchor_soup i (BeautifulSoup (content c)).

Lemma add_anchor_again (i : nat) (c : Chapter) :
  find anchor_names (BeautifulSoup (content c)) <> None ->
  reads_back i c ->
  add_anchor BeautifulSoup (i, add_anchor BeautifulSoup (i, c))
  = add_anchor BeautifulSoup (i, c).
Proof.
  intros Hf Hr. unfold add_anchor at 1. cbn [fst snd].
  unfold add_anchor at 1 2. cbn [fst snd content title].
  unfold reads_back in Hr. rewrite Hr, (anchor_soup_idempotent i _ Hf).
  reflexivity.
Qed.

Lemma add_anchors_from (k : nat) (chapters : list Chapter) :
  (forall i c, In (i, c) (enumerate k chapters) ->
     find anchor_names (BeautifulSoup (content c)) <> None /\ reads_back i c) ->
  map (add_anchor BeautifulSoup)
    (enumerate k (map (add_anchor BeautifulSoup) (enumerate k chapters)))
  = map (add_anchor BeautifulSoup) (enumerate k chapters).
Proof.
  revert k. induction chapters as [|c r IH]; intros k H; [reflexivity|].
  cbn [enumerate map]. f_equal.
  - destruct (H k c (or_introl eq_refl)) as [Hf Hr]. apply add_anchor_again; assumption.
  - apply IH. intros i c' Hin. apply H. right. exact Hin.
Qed.

(** C6, as the code has it. Over chapters that each contain an [h1], [h2]
    or [h3] heading, and whose anchored text the parser reads back as the
    anchored tree, [add_anchors_to_chapters] applied twice gives what it
    gives applied once. *)
Theorem add_anchors_idempotent_with_headings (chapters : list Chapter) :
  (forall i c, In (i, c) (enumerate 1 chapters) ->
     find anchor_names (BeautifulSoup (content c)) <> None /\ reads_back i c) ->
  add_anchors_to_chapters BeautifulSoup (add_anchors_to_chapters BeautifulSoup chapters)
  = add_anchors_to_chapters BeautifulSoup chapters.
Proof. apply add_anchors_from. Qed.

(** A chapter without heading gets one more container each time. *)
Lemma add_anchor_wraps_again (i : nat) (c : Chapter) :
  find anchor_names (BeautifulSoup (content c)) = None ->
  reads_back i c ->
  content (add_anchor BeautifulSoup (i, add_anchor BeautifulSoup (i, c)))
  = "<div id=" ++ DQ ++ chapter_id i ++ DQ ++ ">"
    ++ content (add_anchor BeautifulSoup (i, c)) ++ "</div>".
Proof.
  intros Hf Hr. unfold add_anchor. cbn [fst snd content].
  unfold reads_back in Hr. rewrite Hr.
  destruct (anchor_soup_wraps i _ Hf) as [E1 E2].
  destruct (anchor_soup_wraps i _ E2) as [E3 _].
  rewrite E3, E1.
  set (inner := Tag "div" [("id", chapter_id i)] (BeautifulSoup (content c))).
  unfold str_soup, decode_list. cbn [map String.concat].
  rewrite (decode_tag ROOT_TAG_NAME "div" _ [inner]).
  unfold decode_list. cbn [map String.concat attribute_string].
  rewrite chapter_id_quoted.
  assert (E : decode "div" inner = decode ROOT_TAG_NAME inner).
  { unfold inner. rewrite !decode_tag. reflexivity. }
  rewrite E, !append_assoc. reflexivity.
Qed.

End Anchors.

Lemma add_anchors_idempotent_with_headings_witness :
  Env.add_anchors_to_chapters
    (Env.add_anchors_to_chapters
       [mkChapter "Intro" "<h1>Intro</h1><p>x</p>";
        mkChapter "Next" "<p>y</p><h2 class='k'>Next</h2>"])
  = Env.add_anchors_to_chapters
      [mkChapter "Intro" "<h1>Intro</h1><p>x</p>";
       mkChapter "Next" "<p>y</p><h2 class='k'>Next</h2>"].
Proof.
  apply (add_anchors_idempotent_with_headings Env.BeautifulSoup
           [mkChapter "Intro" "<h1>Intro</h1><p>x</p>";
            mkChapter "Next" "<p>y</p><h2 class='k'>Next</h2>"]).
  intros i c H. simpl in H.
  destruct H as [H|[H|[]]]; injection H as <- <-; split;
    solve [vm_compute; discriminate | vm_compute; reflexivity].
Defined.

(** C6 as stated fails: a chapter without heading is wrapped once by the
    first application and once more by the second. *)
Lemma anchors_without_heading_not_idempotent :
  Env.add_anchors_to_chapters [mkChapter "T" "hello"]
  = [mkChapter "T" ("<div id=" ++ DQ ++ "chapter_1" ++ DQ ++ ">hello</div>")]
  /\ Env.add_anchors_to_chapters (Env.add_anchors_to_chapters [mkChapter "T" "hello"])
     = [mkChapter "T" ("<div id=" ++ DQ ++ "chapter_1" ++ DQ ++ "><div id=" ++ DQ
                       ++ "chapter_1" ++ DQ ++ ">hello</div></div>")]
  /\ Env.add_anchors_to_chapters (Env.add_anchors_to_chapters [mkChapter "T" "hello"])
     <> Env.add_anchors_to_chapters [mkChapter "T" "hello"].
Proof.
  split; [vm_compute; reflexivity|]. split; [vm_compute; reflexivity|].
  intros H. vm_compute in H. discriminate H.
Qed.

End AnchorFacts.

(** ** The orchestrator *)

Module PipelineFacts.
Import PyStr Bs4 PyDict TOCGenerator Pipeline.

Lemma enumerate_length {A : Type} (k : nat) (l : list A) :
  List.length (enumerate k l) = List.length l.
Proof.
  revert k. induction l as [|x l IH]; intros k; cbn; [reflexivity|].
  rewrite IH. reflexivity.
Qed.

Lemma add_anchors_length (BeautifulSoup : string -> soup_t) (l : list Chapter) :
  List.length (add_anchors_to_chapters BeautifulSoup l) = List.length l.
Proof.
  unfold add_anchors_to_chapters. rewrite length_map. apply enumerate_length.
Qed.

Section Process.
Variable check_bracketed_host : string -> bool.
Variable BeautifulSoup : string -> soup_t.
Variable _convert_url : string -> string * dict.
Variable markdown2_markdown : string -> string.
Variable rtf_to_text : string -> option string.
Variable now_isoformat : string.
Variable get_template : string -> string.

(** C2. In the output of the orchestrator, [toc_html] is present exactly
    when there is more than one chapter or [force_toc] was set. *)
Theorem toc_html_present_iff (content : string) (options : Options)
    (output : ProcessedContent) :
  process_clipboard_content check_bracketed_host BeautifulSoup _convert_url
    markdown2_markdown rtf_to_text now_isoformat get_template content options
  = Some output ->
  toc_html output <> None
  <-> (1 < List.length (chapters output) \/ force_toc options = true).
Proof.
  unfold process_clipboard_content.
  destruct (ContentConverter.convert _ _ _ _ _ _) as [[html_content metadata]|];
    [|discriminate].
  set (split := if split_chapters options then _ else _).
  intros E. injection E as <-. cbn [toc_html chapters].
  destruct ((1 <? List.length split) || force_toc options) eqn:B; cbn [fst snd].
  - rewrite add_anchors_length. split; [intros _|discriminate].
    apply orb_true_iff in B. destruct B as [B|B]; [left|right; exact B].
    apply Nat.ltb_lt, B.
  - apply orb_false_iff in B. destruct B as [B1 B2]. apply Nat.ltb_ge in B1.
    split; [congruence|]. intros [H|H]; [lia|congruence].
Qed.

End Process.

Lemma toc_html_present_iff_witness :
  exists output,
    Env.process_clipboard_content "Just some text" default_options = Some output
    /\ (toc_html output <> None
        <-> (1 < List.length (chapters output) \/ force_toc default_options = true)).
Proof.
  eexists. split.
  - vm_compute. reflexivity.
  - apply (toc_html_present_iff Env.check_bracketed_host Env.BeautifulSoup
             Env._convert_url Env.markdown2_markdown Env.rtf_to_text
             Env.now_isoformat Env.get_template "Just some text" default_options).
    vm_compute. reflexivity.
Defined.

(** Through the whole pipeline: an HTML text of three words in inline
    elements only, with a threshold of one word, comes out without any
    chapter, and the assembler then makes no book. *)
Lemma pipeline_returns_no_chapter :
  option_map chapters
    (Env.process_clipboard_content "<span>a</span> <b>b</b> <i>c</i>"
       (mkOptions true 1 false "default")) = Some []
  /\ match Env.process_clipboard_content "<span>a</span> <b>b</b> <i>c</i>"
             (mkOptions true 1 false "default") with
     | Some processed => Env._create_epub_async processed [] = None
     | None => False
     end.
Proof. split; vm_compute; reflexivity. Qed.

End PipelineFacts.

(** ** ePub assembly *)

Module EpubFacts.
Import PyStr Bs4 PyDict TOCGenerator Epub.

Lemma enumerate_fst {A : Type} (k : nat) (l : list A) :
  map fst (enumerate k l) = seq k (List.length l).
Proof.
  revert k. induction l as [|x l IH]; intros k; cbn; [reflexivity|].
  rewrite IH. reflexivity.
Qed.

Lemma enumerate_snd {A : Type} (k : nat) (l : list A) :
  map snd (enumerate k l) = l.
Proof.
  revert k. induction l as [|x l IH]; intros k; cbn; [reflexivity|].
  rewrite IH. reflexivity.
Qed.

Definition chapter_uid (i : nat) : string := "chapter_" ++ str_of_nat i.

Lemma chapter_items_uid (wrap : string -> string -> string) (k : nat)
    (l : list Chapter) :
  map uid (map (chapter_item wrap) (enumerate k l))
  = map chapter_uid (seq k (List.length l)).
Proof.
  rewrite <- enumerate_fst, !map_map. reflexivity.
Qed.

Lemma chapter_items_title (wrap : string -> string -> string) (k : nat)
    (l : list Chapter) :
  map html_title (map (chapter_item wrap) (enumerate k l)) = map title l.
Proof.
  rewrite <- (enumerate_snd k l) at 2. rewrite !map_map. reflexivity.
Qed.

(** The uid of the table of contents page, when there is one. *)
Definition toc_uids (toc_html : option string) : list string :=
  if toc_present toc_html then ["toc"] else [].

Section Assemble.
Variable BeautifulSoup : string -> soup_t.
Variable uuid timestamp default_author default_language : string.

(** C9. Every assembled book has the spine [nav], the table of contents
    page when there is one, then [chapter_1] .. [chapter_n] in that order,
    and its navigation lists the same documents without [nav]. *)
Theorem spine_and_toc_order (processed : ProcessedContent) (metadata : dict) :
  chapters processed <> [] ->
  exists book file,
    _create_epub_async BeautifulSoup uuid timestamp default_author default_language
      processed metadata = Some (book, file)
    /\ spine book = SpineNav :: map SpineDoc (toc book)
    /\ map uid (toc book)
       = (toc_uids (toc_html processed)
          ++ map chapter_uid (seq 1 (List.length (chapters processed))))%list.
Proof.
  intros Hne. unfold _create_epub_async.
  destruct (chapters processed) as [|c l] eqn:E; [congruence|].
  eexists. eexists. split; [reflexivity|]. cbn [spine toc].
  split; [reflexivity|].
  rewrite map_app, chapter_items_uid. f_equal.
  unfold toc_uids. destruct (toc_html processed) as [t|]; [|reflexivity].
  destruct (toc_present (Some t)); reflexivity.
Qed.

(** The book made from a cached result is ordered in the same way. *)
Lemma cached_spine_and_toc_order (cached : ProcessedContent) :
  chapters cached <> [] ->
  exists book file,
    _create_epub_from_cached_async uuid timestamp default_author default_language
      cached = Some (book, file)
    /\ spine book = SpineNav :: map SpineDoc (toc book)
    /\ map uid (toc book)
       = (toc_uids (toc_html cached)
          ++ map chapter_uid (seq 1 (List.length (chapters cached))))%list.
Proof.
  intros Hne. unfold _create_epub_from_cached_async.
  destruct (chapters cached) as [|c l] eqn:E; [congruence|].
  eexists. eexists. split; [reflexivity|]. cbn [spine toc].
  split; [reflexivity|].
  rewrite map_app, chapter_items_uid. f_equal.
  unfold toc_uids. destruct (toc_html cached) as [t|]; [|reflexivity].
  destruct (toc_present (Some t)); reflexivity.
Qed.

End Assemble.

Lemma spine_and_toc_order_witness :
  exists book file,
    Env._create_epub_async
      (mkProcessed [mkChapter "A" "<p>a</p>"; mkChapter "B" "<p>b</p>"] []
         EmptyString plain (Some "<ul></ul>")) []
    = Some (book, file)
    /\ spine book = SpineNav :: map SpineDoc (toc book)
    /\ map uid (toc book) = ["toc"; "chapter_1"; "chapter_2"].
Proof.
  apply (spine_and_toc_order Env.BeautifulSoup "00000000-0000-4000-8000-000000000000"
           "20240101_000000" "Unknown Author" "en"
           (mkProcessed [mkChapter "A" "<p>a</p>"; mkChapter "B" "<p>b</p>"] []
              EmptyString plain (Some "<ul></ul>")) []).
  simpl. discriminate.
Defined.

(** *** Chapter bodies *)




End EpubFacts.

(** ** Conversion of HTML *)

Module ConverterFacts.
Import PyStr Bs4 Bs4Facts PyDict ContentConverter Samples.













End ConverterFacts.

(** ** Whitespace and words *)

Module TextFacts.
Import PyStr PyStrFacts PyText.

(** A word: not empty, without whitespace. *)
Definition nonws (s : string) : bool := forall_chars (fun c => negb (isspace c)) s.

Definition is_word (w : string) : Prop := w <> EmptyString /\ nonws w = true.

Lemma forall_chars_append (p : ascii -> bool) (a b : string) :
  forall_chars p (a ++ b) = forall_chars p a && forall_chars p b.
Proof.
  induction a as [|c a IH]; cbn [append forall_chars]; [reflexivity|].
  rewrite IH, andb_assoc. reflexivity.
Qed.

Lemma forall_chars_lstrip (p q : ascii -> bool) (s : string) :
  forall_chars p s = true -> forall_chars p (lstrip_with q s) = true.
Proof.
  induction s as [|c s IH]; cbn [lstrip_with forall_chars]; [reflexivity|].
  intros H. destruct (q c); [|exact H].
  apply andb_true_iff in H. apply IH, H.
Qed.

Lemma forall_chars_rstrip (p q : ascii -> bool) (s : string) :
  forall_chars p s = true -> forall_chars p (rstrip_with q s) = true.
Proof.
  induction s as [|c s IH]; cbn [rstrip_with forall_chars]; [reflexivity|].
  intros H. apply andb_true_iff in H. destruct H as [Hc Hs].
  destruct (is_empty (rstrip_with q s) && q c); [reflexivity|].
  cbn [forall_chars]. rewrite Hc, (IH Hs). reflexivity.
Qed.

Lemma forall_chars_strip (p : ascii -> bool) (s : string) :
  forall_chars p s = true -> forall_chars p (strip s) = true.
Proof. intros H. apply forall_chars_rstrip, forall_chars_lstrip, H. Qed.

Lemma forall_chars_take (p : ascii -> bool) (n : nat) (s : string) :
  forall_chars p s = true -> forall_chars p (take n s) = true.
Proof.
  revert n. induction s as [|c s IH]; intros [|n] H; try reflexivity.
  cbn [take forall_chars] in *. apply andb_true_iff in H. destruct H as [Hc Hs].
  rewrite Hc, (IH n Hs). reflexivity.
Qed.

Lemma forall_chars_map (p : ascii -> bool) (f : ascii -> ascii) (s : string) :
  (forall c, p (f c) = true) -> forall_chars p (map_chars f s) = true.
Proof.
  intros H. induction s as [|c s IH]; cbn [map_chars forall_chars]; [reflexivity|].
  rewrite H, IH. reflexivity.
Qed.

Lemma take_length (n : nat) (s : string) : String.length (take n s) <= n.
Proof.
  revert s. induction n as [|n IH]; intros [|c s]; cbn; try lia.
  specialize (IH s). lia.
Qed.

(** *** Stripping *)

Lemma lstrip_all (p : ascii -> bool) (s : string) :
  forall_chars p s = true -> lstrip_with p s = EmptyString.
Proof.
  induction s as [|c s IH]; cbn [lstrip_with forall_chars]; [reflexivity|].
  intros H. apply andb_true_iff in H. destruct H as [Hc Hs]. rewrite Hc. apply IH, Hs.
Qed.

Lemma rstrip_all (p : ascii -> bool) (s : string) :
  forall_chars p s = true -> rstrip_with p s = EmptyString.
Proof.
  induction s as [|c s IH]; cbn [rstrip_with forall_chars]; [reflexivity|].
  intros H. apply andb_true_iff in H. destruct H as [Hc Hs].
  rewrite (IH Hs), Hc. reflexivity.
Qed.

Lemma strip_whitespace_only (s : string) :
  forall_chars isspace s = true -> strip s = EmptyString.
Proof. intros H. unfold strip. rewrite (lstrip_all _ _ H). reflexivity. Qed.

Lemma rstrip_nonws (s : string) : nonws s = true -> rstrip_with isspace s = s.
Proof.
  induction s as [|c s IH]; cbn [rstrip_with nonws forall_chars]; [reflexivity|].
  intros H. apply andb_true_iff in H. destruct H as [Hc Hs].
  apply negb_true_iff in Hc. rewrite Hc, andb_false_r, (IH Hs). reflexivity.
Qed.

Lemma rstrip_append (p : ascii -> bool) (a b : string) :
  rstrip_with p b <> EmptyString ->
  rstrip_with p (a ++ b) = a ++ rstrip_with p b.
Proof.
  intros Hb. induction a as [|c a IH]; cbn [append rstrip_with]; [reflexivity|].
  rewrite IH.
  destruct (a ++ rstrip_with p b) eqn:E; [|reflexivity].
  destruct a; [cbn in E; congruence|discriminate].
Qed.

Lemma rstrip_append_all (p : ascii -> bool) (a b : string) :
  forall_chars p b = true -> rstrip_with p (a ++ b) = rstrip_with p a.
Proof.
  intros Hb. induction a as [|c a IH]; cbn [append rstrip_with].
  - apply rstrip_all, Hb.
  - rewrite IH. reflexivity.
Qed.

(** *** [re.sub(r"\s+", " ", text).strip()] is [" ".join(text.split())] *)

Lemma split_from_not_nil (cur s : string) :
  cur <> EmptyString -> split_from cur s <> [].
Proof.
  revert cur. induction s as [|c s IH]; intros cur H; cbn [split_from].
  - destruct cur; [congruence|discriminate].
  - destruct (isspace c).
    + destruct cur; [congruence|discriminate].
    + apply IH. destruct cur; discriminate.
Qed.

Lemma join_cons (sep x : string) (l : list string) :
  l <> [] -> join sep (x :: l) = x ++ sep ++ join sep l.
Proof. destruct l; [congruence|reflexivity]. Qed.

Lemma nonws_snoc (cur : string) (c : ascii) :
  nonws cur = true -> isspace c = false ->
  nonws (cur ++ String c EmptyString) = true.
Proof.
  intros H Hc. unfold nonws in *. rewrite forall_chars_append, H.
  cbn [forall_chars]. rewrite Hc. reflexivity.
Qed.

Lemma collapse_open (s : string) :
  forall cur, cur <> EmptyString -> nonws cur = true ->
    rstrip_with isspace (cur ++ sub_ws false s) = join " " (split_from cur s)
    /\ rstrip_with isspace (cur ++ " " ++ sub_ws true s)
       = join " " (cur :: split_from EmptyString s).
Proof.
  induction s as [|c s IH]; intros cur Hne Hw.
  - cbn [sub_ws split_from]. split.
    + rewrite append_empty_r, (rstrip_nonws cur Hw).
      destruct cur; [congruence|reflexivity].
    + change (cur ++ " " ++ EmptyString) with (cur ++ " ").
      rewrite (rstrip_append_all isspace cur " " eq_refl). apply rstrip_nonws, Hw.
  - cbn [sub_ws split_from]. destruct (isspace c) eqn:Ec.
    + destruct (IH cur Hne Hw) as [_ IH2]. split; [|exact IH2].
      destruct cur; [congruence|]. exact IH2.
    + assert (Hne' : cur ++ String c EmptyString <> EmptyString)
        by (destruct cur; discriminate).
      destruct (IH _ Hne' (nonws_snoc cur c Hw Ec)) as [IH1 _]. split.
      * rewrite <- IH1, append_assoc. reflexivity.
      * assert (Hc : String c EmptyString <> EmptyString) by discriminate.
        assert (Hcw : nonws (String c EmptyString) = true)
          by (cbn; rewrite Ec; reflexivity).
        destruct (IH _ Hc Hcw) as [IH3 _].
        cbn [append] in IH3 |- *.
        rewrite (join_cons " " cur _ (split_from_not_nil _ s Hc)), <- IH3.
        change (cur ++ String " " (String c (sub_ws false s)))
          with (cur ++ " " ++ String c (sub_ws false s)).
        rewrite <- append_assoc. rewrite rstrip_append.
        -- rewrite append_assoc. reflexivity.
        -- cbn [rstrip_with]. rewrite Ec, andb_false_r. discriminate.
Qed.

Lemma collapse_strip_from (s : string) (in_run : bool) :
  rstrip_with isspace (lstrip_with isspace (sub_ws in_run s))
  = join " " (split_from EmptyString s).
Proof.
  revert in_run. induction s as [|c s IH]; intros in_run; [reflexivity|].
  cbn [sub_ws split_from]. destruct (isspace c) eqn:Ec.
  - destruct in_run; [apply IH|]. cbn [lstrip_with]. apply IH.
  - cbn [lstrip_with]. rewrite Ec.
    assert (Hc : String c EmptyString <> EmptyString) by discriminate.
    assert (Hcw : nonws (String c EmptyString) = true)
      by (cbn; rewrite Ec; reflexivity).
    destruct (collapse_open s _ Hc Hcw) as [H _]. exact H.
Qed.

Lemma strip_collapse (text : string) :
  strip (collapse_whitespace text) = join " " (split text).
Proof. apply collapse_strip_from. Qed.

Lemma split_from_words (s cur : string) :
  nonws cur = true -> Forall is_word (split_from cur s).
Proof.
  revert cur. induction s as [|c s IH]; intros cur Hw; cbn [split_from].
  - destruct cur; [constructor|].
    constructor; [split; [discriminate|exact Hw]|constructor].
  - destruct (isspace c) eqn:Ec.
    + destruct cur; [apply IH; reflexivity|].
      constructor; [split; [discriminate|exact Hw]|apply IH; reflexivity].
    + apply IH, nonws_snoc; assumption.
Qed.

Lemma split_words (s : string) : Forall is_word (split s).
Proof. apply split_from_words. reflexivity. Qed.

End TextFacts.

(** ** Subtitles, titles and languages *)

Module SubtitleFacts.
Import PyStr PyStrFacts PyText TextFacts Subtitles LlmAnthropic YouTube.

(** X1. The text made from an SRT file is the words of the caption lines kept,
    joined by single spaces: it has no line break, no run of whitespace and
    no whitespace at either end. *)
Theorem srt_text_is_spaced_words (srt : string) :
  _srt_to_text srt
  = join " " (split (join " " (flat_map srt_line (splitlines srt))))
  /\ Forall is_word (split (join " " (flat_map srt_line (splitlines srt)))).
Proof.
  split; [apply strip_collapse|apply split_words].
Qed.

(** X2. The text made from a WebVTT file is the words of the caption lines
    kept, the annotations such as [[Music]] removed, joined by single spaces:
    it has no line break, no run of whitespace and no whitespace at either
    end. *)
Theorem vtt_text_is_spaced_words (vtt : string) :
  _vtt_to_text vtt
  = join " " (split (remove_annotations (join NL (flat_map vtt_line (splitlines vtt)))))
  /\ Forall is_word
       (split (remove_annotations (join NL (flat_map vtt_line (splitlines vtt))))).
Proof.
  split; [apply strip_collapse|apply split_words].
Qed.

Lemma path_friendly_replaced (c : ascii) :
  path_friendly (if path_friendly c then c else "_"%char) = true.
Proof. destruct (path_friendly c) eqn:E; [exact E|reflexivity]. Qed.

(** X3. A title read from the first line of a text is never empty, has at most
    80 characters, and each of them is alphanumeric, a space, an underscore
    or a hyphen. *)
Theorem sanitize_first_line_safe (text : string) :
  sanitize_first_line text <> EmptyString
  /\ String.length (sanitize_first_line text) <= 80
  /\ forall_chars path_friendly (sanitize_first_line text) = true.
Proof.
  unfold sanitize_first_line.
  set (s := if startswith _ "# " then _ else _).
  set (safe := strip (map_chars _ s)).
  destruct (is_empty (take 80 safe)) eqn:E.
  - repeat split; [discriminate|cbn; lia].
  - apply is_empty_false in E. repeat split; [exact E|apply take_length|].
    apply forall_chars_take, forall_chars_strip, forall_chars_map.
    apply path_friendly_replaced.
Qed.

(** *** Subtitle languages *)

Lemma existsb_eqb_false (x : string) (l : list string) :
  existsb (String.eqb x) l = false -> ~ In x l.
Proof.
  intros H Hin. assert (E : existsb (String.eqb x) l = true).
  { apply existsb_exists. exists x. split; [exact Hin|apply String.eqb_refl]. }
  congruence.
Qed.

Lemma normalize_langs_spec (given langs_norm : list string) :
  NoDup langs_norm ->
  Forall (fun c => c <> EmptyString) langs_norm ->
  List.length langs_norm < 3 ->
  (forall x, In x langs_norm -> exists c, In c given /\ x = lower (strip c)) ->
  forall rest, incl rest given ->
  let result := normalize_langs langs_norm rest in
  NoDup result
  /\ Forall (fun c => c <> EmptyString) result
  /\ List.length result <= 3
  /\ (forall x, In x result -> exists c, In c given /\ x = lower (strip c)).
Proof.
  intros Hd Hn Hl Hp rest. revert langs_norm Hd Hn Hl Hp.
  induction rest as [|c rest IH]; intros langs_norm Hd Hn Hl Hp Hincl;
    cbv zeta; cbn [normalize_langs].
  - repeat split; try assumption. lia.
  - cbv zeta in IH. set (cc := lower (strip c)).
    assert (Hrest : incl rest given) by (intros x Hx; apply Hincl; right; exact Hx).
    destruct (negb (is_empty cc) && negb (existsb (String.eqb cc) langs_norm)) eqn:E.
    + apply andb_true_iff in E. destruct E as [E1 E2].
      apply negb_true_iff in E1, E2. apply is_empty_false in E1.
      apply existsb_eqb_false in E2.
      assert (Hd' : NoDup (langs_norm ++ [cc])).
      { apply NoDup_app; [exact Hd|repeat constructor; intros []| ].
        intros x Hx [<-|[]]. exact (E2 Hx). }
      assert (Hn' : Forall (fun c => c <> EmptyString) (langs_norm ++ [cc])).
      { apply Forall_app. split; [exact Hn|repeat constructor; exact E1]. }
      assert (Hp' : forall x, In x (langs_norm ++ [cc]) ->
                      exists c, In c given /\ x = lower (strip c)).
      { intros x Hx. apply in_app_or in Hx. destruct Hx as [Hx|[<-|[]]].
        - apply Hp, Hx.
        - exists c. split; [apply Hincl; left; reflexivity|reflexivity]. }
      assert (Hlen : List.length (langs_norm ++ [cc]) = S (List.length langs_norm))
        by (rewrite length_app; cbn; lia).
      destruct (3 <=? List.length (langs_norm ++ [cc])) eqn:B.
      * repeat split; try assumption. lia.
      * apply Nat.leb_gt in B. apply IH; assumption.
    + destruct (3 <=? List.length langs_norm) eqn:B.
      * apply Nat.leb_le in B. lia.
      * apply IH; assumption.
Qed.

(** X4. The subtitle languages kept by the converter are one to three codes,
    without repetition and none of them empty; each is a code asked for,
    stripped and in lower case, or the list is the default one. *)
Theorem youtube_langs_normalized (youtube_langs : option (list string)) :
  let result := youtube_langs_of youtube_langs in
  1 <= List.length result <= 3
  /\ NoDup result
  /\ Forall (fun c => c <> EmptyString) result
  /\ (result = default_langs
      \/ exists given, youtube_langs = Some given
           /\ forall x, In x result -> exists c, In c given /\ x = lower (strip c)).
Proof.
  assert (D : 1 <= List.length default_langs <= 3
              /\ NoDup default_langs
              /\ Forall (fun c => c <> EmptyString) default_langs).
  { repeat split; cbn; try lia.
    - repeat constructor; cbn; intuition discriminate.
    - repeat constructor; discriminate. }
  assert (G : forall given,
            let result := match normalize_langs [] given with
                          | [] => default_langs | l => l end in
            1 <= List.length result <= 3
            /\ NoDup result
            /\ Forall (fun c => c <> EmptyString) result
            /\ (result = default_langs
                \/ forall x, In x result -> exists c, In c given /\ x = lower (strip c))).
  { intros given.
    destruct (normalize_langs_spec given [] (NoDup_nil _) (Forall_nil _))
      with (rest := given) as (H1 & H2 & H3 & H4);
      [cbn; lia|intros x []|apply incl_refl|].
    cbn zeta in *. destruct (normalize_langs [] given) as [|x l] eqn:E.
    - destruct D as (D1 & D2 & D3). repeat split; try assumption; try apply D1.
      left. reflexivity.
    - repeat split; try assumption; [cbn; lia|]. right. exact H4. }
  unfold youtube_langs_of.
  destruct youtube_langs as [[|c rest]|].
  - destruct (G default_langs) as (H1 & H2 & H3 & _).
    repeat split; try assumption; try apply H1. left. reflexivity.
  - destruct (G (c :: rest)) as (H1 & H2 & H3 & H4).
    repeat split; try assumption; try apply H1.
    destruct H4 as [H4|H4]; [left; exact H4|right].
    exists (c :: rest). split; [reflexivity|exact H4].
  - destruct (G default_langs) as (H1 & H2 & H3 & _).
    repeat split; try assumption; try apply H1. left. reflexivity.
Qed.

End SubtitleFacts.

(** ** Format detection *)

Module DetectorFacts.
Import PyStr PyStrFacts ContentDetector.

Section WithHostCheck.
Variable check_bracketed_host : string -> bool.

(** Past the emptiness test, the answer is a function of the stripped text. *)
Definition classify (content : string) : DetectedFormat :=
  if _is_url check_bracketed_host content then url
  else if startswith content ("{" ++ BSL ++ "rtf") then rtf
  else if _is_html content then html
  else if _is_markdown content then markdown
  else plain.

Lemma detect_unfold (s : string) :
  detect_format check_bracketed_host s
  = if is_empty s then plain else classify (strip s).
Proof. reflexivity. Qed.

Lemma classify_empty : classify EmptyString = plain.
Proof. reflexivity. Qed.

Lemma detect_by_strip (s : string) :
  detect_format check_bracketed_host s = classify (strip s).
Proof.
  rewrite detect_unfold. destruct s as [|c s]; [reflexivity|reflexivity].
Qed.

Lemma classify_url (t : string) :
  classify t = url <-> _is_url check_bracketed_host t = true.
Proof.
  unfold classify. destruct (_is_url check_bracketed_host t); split; intro H;
    try reflexivity; try discriminate.
  destruct (startswith _ _); [discriminate|].
  destruct (_is_html t); [discriminate|].
  destruct (_is_markdown t); discriminate.
Qed.

Lemma is_url_spec (t : string) :
  _is_url check_bracketed_host t = true
  <-> has_char (chr 10) t = false
      /\ exists scheme netloc,
           UrlParse.urlparse check_bracketed_host t = Some (scheme, netloc)
           /\ (scheme = "http" \/ scheme = "https")
           /\ netloc <> EmptyString.
Proof.
  unfold _is_url. destruct (has_char (chr 10) t).
  - split; [discriminate|]. intros [H _]. discriminate.
  - destruct (UrlParse.urlparse check_bracketed_host t) as [[scheme netloc]|].
    + rewrite andb_true_iff, orb_true_iff, !String.eqb_eq, negb_true_iff, is_empty_false.
      split.
      * intros [Hs Hn]. split; [reflexivity|]. exists scheme, netloc. auto.
      * intros [_ (sc & nl & E & Hs & Hn)]. injection E as <- <-. auto.
    + split; [discriminate|]. intros [_ (sc & nl & E & _)]. discriminate.
Qed.

(** C10. Format detection does not see leading and trailing whitespace:
    for every text [s], [detect_format] answers on [s] stripped what it
    answers on [s]. *)
Theorem detect_format_strip_invariant (s : string) :
  detect_format check_bracketed_host (strip s) = detect_format check_bracketed_host s.
Proof.
  rewrite !detect_by_strip, strip_idempotent. reflexivity.
Qed.

(** C4, as the code has it. A text is classified [url] exactly when, once
    its leading and trailing whitespace is stripped, it holds no newline and
    [urlparse] reads in it the scheme [http] or [https] and a non-empty
    netloc. *)
Theorem detect_format_url_iff (s : string) :
  detect_format check_bracketed_host s = url
  <-> has_char (chr 10) (strip s) = false
      /\ exists scheme netloc,
           UrlParse.urlparse check_bracketed_host (strip s) = Some (scheme, netloc)
           /\ (scheme = "http" \/ scheme = "https")
           /\ netloc <> EmptyString.
Proof.
  rewrite detect_by_strip, classify_url. apply is_url_spec.
Qed.

(** The two halves of C4 in the words of the specification, for the
    stripped text. *)
Corollary single_line_url_detected (s scheme netloc : string) :
  has_char (chr 10) (strip s) = false ->
  UrlParse.urlparse check_bracketed_host (strip s) = Some (scheme, netloc) ->
  scheme = "http" \/ scheme = "https" ->
  netloc <> EmptyString ->
  detect_format check_bracketed_host s = url.
Proof.
  intros Hn Hp Hs Hne. rewrite detect_by_strip, classify_url.
  apply is_url_spec. split; [exact Hn|].
  exists scheme, netloc. auto.
Qed.

Corollary multi_line_never_url (s : string) :
  has_char (chr 10) (strip s) = true ->
  detect_format check_bracketed_host s <> url.
Proof.
  intros Hn H. rewrite detect_by_strip, classify_url in H.
  apply is_url_spec in H. destruct H as [H _]. congruence.
Qed.

End WithHostCheck.

(** C4 as stated fails: a text that contains a newline, here after the
    URL, is classified [url]. *)
Lemma newline_text_classified_url :
  has_char (chr 10) ("https://example.com" ++ NL) = true
  /\ detect_format no_bracketed_host ("https://example.com" ++ NL) = url.
Proof. split; vm_compute; reflexivity. Qed.

End DetectorFacts.
(** ** More on format detection *)

Module DetectorMore.
Import PyStr PyStrFacts PyText TextFacts ContentDetector DetectorFacts.

Section WithHostCheck.
Variable check_bracketed_host : string -> bool.

(** X5. Empty and whitespace-only text is plain. *)
Theorem whitespace_only_is_plain (s : string) :
  forall_chars isspace s = true ->
  detect_format check_bracketed_host s = plain.
Proof.
  intros H. rewrite detect_by_strip, (strip_whitespace_only s H). reflexivity.
Qed.

Lemma remove_char_other (c d : ascii) (s : string) :
  Ascii.eqb c d = false ->
  remove_char c (String d s) = String d (remove_char c s).
Proof. intros E. cbn [remove_char]. rewrite E. reflexivity. Qed.

(** A text that opens with a brace has neither scheme nor netloc. *)
Lemma urlparse_brace (t : string) :
  UrlParse.urlparse check_bracketed_host (String "{" t)
  = Some (EmptyString, EmptyString).
Proof.
  unfold UrlParse.urlparse.
  change (lstrip_with UrlParse.C0_CONTROL_OR_SPACE (String "{" t)) with (String "{" t).
  rewrite (remove_char_other (chr 9) "{" t eq_refl).
  rewrite (remove_char_other (chr 13) "{" _ eq_refl).
  rewrite (remove_char_other (chr 10) "{" _ eq_refl).
  set (u := remove_char (chr 10) (remove_char (chr 13) (remove_char (chr 9) t))).
  destruct (find_char ":" (String "{" u)) as [[|i]|]; reflexivity.
Qed.

(** X6. The RTF header has priority: a text that, stripped, starts with it is
    classified [rtf], whatever HTML or Markdown it holds. *)
Theorem rtf_header_is_rtf (s : string) :
  startswith (strip s) ("{" ++ BSL ++ "rtf") = true ->
  detect_format check_bracketed_host s = rtf.
Proof.
  intros H. rewrite detect_by_strip. unfold classify. rewrite H.
  destruct (strip s) as [|c t]; [discriminate|].
  assert (c = "{"%char) as ->.
  { unfold startswith in H. cbn [append BSL String.prefix] in H.
    destruct (ascii_dec "{" c) as [E|E]; [symmetry; exact E|discriminate]. }
  unfold _is_url. rewrite urlparse_brace.
  destruct (has_char (chr 10) (String "{" t)); reflexivity.
Qed.

Lemma contains_in_empty (sub : string) :
  sub <> EmptyString -> contains sub EmptyString = false.
Proof. destruct sub; [congruence|reflexivity]. Qed.

(** X7. What the converter takes for a YouTube address is, when the stripped
    text is one line, what the detector classifies [url]. *)
Theorem youtube_url_is_url (text : string) :
  YouTube._looks_like_youtube_url check_bracketed_host text = true ->
  has_char (chr 10) (strip text) = false ->
  detect_format check_bracketed_host text = url.
Proof.
  unfold YouTube._looks_like_youtube_url. intros H Hn.
  rewrite detect_by_strip, classify_url. apply is_url_spec.
  split; [exact Hn|].
  destruct (UrlParse.urlparse check_bracketed_host (strip text))
    as [[scheme netloc]|]; [|discriminate].
  exists scheme, netloc. split; [reflexivity|].
  destruct (String.eqb scheme "http" || String.eqb scheme "https") eqn:Es;
    [|discriminate].
  cbn [negb] in H. split.
  - apply orb_true_iff in Es. rewrite !String.eqb_eq in Es. exact Es.
  - intros ->. vm_compute in H. discriminate.
Qed.

End WithHostCheck.

Lemma rtf_header_is_rtf_witness :
  Env.detect_format ("  {" ++ BSL ++ "rtf1 <p>not html</p>") = rtf.
Proof.
  apply (rtf_header_is_rtf Env.check_bracketed_host
           ("  {" ++ BSL ++ "rtf1 <p>not html</p>")).
  vm_compute. reflexivity.
Defined.

Lemma whitespace_only_is_plain_witness :
  Env.detect_format (" " ++ NL ++ TAB) = plain.
Proof.
  apply (whitespace_only_is_plain Env.check_bracketed_host (" " ++ NL ++ TAB)).
  vm_compute. reflexivity.
Defined.

Lemma youtube_url_is_url_witness :
  Env.detect_format "https://www.youtube.com/watch?v=abc" = url.
Proof.
  apply (youtube_url_is_url Env.check_bracketed_host
           "https://www.youtube.com/watch?v=abc");
    vm_compute; reflexivity.
Defined.

End DetectorMore.

(** ** Conversion of plain text *)

Module PlainFacts.
Import PyStr PyStrFacts PyText TextFacts PyDict ContentConverter.

(** [s] opens with [<] and then [h] in either case. *)
Definition open_h (s : string) : bool :=
  match s with
  | String c (String d _) => Ascii.eqb c "<" && Ascii.eqb (lower_char d) "h"
  | _ => false
  end.

(** Somewhere in [s] a [<] is followed by [h] in either case. *)
Fixpoint lt_then_h (s : string) : bool :=
  open_h s
  || match s with
     | EmptyString => false
     | String _ s' => lt_then_h s'
     end.

Lemma match_prefix_void (s : string) : Re.match_prefix Re.Void s = false.
Proof. induction s as [|c s IH]; [reflexivity|]. cbn. exact IH. Qed.

Lemma match_html_open (s : string) :
  Re.match_prefix html_open s = true -> open_h s = true.
Proof.
  unfold html_open, ContentDetector.open_tag, Re.lit_i, Re.lit, Re.not_lit.
  cbn [Re.seqs Re.word].
  destruct s as [|c [|d s]]; cbn [open_h].
  - discriminate.
  - cbn [Re.match_prefix Re.nullable Re.deriv andb orb].
    destruct (Ascii.eqb "<" c); cbn [Re.seq Re.nullable andb orb]; discriminate.
  - cbn [Re.match_prefix Re.nullable Re.deriv andb orb].
    rewrite (Ascii.eqb_sym c "<").
    destruct (Ascii.eqb "<" c); cbn [Re.seq Re.nullable Re.deriv andb orb].
    + change (lower_char "h") with "h"%char.
      rewrite (Ascii.eqb_sym (lower_char d) "h").
      destruct (Ascii.eqb "h" (lower_char d)); [reflexivity|].
      cbn [Re.seq]. rewrite match_prefix_void. discriminate.
    + rewrite match_prefix_void. discriminate.
Qed.

Lemma search_html_open (s : string) :
  Re.search html_open s = true -> lt_then_h s = true.
Proof.
  induction s as [|c s IH]; cbn [Re.search lt_then_h]; intros H;
    apply orb_true_iff in H; destruct H as [H|H]; try discriminate.
  - rewrite (match_html_open _ H). reflexivity.
  - rewrite (IH H). apply orb_true_r.
Qed.

(** *** Text that cannot match *)

Definition not_lt (c : ascii) : bool := negb (Ascii.eqb c "<").

(** No [<] of [s] is followed by [h], and [s] does not end with [<]. *)
Fixpoint tame (s : string) : bool :=
  match s with
  | EmptyString => true
  | String c s' =>
      (if Ascii.eqb c "<"
       then match s' with
            | EmptyString => false
            | String d _ => negb (Ascii.eqb (lower_char d) "h")
            end
       else true) && tame s'
  end.

Lemma tame_no_match (s : string) : tame s = true -> lt_then_h s = false.
Proof.
  induction s as [|c s IH]; [reflexivity|].
  cbn [tame lt_then_h open_h]. intros H. apply andb_true_iff in H.
  destruct H as [H1 H2]. rewrite (IH H2), orb_false_r.
  destruct s as [|d s]; [reflexivity|].
  destruct (Ascii.eqb c "<"); [|reflexivity].
  apply negb_true_iff in H1. rewrite H1. reflexivity.
Qed.

Lemma tame_append (a b : string) :
  tame a = true -> tame b = true -> tame (a ++ b) = true.
Proof.
  intros Ha Hb. induction a as [|c a IH]; [exact Hb|].
  cbn [append tame] in *. apply andb_true_iff in Ha. destruct Ha as [H1 H2].
  rewrite (IH H2), andb_true_r.
  destruct (Ascii.eqb c "<"); [|reflexivity].
  destruct a as [|d a]; [discriminate|exact H1].
Qed.

Lemma tame_without_lt (s : string) : forall_chars not_lt s = true -> tame s = true.
Proof.
  induction s as [|c s IH]; [reflexivity|].
  cbn [forall_chars tame]. intros H. apply andb_true_iff in H.
  destruct H as [H1 H2]. unfold not_lt in H1. apply negb_true_iff in H1.
  rewrite H1, (IH H2). reflexivity.
Qed.

Lemma html_escape_without_lt (s : string) :
  forall_chars not_lt (TOCGenerator.html_escape s) = true.
Proof.
  induction s as [|c s IH]; [reflexivity|].
  cbn [TOCGenerator.html_escape]. rewrite forall_chars_append, IH, andb_true_r.
  destruct (Ascii.eqb c "&"); [reflexivity|].
  destruct (Ascii.eqb c "<") eqn:E; [reflexivity|].
  destruct (Ascii.eqb c ">"); [reflexivity|].
  destruct (Ascii.eqb c (chr 34)); [reflexivity|].
  destruct (Ascii.eqb c "'"); [reflexivity|].
  cbn. unfold not_lt. rewrite E. reflexivity.
Qed.

Lemma replace_newline_tame (s : string) :
  forall_chars not_lt s = true -> tame (replace_char (chr 10) "<br>" s) = true.
Proof.
  induction s as [|c s IH]; [reflexivity|].
  cbn [forall_chars replace_char]. intros H. apply andb_true_iff in H.
  destruct H as [H1 H2]. specialize (IH H2).
  destruct (Ascii.eqb (chr 10) c).
  - apply (tame_append "<br>"); [reflexivity|exact IH].
  - unfold not_lt in H1. apply negb_true_iff in H1.
    cbn [tame]. rewrite H1, IH. reflexivity.
Qed.

Lemma split_blank_lines_two (cur : string) (c d : ascii) (s : string) :
  split_blank_lines cur (String c (String d s))
  = if Ascii.eqb c (chr 10) && Ascii.eqb d (chr 10)
    then cur :: split_blank_lines EmptyString s
    else split_blank_lines (cur ++ String c EmptyString) (String d s).
Proof. reflexivity. Qed.

(** The pieces of a text keep every property of its characters. *)
Lemma split_blank_lines_chars (p : ascii -> bool) (n : nat) :
  forall s cur, String.length s <= n ->
    forall_chars p cur = true -> forall_chars p s = true ->
    Forall (fun piece => forall_chars p piece = true) (split_blank_lines cur s).
Proof.
  induction n as [|n IH]; intros s cur Hl Hc Hs.
  - destruct s; [|cbn in Hl; lia]. cbn. repeat constructor. exact Hc.
  - destruct s as [|c [|d s]].
    + repeat constructor. exact Hc.
    + repeat constructor. rewrite forall_chars_append, Hc. cbn in *. exact Hs.
    + rewrite split_blank_lines_two.
      cbn [forall_chars String.length] in Hs, Hl.
      apply andb_true_iff in Hs. destruct Hs as [H1 Hs].
      destruct (Ascii.eqb c (chr 10) && Ascii.eqb d (chr 10)).
      * constructor; [exact Hc|]. apply IH; [lia|reflexivity|].
        apply andb_true_iff in Hs. apply Hs.
      * apply IH; [cbn; lia| |exact Hs].
        rewrite forall_chars_append, Hc. cbn. rewrite H1. reflexivity.
Qed.

Lemma paragraph_tame (piece : string) :
  forall_chars not_lt piece = true ->
  Forall (fun para => tame para = true) (paragraph piece).
Proof.
  intros H. unfold paragraph. destruct (is_empty (strip piece)); [constructor|].
  repeat constructor.
  apply (tame_append "<p>"); [reflexivity|].
  apply tame_append; [|reflexivity].
  apply replace_newline_tame, forall_chars_strip, H.
Qed.

Lemma join_tame (l : list string) :
  Forall (fun para => tame para = true) l -> tame (join NL l) = true.
Proof.
  induction 1 as [|x l Hx Hl IH]; [reflexivity|].
  destruct l as [|y l]; [exact Hx|].
  change (join NL (x :: y :: l)) with (x ++ NL ++ join NL (y :: l)).
  apply tame_append; [exact Hx|]. apply (tame_append NL); [reflexivity|exact IH].
Qed.

Lemma paragraphs_tame (text : string) : tame (_text_to_html_paragraphs text) = true.
Proof.
  unfold _text_to_html_paragraphs. apply join_tame.
  pose proof (split_blank_lines_chars not_lt
                (String.length (TOCGenerator.html_escape text))
                (TOCGenerator.html_escape text) EmptyString (le_n _) eq_refl
                (html_escape_without_lt text)) as F.
  induction F as [|piece l Hp _ IH]; [constructor|].
  cbn [flat_map]. apply Forall_app. split; [apply paragraph_tame, Hp|exact IH].
Qed.

Lemma paragraphs_styled (text : string) :
  Re.search html_open (_text_to_html_paragraphs text) = false.
Proof.
  destruct (Re.search html_open (_text_to_html_paragraphs text)) eqn:E; [|reflexivity].
  apply search_html_open in E.
  rewrite (tame_no_match _ (paragraphs_tame text)) in E. discriminate.
Qed.

Section Convert.
Variable BeautifulSoup : string -> Bs4.soup_t.
Variable _convert_url : string -> string * dict.
Variable markdown2_markdown : string -> string.
Variable rtf_to_text : string -> option string.

(** X8. Plain text and RTF are always converted: the paragraphs made from the
    text never hold an [<html] tag, so styling wraps them in a new document
    and never reaches the branch that can raise. *)
Theorem convert_text_never_fails (content : string) (format_type : DetectedFormat) :
  format_type = plain \/ format_type = rtf ->
  exists text,
    convert BeautifulSoup _convert_url markdown2_markdown rtf_to_text content format_type
    = Some (wrap_document CSSTemplates.get_default_css (_text_to_html_paragraphs text),
            [("type", VStr (format_name format_type))])
    /\ (format_type = plain -> text = content).
Proof.
  intros [->| ->]; unfold convert; cbn [converter_for format_name].
  - exists content. unfold _convert_plain, _apply_styling.
    rewrite paragraphs_styled. cbn [negb]. split; reflexivity.
  - unfold _convert_rtf. destruct (rtf_to_text content) as [plain_text|].
    + exists plain_text. unfold _apply_styling. rewrite paragraphs_styled.
      cbn [negb]. split; [reflexivity|discriminate].
    + exists content. unfold _apply_styling. rewrite paragraphs_styled.
      cbn [negb]. split; [reflexivity|discriminate].
Qed.

End Convert.

Lemma convert_text_never_fails_witness :
  exists text,
    Env.convert "Just some text" plain
    = Some (wrap_document CSSTemplates.get_default_css (_text_to_html_paragraphs text),
            [("type", VStr "plain")])
    /\ (plain = plain -> text = "Just some text").
Proof.
  apply (convert_text_never_fails Env.BeautifulSoup Env._convert_url
           Env.markdown2_markdown Env.rtf_to_text "Just some text" plain).
  left. reflexivity.
Defined.

(** *** Text without words *)

Lemma html_escape_space (c : ascii) (s : string) :
  isspace c = true ->
  TOCGenerator.html_escape (String c s) = String c (TOCGenerator.html_escape s).
Proof.
  intros H. cbn [TOCGenerator.html_escape].
  destruct (Ascii.eqb_spec c "&") as [->|_]; [discriminate|].
  destruct (Ascii.eqb_spec c "<") as [->|_]; [discriminate|].
  destruct (Ascii.eqb_spec c ">") as [->|_]; [discriminate|].
  destruct (Ascii.eqb_spec c (chr 34)) as [->|_]; [discriminate|].
  destruct (Ascii.eqb_spec c "'") as [->|_]; [discriminate|].
  reflexivity.
Qed.

Lemma html_escape_whitespace (s : string) :
  forall_chars isspace s = true -> TOCGenerator.html_escape s = s.
Proof.
  induction s as [|c s IH]; [reflexivity|].
  cbn [forall_chars]. intros H. apply andb_true_iff in H. destruct H as [H1 H2].
  rewrite (html_escape_space c s H1), (IH H2). reflexivity.
Qed.

(** X9. A text of whitespace only, the empty text among them, makes no
    paragraph at all. *)
Theorem whitespace_makes_no_paragraph (text : string) :
  forall_chars isspace text = true -> _text_to_html_paragraphs text = EmptyString.
Proof.
  intros H. unfold _text_to_html_paragraphs. rewrite (html_escape_whitespace text H).
  pose proof (split_blank_lines_chars isspace (String.length text) text EmptyString
                (le_n _) eq_refl H) as F.
  assert (E : flat_map paragraph (split_blank_lines EmptyString text) = []).
  { induction F as [|piece l Hp _ IH]; [reflexivity|].
    cbn [flat_map]. rewrite IH. unfold paragraph.
    rewrite (strip_whitespace_only piece Hp). reflexivity. }
  rewrite E. reflexivity.
Qed.

Lemma whitespace_makes_no_paragraph_witness :
  _text_to_html_paragraphs (" " ++ NL ++ NL ++ TAB) = EmptyString.
Proof.
  apply (whitespace_makes_no_paragraph (" " ++ NL ++ NL ++ TAB)).
  vm_compute. reflexivity.
Defined.

End PlainFacts.

(** ** The chapters of the word-count split *)

Module WordCountFacts.
Import PyStr PyStrFacts Bs4 Bs4Facts ChapterSplitter SplitterFacts TextFacts.

(** The text of a group of elements, as a chapter holds it. *)
Definition group_text (group : list node) : string := join NL (map str_tag group).


(** A group within the threshold, or made of one element alone. *)
Definition bounded (words_per_chapter : Z) (group : list node) : Prop :=
  (Z.of_nat (total_words group) <= words_per_chapter)%Z \/ List.length group = 1.

Section Loop.
Variable words_per_chapter : Z.

(** What the loop keeps true: the chapters closed so far are the groups
    [closed], numbered from one; the open chapter is the group [open];
    together they are the elements read, in order. *)
Record invariant (st : wc_state) (closed : list (list node)) (open : list node)
  : Prop := mkInvariant {
  inv_chapters :
    chapters st = map (fun ig => numbered (fst ig) (map str_tag (snd ig)))
                      (TOCGenerator.enumerate 1 closed);
  inv_num : chapter_num st = S (List.length closed);
  inv_content : current_chapter_content st = map str_tag open;
  inv_count : current_word_count st = total_words open;
  inv_closed : Forall (fun g => g <> [] /\ bounded words_per_chapter g) closed;
  inv_open : open = [] \/ bounded words_per_chapter open }.

Lemma enumerate_app {A : Type} (k : nat) (l1 l2 : list A) :
  TOCGenerator.enumerate k (l1 ++ l2)
  = (TOCGenerator.enumerate k l1
     ++ TOCGenerator.enumerate (k + List.length l1) l2)%list.
Proof.
  revert k. induction l1 as [|x l1 IH]; intros k; cbn [app TOCGenerator.enumerate].
  - rewrite Nat.add_0_r. reflexivity.
  - rewrite IH. cbn [List.length]. rewrite Nat.add_succ_r. reflexivity.
Qed.

Lemma invariant_step (st : wc_state) (closed : list (list node)) (open : list node)
    (e : node) :
  invariant st closed open ->
  exists closed' open',
    invariant (wc_step words_per_chapter st e) closed' open'
    /\ (concat closed' ++ open' = (concat closed ++ open) ++ [e])%list.
Proof.
  intros [Hch Hnum Hcont Hcount Hclosed Hopen].
  unfold wc_step. fold (words_of e).
  destruct (words_per_chapter <? Z.of_nat (current_word_count st + words_of e))%Z
    eqn:E;
    destruct open as [|x open].
  - (* over the threshold, nothing open *)
    rewrite Hcont. cbn [map is_nil negb andb].
    exists closed, [e]. split.
    + constructor; cbn [chapters chapter_num current_chapter_content
                         current_word_count]; try assumption.
      * rewrite Hcont. reflexivity.
      * rewrite Hcount, total_words_cons. change (total_words []) with 0. lia.
      * right. right. reflexivity.
    + rewrite app_nil_r. reflexivity.
  - (* over the threshold: the open chapter is closed *)
    rewrite Hcont. cbn [map is_nil negb andb].
    exists (closed ++ [x :: open])%list, [e]. split.
    + constructor; cbn [chapters chapter_num current_chapter_content
                         current_word_count].
      * rewrite Hch, enumerate_app, map_app. cbn [TOCGenerator.enumerate map fst snd].
        rewrite Hnum. reflexivity.
      * rewrite length_app, Hnum. cbn. lia.
      * reflexivity.
      * rewrite total_words_cons. change (total_words []) with 0. lia.
      * apply Forall_app. split; [exact Hclosed|].
        constructor; [|constructor]. split; [discriminate|].
        destruct Hopen as [Hopen|Hopen]; [discriminate|exact Hopen].
      * right. right. reflexivity.
    + rewrite concat_app. cbn [concat]. rewrite app_nil_r. reflexivity.
  - (* within the threshold, nothing open *)
    cbn [andb].
    exists closed, [e]. split.
    + constructor; cbn [chapters chapter_num current_chapter_content
                         current_word_count]; try assumption.
      * rewrite Hcont. reflexivity.
      * rewrite Hcount, total_words_cons. change (total_words []) with 0. lia.
      * right. right. reflexivity.
    + rewrite app_nil_r. reflexivity.
  - (* within the threshold: the element joins the open chapter *)
    cbn [andb].
    exists closed, ((x :: open) ++ [e])%list. split.
    + constructor; cbn [chapters chapter_num current_chapter_content
                         current_word_count]; try assumption.
      * rewrite Hcont, map_app. reflexivity.
      * rewrite Hcount, total_words_app, !total_words_cons.
        change (total_words []) with 0. lia.
      * right. left. apply Z.ltb_ge in E.
        rewrite Hcount in E. rewrite total_words_app, (total_words_cons e).
        change (total_words []) with 0. lia.
    + rewrite app_assoc. reflexivity.
Qed.

Lemma invariant_fold (elements : list node) :
  forall st closed open,
    invariant st closed open ->
    exists closed' open',
      invariant (fold_left (wc_step words_per_chapter) elements st) closed' open'
      /\ (concat closed' ++ open' = (concat closed ++ open) ++ elements)%list.
Proof.
  induction elements as [|e r IH]; intros st closed open H.
  - exists closed, open. split; [exact H|]. rewrite app_nil_r. reflexivity.
  - destruct (invariant_step st closed open e H) as (c1 & o1 & H1 & E1).
    destruct (IH _ c1 o1 H1) as (c2 & o2 & H2 & E2).
    exists c2, o2. split; [exact H2|].
    rewrite E2, E1, <- app_assoc. reflexivity.
Qed.

Lemma invariant_flush (st : wc_state) (closed : list (list node)) (open : list node) :
  invariant st closed open ->
  exists groups,
    wc_flush st = map (fun ig => numbered (fst ig) (map str_tag (snd ig)))
                      (TOCGenerator.enumerate 1 groups)
    /\ concat groups = (concat closed ++ open)%list
    /\ Forall (fun g => g <> [] /\ bounded words_per_chapter g) groups.
Proof.
  intros [Hch Hnum Hcont Hcount Hclosed Hopen]. unfold wc_flush.
  rewrite Hcont. destruct open as [|x open]; cbn [map is_nil].
  - exists closed. rewrite app_nil_r. auto.
  - exists (closed ++ [x :: open])%list. split; [|split].
    + rewrite Hch, enumerate_app, map_app.
      cbn [TOCGenerator.enumerate map fst snd]. rewrite Hnum. reflexivity.
    + rewrite concat_app. cbn [concat]. rewrite app_nil_r. reflexivity.
    + apply Forall_app. split; [exact Hclosed|].
      constructor; [|constructor]. split; [discriminate|].
      destruct Hopen as [Hopen|Hopen]; [discriminate|exact Hopen].
Qed.

(** The chapters of a text over the threshold are groups of consecutive
    block-level elements. *)
Lemma word_count_groups (soup : soup_t) (title : option string) :
  (words_per_chapter < Z.of_nat (word_count (get_text_soup soup)))%Z ->
  exists groups,
    _split_by_word_count words_per_chapter soup title
    = map (fun ig => numbered (fst ig) (map str_tag (snd ig)))
          (TOCGenerator.enumerate 1 groups)
    /\ concat groups = find_all block_names soup
    /\ Forall (fun g => g <> [] /\ bounded words_per_chapter g) groups.
Proof.
  intros Hw. unfold _split_by_word_count. fold (word_count (get_text_soup soup)).
  destruct (Z.leb_spec (Z.of_nat (word_count (get_text_soup soup))) words_per_chapter)
    as [H|_]; [lia|].
  assert (I0 : invariant (mkWc [] 1 [] 0) [] []).
  { constructor; cbn; try reflexivity; [constructor|left; reflexivity]. }
  destruct (invariant_fold (find_all block_names soup) _ [] [] I0) as (c & o & H & E).
  destruct (invariant_flush _ c o H) as (groups & G1 & G2 & G3).
  exists groups. split; [exact G1|]. split; [|exact G3].
  rewrite G2, E. reflexivity.
Qed.

End Loop.

(** *** Reading the groups back *)



Lemma enumerate_map_snd {A B : Type} (f : nat * A -> B) (g : A -> B) (k : nat)
    (l : list A) :
  (forall i x, f (i, x) = g x) ->
  map f (TOCGenerator.enumerate k l) = map g l.
Proof.
  intros H. revert k. induction l as [|x l IH]; intros k; [reflexivity|].
  cbn [TOCGenerator.enumerate map]. rewrite H, IH. reflexivity.
Qed.



(** X11. In a text split by word count, every chapter is a group of consecutive
    block-level elements whose words either stay within the threshold or
    belong to a single element. *)
Theorem word_count_chapters_bounded (words_per_chapter : Z) (soup : soup_t)
    (title : option string) :
  (words_per_chapter < Z.of_nat (word_count (get_text_soup soup)))%Z ->
  exists groups,
    concat groups = find_all block_names soup
    /\ map content (_split_by_word_count words_per_chapter soup title)
       = map group_text groups
    /\ Forall (fun g =>
                 (Z.of_nat (total_words g) <= words_per_chapter)%Z
                 \/ List.length g = 1) groups.
Proof.
  intros Hw.
  destruct (word_count_groups words_per_chapter soup title Hw) as (groups & E & C & F).
  exists groups. split; [exact C|]. split.
  - rewrite E, map_map. apply enumerate_map_snd. reflexivity.
  - apply Forall_forall. intros g Hg. rewrite Forall_forall in F.
    apply (F g Hg).
Qed.


Lemma word_count_chapters_bounded_witness :
  exists groups,
    concat groups = find_all block_names (Env.BeautifulSoup "<p>one two</p> <p>three</p>")
    /\ map content
         (_split_by_word_count 2 (Env.BeautifulSoup "<p>one two</p> <p>three</p>") None)
       = map group_text groups
    /\ Forall (fun g => (Z.of_nat (total_words g) <= 2)%Z \/ List.length g = 1) groups.
Proof.
  apply (word_count_chapters_bounded 2
           (Env.BeautifulSoup "<p>one two</p> <p>three</p>") None).
  vm_compute. reflexivity.
Defined.

End WordCountFacts.

(** ** Anchors and the table of contents *)

Module TocFacts.
Import PyStr PyStrFacts Bs4 Bs4Facts TOCGenerator AnchorFacts.

(** *** Substrings *)

Lemma prefix_append (sub a b : string) :
  String.prefix sub a = true -> String.prefix sub (a ++ b) = true.
Proof.
  revert a. induction sub as [|c sub IH]; intros a H;
    [destruct (a ++ b); reflexivity|].
  destruct a as [|d a]; [discriminate|].
  cbn [append String.prefix] in *. destruct (ascii_dec c d); [|discriminate].
  apply IH, H.
Qed.

Lemma prefix_here (sub rest : string) : String.prefix sub (sub ++ rest) = true.
Proof.
  induction sub as [|c sub IH]; [destruct rest; reflexivity|].
  cbn [append String.prefix]. destruct (ascii_dec c c); [exact IH|congruence].
Qed.

Lemma contains_here (sub rest : string) : contains sub (sub ++ rest) = true.
Proof.
  destruct (sub ++ rest) eqn:E; cbn [contains]; rewrite <- E, prefix_here;
    reflexivity.
Qed.

Lemma contains_append_r (sub a b : string) :
  contains sub b = true -> contains sub (a ++ b) = true.
Proof.
  intros H. induction a as [|c a IH]; [exact H|].
  cbn [append contains]. rewrite IH. apply orb_true_r.
Qed.

Lemma contains_append_l (sub a b : string) :
  contains sub a = true -> contains sub (a ++ b) = true.
Proof.
  induction a as [|c a IH]; intros H.
  - cbn [contains] in H. rewrite orb_false_r in H.
    destruct sub; [|discriminate]. destruct b; reflexivity.
  - cbn [append contains] in *. apply orb_true_iff in H. destruct H as [H|H].
    + pose proof (prefix_append sub (String c a) b H) as P.
      cbn [append] in P. rewrite P. reflexivity.
    + rewrite (IH H). apply orb_true_r.
Qed.

Lemma contains_inside (sub a b : string) : contains sub (a ++ sub ++ b) = true.
Proof. apply contains_append_r, contains_here. Qed.

Lemma contains_concat {A : Type} (sub : string) (f : A -> string) (x : A)
    (l : list A) :
  In x l -> contains sub (f x) = true ->
  contains sub (String.concat EmptyString (map f l)) = true.
Proof.
  intros Hin Hc. induction l as [|y l IH]; [destruct Hin|].
  cbn [map]. rewrite concat_cons. destruct Hin as [->|Hin].
  - apply contains_append_l, Hc.
  - apply contains_append_r, IH, Hin.
Qed.

(** *** The anchor in the text of a chapter *)

(** The attribute [id="chapter_i"] as it is written. *)
Definition id_attribute (i : nat) : string :=
  " id=" ++ DQ ++ chapter_id i ++ DQ.

Lemma attribute_string_set (i : nat) (attrs : attrs_t) :
  contains (id_attribute i) (attribute_string (set_attr "id" (chapter_id i) attrs))
  = true.
Proof.
  assert (Here : forall rest,
            contains (id_attribute i)
              (attribute_string (("id", chapter_id i) :: rest)) = true).
  { intros rest.
    assert (E : attribute_string (("id", chapter_id i) :: rest)
                = id_attribute i ++ attribute_string rest).
    { cbn [attribute_string]. rewrite chapter_id_quoted. unfold id_attribute.
      rewrite !append_assoc. reflexivity. }
    rewrite E. apply contains_here. }
  induction attrs as [|[k v] rest IH]; cbn [set_attr]; [apply Here|].
  destruct (String.eqb "id" k); [apply Here|].
  destruct (String.ltb "id" k); [apply Here|].
  cbn [attribute_string].
  change (" " ++ k ++ "=" ++ quoted_attribute_value (substitute_xml v)
          ++ attribute_string (set_attr "id" (chapter_id i) rest))
    with (" " ++ (k ++ "=" ++ quoted_attribute_value (substitute_xml v)
          ++ attribute_string (set_attr "id" (chapter_id i) rest))).
  apply contains_append_r, contains_append_r, contains_append_r,
        contains_append_r, IH.
Qed.

Lemma decode_tag_has_attributes (sub parent name : string) (attrs : attrs_t)
    (contents : list node) :
  contains sub (attribute_string attrs) = true ->
  contains sub (decode parent (Tag name attrs contents)) = true.
Proof.
  intros H. rewrite decode_tag.
  destruct contents; [destruct (name_in empty_element_tags name)|];
    apply (contains_append_r sub "<"), contains_append_r, contains_append_l, H.
Qed.

Lemma decode_tag_has_contents (sub parent name : string) (attrs : attrs_t)
    (contents : list node) :
  contents <> [] ->
  contains sub (decode_list name contents) = true ->
  contains sub (decode parent (Tag name attrs contents)) = true.
Proof.
  intros Hne H. rewrite decode_tag. destruct contents; [congruence|].
  apply (contains_append_r sub "<"), contains_append_r, contains_append_r.
  apply (contains_append_r sub ">"), contains_append_l, H.
Qed.

Lemma decode_list_cons (parent : string) (n : node) (l : list node) :
  decode_list parent (n :: l) = decode parent n ++ decode_list parent l.
Proof. unfold decode_list. cbn [map]. apply concat_cons. Qed.

Section SetId.
Variable i : nat.

Lemma modified_list_has_id (parent : string) (l : list node) :
  Forall (fun n => forall parent n',
            modify_first (name_in anchor_names) (with_attr "id" (chapter_id i)) n
            = Some n' ->
            contains (id_attribute i) (decode parent n') = true) l ->
  forall l',
    modify_first_list (name_in anchor_names) (with_attr "id" (chapter_id i)) l
    = Some l' ->
    l' <> [] /\ contains (id_attribute i) (decode_list parent l') = true.
Proof.
  induction 1 as [|n l Hn _ IH]; intros l' E; cbn [modify_first_list] in E;
    [discriminate|].
  destruct (modify_first _ _ n) as [n'|] eqn:En.
  - injection E as <-. split; [discriminate|].
    rewrite decode_list_cons. apply contains_append_l, (Hn parent n' eq_refl).
  - destruct (modify_first_list _ _ l) as [r'|]; [|discriminate].
    injection E as <-. split; [discriminate|].
    rewrite decode_list_cons. apply contains_append_r, (IH r' eq_refl).
Qed.

Lemma modified_node_has_id (n : node) :
  forall parent n',
    modify_first (name_in anchor_names) (with_attr "id" (chapter_id i)) n = Some n' ->
    contains (id_attribute i) (decode parent n') = true.
Proof.
  induction n as [k s|name attrs contents IH] using node_induction;
    intros parent n' E; [discriminate|].
  rewrite modify_first_tag in E. destruct (name_in anchor_names name).
  - injection E as <-. cbn [with_attr].
    apply decode_tag_has_attributes, attribute_string_set.
  - destruct (modify_first_list _ _ contents) as [contents'|] eqn:Ec; [|discriminate].
    injection E as <-.
    destruct (modified_list_has_id name contents IH contents' Ec) as [Hne Hc].
    apply decode_tag_has_contents; assumption.
Qed.

(** The text of an anchored tree holds the anchor. *)
Lemma anchored_text_has_id (soup : soup_t) :
  contains (id_attribute i) (str_soup (anchor_soup i soup)) = true.
Proof.
  unfold anchor_soup. destruct (find anchor_names soup) eqn:Ef.
  - destruct (modify_first_list _ _ soup) as [soup'|] eqn:Em.
    + apply (modified_list_has_id ROOT_TAG_NAME soup) with (l' := soup').
      * apply Forall_forall. intros m _. apply modified_node_has_id.
      * exact Em.
    + apply modify_first_list_none in Em. apply find_none in Em. congruence.
  - unfold str_soup. rewrite decode_list_cons.
    apply contains_append_l, decode_tag_has_attributes.
    apply (attribute_string_set i []).
Qed.

End SetId.

(** *** The link in the table of contents *)

Definition href_attribute (i : nat) : string :=
  "href=" ++ DQ ++ "#" ++ chapter_id i ++ DQ.

Lemma toc_item_has_href (i : nat) (c : Chapter) :
  contains (href_attribute i) (toc_item (i, c)) = true.
Proof.
  assert (E : toc_item (i, c)
              = "<li><a " ++ href_attribute i ++ ">" ++ html_escape (title c)
                ++ "</a></li>").
  { unfold toc_item, href_attribute. cbn [fst snd].
    rewrite !append_assoc. reflexivity. }
  rewrite E. apply contains_inside.
Qed.

Lemma toc_has_href (chapters : list Chapter) (toc_title : string) (i : nat)
    (c : Chapter) :
  In (i, c) (enumerate 1 chapters) ->
  contains (href_attribute i) (generate_toc_html chapters toc_title) = true.
Proof.
  intros Hin.
  pose proof (contains_concat (href_attribute i) toc_item (i, c) _ Hin
                (toc_item_has_href i c)) as H.
  unfold generate_toc_html.
  repeat first [apply contains_append_l; exact H | apply contains_append_r].
Qed.

Lemma enumerate_map_in {A B : Type} (f : nat * A -> B) (k i : nat) (y : B)
    (l : list A) :
  In (i, y) (enumerate k (map f (enumerate k l))) ->
  exists x, In (i, x) (enumerate k l) /\ y = f (i, x).
Proof.
  revert k. induction l as [|x l IH]; intros k H; [destruct H|].
  cbn [enumerate map] in H. destruct H as [H|H].
  - injection H as <- <-. exists x. split; [left; reflexivity|reflexivity].
  - destruct (IH (S k) H) as (x' & Hin & E). exists x'. split; [right; exact Hin|exact E].
Qed.

Section Agreement.
Variable BeautifulSoup : string -> soup_t.

(** X12. Anchors and table of contents agree: after the chapters are anchored,
    the text of the chapter at position [i] holds the attribute
    [id="chapter_i"], and the table of contents made from them holds the
    link [href="#chapter_i"]. *)
Theorem anchors_agree_with_toc (chapters : list Chapter) (toc_title : string)
    (i : nat) (c : Chapter) :
  In (i, c) (enumerate 1 (add_anchors_to_chapters BeautifulSoup chapters)) ->
  contains (id_attribute i) (content c) = true
  /\ contains (href_attribute i)
       (generate_toc_html (add_anchors_to_chapters BeautifulSoup chapters) toc_title)
     = true.
Proof.
  intros Hin. split; [|apply (toc_has_href _ toc_title i c Hin)].
  unfold add_anchors_to_chapters in Hin.
  destruct (enumerate_map_in _ 1 i c chapters Hin) as (c0 & _ & ->).
  unfold add_anchor. cbn [fst snd content]. apply anchored_text_has_id.
Qed.

End Agreement.

Lemma anchors_agree_with_toc_witness :
  contains (id_attribute 2) ("<p>y</p><h2 id=" ++ DQ ++ "chapter_2" ++ DQ ++ ">Next</h2>")
  = true
  /\ contains (href_attribute 2)
       (generate_toc_html
          (Env.add_anchors_to_chapters
             [mkChapter "Intro" "plain words"; mkChapter "Next" "<p>y</p><h2>Next</h2>"])
          "Table of Contents") = true.
Proof.
  apply (anchors_agree_with_toc Env.BeautifulSoup
           [mkChapter "Intro" "plain words"; mkChapter "Next" "<p>y</p><h2>Next</h2>"]
           "Table of Contents" 2
           (mkChapter "Next" ("<p>y</p><h2 id=" ++ DQ ++ "chapter_2" ++ DQ ++ ">Next</h2>"))).
  vm_compute. right. left. reflexivity.
Defined.

End TocFacts.

(** ** The orchestrator's metadata and the unsplit path *)

Module OrchestratorFacts.
Import PyStr Bs4 PyDict TOCGenerator Pipeline.

Lemma get_set_same (key : string) (v : value) (d : dict) :
  get key (set key v d) = Some v.
Proof.
  induction d as [|[k w] d IH]; cbn.
  - rewrite String.eqb_refl. reflexivity.
  - destruct (String.eqb key k) eqn:E; cbn; rewrite E; [reflexivity|exact IH].
Qed.

Lemma get_set_other (key key' : string) (v : value) (d : dict) :
  key <> key' -> get key (set key' v d) = get key d.
Proof.
  intros N. induction d as [|[k w] d IH]; cbn.
  - destruct (String.eqb key key') eqn:E; [|reflexivity].
    apply String.eqb_eq in E. contradiction.
  - destruct (String.eqb key' k) eqn:E; cbn; [|rewrite IH; reflexivity].
    apply String.eqb_eq in E. subst k.
    destruct (String.eqb key key') eqn:E2; [|reflexivity].
    apply String.eqb_eq in E2. contradiction.
Qed.

Section Process.
Variable check_bracketed_host : string -> bool.
Variable BeautifulSoup : string -> soup_t.
Variable _convert_url : string -> string * dict.
Variable markdown2_markdown : string -> string.
Variable rtf_to_text : string -> option string.
Variable now_isoformat : string.
Variable get_template : string -> string.

(** X13. The metadata the orchestrator returns always carries the name of
    the returned format under [detected_format] and the processing time
    under [processing_date]; the returned format is the one
    [detect_format] finds in the clipboard text; every other key reads as
    the converter left it. *)
Theorem metadata_is_stamped (text : string) (options : Options)
    (output : ProcessedContent) :
  process_clipboard_content check_bracketed_host BeautifulSoup _convert_url
    markdown2_markdown rtf_to_text now_isoformat get_template text options
  = Some output ->
  format output = ContentDetector.detect_format check_bracketed_host text
  /\ get "detected_format" (metadata output) = Some (VStr (format_name (format output)))
  /\ get "processing_date" (metadata output) = Some (VStr now_isoformat)
  /\ exists html_content converted,
       ContentConverter.convert BeautifulSoup _convert_url markdown2_markdown
         rtf_to_text text (format output) = Some (html_content, converted)
       /\ forall key, key <> "detected_format" -> key <> "processing_date" ->
            get key (metadata output) = get key converted.
Proof.
  unfold process_clipboard_content.
  destruct (ContentConverter.convert _ _ _ _ _ _) as [[html_content converted]|] eqn:C;
    [|discriminate].
  intros E. injection E as <-. cbn [format metadata].
  split; [reflexivity|]. split; [|split].
  - rewrite get_set_other by discriminate. apply get_set_same.
  - apply get_set_same.
  - exists html_content, converted. split; [exact C|].
    intros key N1 N2. rewrite !get_set_other by assumption. reflexivity.
Qed.

(** X14. With [split_chapters] off the orchestrator returns exactly one
    chapter, titled by the metadata title or [Content]; a table of contents
    is made exactly when [force_toc] is set, and without it the chapter body
    is the converted document itself. *)
Theorem unsplit_content_is_one_chapter (text : string) (options : Options)
    (output : ProcessedContent) :
  split_chapters options = false ->
  process_clipboard_content check_bracketed_host BeautifulSoup _convert_url
    markdown2_markdown rtf_to_text now_isoformat get_template text options
  = Some output ->
  exists body html_content converted,
    chapters output
    = [mkChapter (title_text (get_default "title" (VStr "Content") (metadata output)))
                 body]
    /\ ContentConverter.convert BeautifulSoup _convert_url markdown2_markdown
         rtf_to_text text (format output) = Some (html_content, converted)
    /\ (toc_html output <> None <-> force_toc options = true)
    /\ (force_toc options = false -> body = html_content).
Proof.
  intros Hs. unfold process_clipboard_content.
  destruct (ContentConverter.convert _ _ _ _ _ _) as [[html_content converted]|] eqn:C;
    [|discriminate].
  rewrite Hs. intros E. injection E as <-. cbn [format metadata chapters toc_html].
  change (1 <? List.length [_]) with false. cbn [orb].
  destruct (force_toc options); cbn [fst snd].
  - eexists. exists html_content, converted. split; [reflexivity|].
    split; [exact C|]. split; [|discriminate].
    split; [reflexivity|discriminate].
  - exists html_content, html_content, converted. split; [reflexivity|].
    split; [exact C|]. split; [|reflexivity].
    split; [congruence|discriminate].
Qed.

End Process.

Lemma metadata_is_stamped_witness :
  exists output,
    Env.process_clipboard_content "Just some text" default_options = Some output
    /\ format output = Env.detect_format "Just some text"
    /\ get "detected_format" (metadata output) = Some (VStr (format_name (format output)))
    /\ get "processing_date" (metadata output) = Some (VStr Env.now_isoformat)
    /\ exists html_content converted,
         Env.convert "Just some text" (format output) = Some (html_content, converted)
         /\ forall key, key <> "detected_format" -> key <> "processing_date" ->
              get key (metadata output) = get key converted.
Proof.
  eexists. split.
  - vm_compute. reflexivity.
  - apply (metadata_is_stamped Env.check_bracketed_host Env.BeautifulSoup
             Env._convert_url Env.markdown2_markdown Env.rtf_to_text
             Env.now_isoformat Env.get_template "Just some text" default_options).
    vm_compute. reflexivity.
Defined.

Lemma unsplit_content_is_one_chapter_witness :
  exists output,
    Env.process_clipboard_content "Just some text" (mkOptions false 3000 true "default")
    = Some output
    /\ exists body html_content converted,
         chapters output
         = [mkChapter (title_text (get_default "title" (VStr "Content") (metadata output)))
                      body]
         /\ Env.convert "Just some text" (format output) = Some (html_content, converted)
         /\ (toc_html output <> None <-> true = true)
         /\ (true = false -> body = html_content).
Proof.
  eexists. split.
  - vm_compute. reflexivity.
  - apply (unsplit_content_is_one_chapter Env.check_bracketed_host Env.BeautifulSoup
             Env._convert_url Env.markdown2_markdown Env.rtf_to_text
             Env.now_isoformat Env.get_template "Just some text"
             (mkOptions false 3000 true "default")).
    + reflexivity.
    + vm_compute. reflexivity.
Defined.

End OrchestratorFacts.

(** ** The assembled book: title, file name and authors *)

Module BookFacts.
Import PyStr Bs4 PyDict TOCGenerator Epub.

(** The characters a file name keeps from a title. *)
Definition file_char (c : ascii) : bool := isalnum c || has_char c " _-".

(** A file-name stem made from a book title. *)
Definition safe_stem (book_title stem : string) : Prop :=
  book_title <> EmptyString
  /\ String.length stem = Nat.min 100 (String.length book_title)
  /\ forall_chars file_char stem = true
  /\ has_char "/" stem = false
  /\ has_char "\" stem = false
  /\ has_char "." stem = false.

Lemma safe_char_ok (c : ascii) : file_char (safe_char c) = true.
Proof.
  unfold safe_char, file_char.
  destruct (isalnum c || has_char c " _-") eqn:E; [exact E|reflexivity].
Qed.

Lemma take_map_chars_safe (n : nat) (t : string) :
  forall_chars file_char (take n (map_chars safe_char t)) = true.
Proof.
  revert n. induction t as [|c t IH]; intros [|n]; cbn [map_chars take forall_chars];
    try reflexivity.
  rewrite safe_char_ok, IH. reflexivity.
Qed.

Lemma take_map_chars_length (n : nat) (f : ascii -> ascii) (t : string) :
  String.length (take n (map_chars f t)) = Nat.min n (String.length t).
Proof.
  revert n. induction t as [|c t IH]; intros [|n]; cbn [map_chars take String.length];
    try reflexivity.
  rewrite IH. reflexivity.
Qed.

Lemma forall_chars_excludes (p : ascii -> bool) (c : ascii) (s : string) :
  p c = false -> forall_chars p s = true -> has_char c s = false.
Proof.
  intros Hc. unfold has_char.
  induction s as [|d s IH]; cbn [forall_chars exists_char]; [reflexivity|].
  intros H. apply andb_true_iff in H. destruct H as [Hd Hs].
  rewrite (IH Hs), orb_false_r.
  destruct (Ascii.eqb c d) eqn:E; [|reflexivity].
  apply Ascii.eqb_eq in E. subst d. congruence.
Qed.

Lemma truthy_text (v : value) : truthy v = true -> py_str v <> EmptyString.
Proof.
  destruct v as [s| |l]; cbn; [|discriminate|intros _; discriminate].
  destruct s; cbn; [discriminate|]. intros _. discriminate.
Qed.

Lemma py_or_text (a b : value) :
  py_str b <> EmptyString -> py_str (py_or a b) <> EmptyString.
Proof.
  intros Hb. unfold py_or. destruct (truthy a) eqn:E; [apply truthy_text, E|exact Hb].
Qed.

Lemma safe_title_stem (t : string) :
  t <> EmptyString -> safe_stem t (safe_title t).
Proof.
  intros Ht. unfold safe_stem, safe_title.
  pose proof (take_map_chars_safe 100 t) as S.
  split; [exact Ht|]. split; [apply take_map_chars_length|]. split; [exact S|].
  repeat split; apply (forall_chars_excludes file_char); try exact S; reflexivity.
Qed.

Section Assemble.
Variable BeautifulSoup : string -> soup_t.
Variable uuid timestamp default_author default_language : string.

(** X15. Whenever there is a chapter, both assemblers make a book whose
    title is not empty, and write it to a file named by a stem, the time
    stamp and [.epub] (or [_cached.epub]): the stem is the title cut to 100
    characters with every character that is not alphanumeric, a space, an
    underscore or a hyphen replaced, so no path separator and no dot of the
    title reaches the file name. *)
Theorem file_name_is_safe (processed : ProcessedContent) (overrides : dict) :
  chapters processed <> [] ->
  (exists book stem,
     _create_epub_async BeautifulSoup uuid timestamp default_author default_language
       processed overrides = Some (book, stem ++ "_" ++ timestamp ++ ".epub")
     /\ safe_stem (book_title book) stem)
  /\ (exists book stem,
        _create_epub_from_cached_async uuid timestamp default_author default_language
          processed = Some (book, stem ++ "_" ++ timestamp ++ "_cached.epub")
        /\ safe_stem (book_title book) stem).
Proof.
  intros Hne. unfold _create_epub_async, _create_epub_from_cached_async.
  destruct (chapters processed) as [|c l] eqn:E; [congruence|].
  split; eexists; eexists; (split; [reflexivity|]); cbn [book_title];
    apply safe_title_stem; repeat apply py_or_text; cbn; discriminate.
Qed.

(** X16. The authors of the book. From a cached result the book always has
    at least one author. On the main path the book has no author exactly
    when the overriding metadata give none and the processed metadata hold
    an empty list of authors; when neither names authors, the configured
    default author is the only one. *)
Theorem authors_of_book (processed : ProcessedContent) (overrides : dict) :
  chapters processed <> [] ->
  (exists book file,
     _create_epub_async BeautifulSoup uuid timestamp default_author default_language
       processed overrides = Some (book, file)
     /\ (authors book = []
         <-> truthy (get_or_none "authors" overrides) = false
             /\ get "authors" (metadata processed) = Some (VList []))
     /\ (get "authors" overrides = None -> get "authors" (metadata processed) = None ->
         authors book = [VStr default_author]))
  /\ (exists book file,
        _create_epub_from_cached_async uuid timestamp default_author default_language
          processed = Some (book, file)
        /\ authors book <> []).
Proof.
  intros Hne. unfold _create_epub_async, _create_epub_from_cached_async.
  destruct (chapters processed) as [|c l] eqn:E; [congruence|].
  split; eexists; eexists; (split; [reflexivity|]); cbn [authors].
  - unfold py_or, proc_metadata_of, get_or_none, get_default. split.
    + destruct (get "authors" overrides) as [[s| |a]|] eqn:Go; cbn [truthy].
      * destruct (is_empty s) eqn:Es; cbn [negb].
        -- destruct (get "authors" (metadata processed)) as [[s'| |a']|]; cbn;
             split; try discriminate; try (intros [_ H]; discriminate H).
           ++ destruct a'; cbn; [intros _; split; reflexivity|discriminate].
           ++ intros [_ H]. injection H as ->. reflexivity.
        -- cbn. split; [discriminate|intros [H _]; discriminate H].
      * destruct (get "authors" (metadata processed)) as [[s'| |a']|]; cbn;
          split; try discriminate; try (intros [_ H]; discriminate H).
        -- destruct a'; cbn; [intros _; split; reflexivity|discriminate].
        -- intros [_ H]. injection H as ->. reflexivity.
      * destruct a as [|x a]; cbn.
        -- destruct (get "authors" (metadata processed)) as [[s'| |a']|]; cbn;
             split; try discriminate; try (intros [_ H]; discriminate H).
           ++ destruct a'; cbn; [intros _; split; reflexivity|discriminate].
           ++ intros [_ H]. injection H as ->. reflexivity.
        -- split; [discriminate|intros [H _]; discriminate H].
      * destruct (get "authors" (metadata processed)) as [[s'| |a']|]; cbn;
          split; try discriminate; try (intros [_ H]; discriminate H).
        -- destruct a'; cbn; [intros _; split; reflexivity|discriminate].
        -- intros [_ H]. injection H as ->. reflexivity.
    + intros -> ->. reflexivity.
  - unfold py_or, proc_metadata_of, get_or_none, get_default.
    destruct (get "authors" (metadata processed)) as [[s| |a]|]; cbn; try discriminate.
    + destruct (is_empty s); cbn; discriminate.
    + destruct a; cbn; discriminate.
Qed.

End Assemble.

Lemma file_name_is_safe_witness :
  exists book stem,
    Env._create_epub_async
      (mkProcessed [mkChapter "A" "<p>a</p>"] [("title", VStr "../a.b")]
         EmptyString plain None) []
    = Some (book, stem ++ "_20240101_000000.epub")
    /\ safe_stem (book_title book) stem.
Proof.
  apply (file_name_is_safe Env.BeautifulSoup "00000000-0000-4000-8000-000000000000"
           "20240101_000000" "Unknown Author" "en"
           (mkProcessed [mkChapter "A" "<p>a</p>"] [("title", VStr "../a.b")]
              EmptyString plain None) []).
  simpl. discriminate.
Defined.

Lemma authors_of_book_witness :
  exists book file,
    Env._create_epub_from_cached_async
      (mkProcessed [mkChapter "A" "<p>a</p>"] [("authors", VList [])]
         EmptyString plain None)
    = Some (book, file)
    /\ authors book <> [].
Proof.
  apply (authors_of_book Env.BeautifulSoup "00000000-0000-4000-8000-000000000000"
           "20240101_000000" "Unknown Author" "en"
           (mkProcessed [mkChapter "A" "<p>a</p>"] [("authors", VList [])]
              EmptyString plain None) []).
  simpl. discriminate.
Defined.

End BookFacts.


(** ** Format detection on ordinary text

    A pattern can match a text over a set of characters only when every
    character class on some path through it meets the set. *)

Module ProseFacts.
Import PyStr PyStrFacts TextFacts Re ContentDetector DetectorFacts.

Definition all_chars : list ascii := map chr (List.seq 0 256).

(** Whether [r] may match some text over the characters of [P]. *)
Fixpoint can_match (P : ascii -> bool) (r : regex) : bool :=
  match r with
  | Void => false
  | Eps => true
  | Cls p => existsb (fun c => P c && p c) all_chars
  | Seq r1 r2 => can_match P r1 && can_match P r2
  | Alt r1 r2 => can_match P r1 || can_match P r2
  | Star _ => true
  end.

Lemma in_all_chars (c : ascii) : In c all_chars.
Proof.
  unfold all_chars. apply in_map_iff. exists (nat_of_ascii c). split.
  - apply ascii_nat_embedding.
  - apply in_seq. pose proof (nat_ascii_bounded c). lia.
Qed.

Lemma nullable_can_match (P : ascii -> bool) (r : regex) :
  nullable r = true -> can_match P r = true.
Proof.
  induction r as [| |p|r1 IH1 r2 IH2|r1 IH1 r2 IH2|r IH]; cbn; try discriminate;
    try reflexivity.
  - intros H. apply andb_true_iff in H. destruct H as [H1 H2].
    rewrite (IH1 H1), (IH2 H2). reflexivity.
  - intros H. apply orb_true_iff in H. destruct H as [H|H].
    + rewrite (IH1 H). reflexivity.
    + rewrite (IH2 H). apply orb_true_r.
Qed.

Lemma can_match_seq (P : ascii -> bool) (a b : regex) :
  can_match P (seq a b) = true -> can_match P a = true /\ can_match P b = true.
Proof.
  destruct a, b; cbn; intros H; try discriminate; try (split; [reflexivity|exact H]);
    try (apply andb_true_iff in H; exact H); try (split; [exact H|reflexivity]).
Qed.

Lemma can_match_alt (P : ascii -> bool) (a b : regex) :
  can_match P (alt a b) = true -> can_match P a = true \/ can_match P b = true.
Proof.
  destruct a, b; cbn; intros H; try discriminate;
    try (apply orb_true_iff in H; exact H);
    try (left; exact H); try (right; exact H); try (left; reflexivity).
Qed.

Lemma can_match_deriv (P : ascii -> bool) (c : ascii) (r : regex) :
  P c = true -> can_match P (deriv c r) = true -> can_match P r = true.
Proof.
  intros Hc.
  induction r as [| |p|r1 IH1 r2 IH2|r1 IH1 r2 IH2|r IH]; cbn [deriv can_match];
    try discriminate; try reflexivity.
  - destruct (p c) eqn:E; [|discriminate]. intros _.
    apply existsb_exists. exists c. split; [apply in_all_chars|].
    rewrite Hc, E. reflexivity.
  - destruct (nullable r1) eqn:N; intros H.
    + apply can_match_alt in H. destruct H as [H|H].
      * apply can_match_seq in H. destruct H as [H1 H2].
        rewrite (IH1 H1), H2. reflexivity.
      * rewrite (nullable_can_match P r1 N), (IH2 H). reflexivity.
    + apply can_match_seq in H. destruct H as [H1 H2].
      rewrite (IH1 H1), H2. reflexivity.
  - intros H. apply can_match_alt in H. destruct H as [H|H].
    + rewrite (IH1 H). reflexivity.
    + rewrite (IH2 H). apply orb_true_r.
Qed.

Section Dead.
Variable P : ascii -> bool.

Lemma dead_nullable (r : regex) : can_match P r = false -> nullable r = false.
Proof.
  intros H. destruct (nullable r) eqn:N; [|reflexivity].
  rewrite (nullable_can_match P r N) in H. discriminate.
Qed.

Lemma dead_deriv (c : ascii) (r : regex) :
  P c = true -> can_match P r = false -> can_match P (deriv c r) = false.
Proof.
  intros Hc H. destruct (can_match P (deriv c r)) eqn:D; [|reflexivity].
  rewrite (can_match_deriv P c r Hc D) in H. discriminate.
Qed.

Lemma dead_match_prefix (r : regex) (s : string) :
  can_match P r = false -> forall_chars P s = true -> match_prefix r s = false.
Proof.
  revert r. induction s as [|c s IH]; intros r Hr Hs; cbn [match_prefix];
    rewrite (dead_nullable r Hr); [reflexivity|].
  cbn [forall_chars] in Hs. apply andb_true_iff in Hs. destruct Hs as [Hc Hs].
  apply IH; [apply dead_deriv; assumption|exact Hs].
Qed.

Lemma dead_search (r : regex) (s : string) :
  can_match P r = false -> forall_chars P s = true -> search r s = false.
Proof.
  intros Hr. induction s as [|c s IH]; intros Hs; cbn [search];
    rewrite (dead_match_prefix r _ Hr Hs); [reflexivity|].
  cbn [forall_chars] in Hs. apply andb_true_iff in Hs. apply IH, Hs.
Qed.

Lemma dead_search_bol (r : regex) (s : string) :
  can_match P r = false -> forall_chars P s = true -> search_bol r s = false.
Proof.
  intros Hr Hs. unfold search_bol. rewrite (dead_match_prefix r s Hr Hs). cbn [orb].
  induction s as [|c s IH]; cbn [search_after_newline]; [reflexivity|].
  cbn [forall_chars] in Hs. apply andb_true_iff in Hs. destruct Hs as [_ Hs].
  rewrite (dead_match_prefix r s Hr Hs), andb_false_r. apply IH, Hs.
Qed.

Lemma dead_match_len (r : regex) (s : string) :
  can_match P r = false -> forall_chars P s = true -> match_len r s = None.
Proof.
  revert r. induction s as [|c s IH]; intros r Hr Hs; cbn [match_len]; [reflexivity|].
  cbn [forall_chars] in Hs. apply andb_true_iff in Hs. destruct Hs as [Hc Hs].
  pose proof (dead_deriv c r Hc Hr) as Hd.
  rewrite (dead_nullable _ Hd), (IH _ Hd Hs). reflexivity.
Qed.

Lemma dead_findall_count (fuel : nat) (r : regex) (s : string) :
  can_match P r = false -> forall_chars P s = true -> findall_count fuel r s = 0.
Proof.
  intros Hr. revert s. induction fuel as [|fuel IH]; intros s Hs; [reflexivity|].
  destruct s as [|c s]; [reflexivity|].
  cbn [findall_count]. rewrite (dead_match_len r _ Hr Hs).
  cbn [forall_chars] in Hs. apply andb_true_iff in Hs. apply IH, Hs.
Qed.

End Dead.

(** *** Without an angle bracket, no HTML *)

Definition no_lt (c : ascii) : bool := negb (Ascii.eqb "<" c).

Lemma has_char_forall (c : ascii) (s : string) :
  has_char c s = false <-> forall_chars (fun d => negb (Ascii.eqb c d)) s = true.
Proof.
  unfold has_char. induction s as [|d s IH]; cbn [exists_char forall_chars].
  - split; reflexivity.
  - rewrite orb_false_iff, andb_true_iff, negb_true_iff, IH. reflexivity.
Qed.

Lemma forall_chars_weaken (p q : ascii -> bool) (s : string) :
  (forall c, p c = true -> q c = true) ->
  forall_chars p s = true -> forall_chars q s = true.
Proof.
  intros W. induction s as [|c s IH]; cbn [forall_chars]; [reflexivity|].
  intros H. apply andb_true_iff in H. destruct H as [Hc Hs].
  rewrite (W c Hc), (IH Hs). reflexivity.
Qed.

Lemma html_patterns_need_lt (r : regex) :
  In r (any_tag :: html_patterns) -> can_match no_lt r = false.
Proof.
  intros Hin. cbn [html_patterns In] in Hin.
  repeat (destruct Hin as [<-|Hin]; [vm_compute; reflexivity|]). destruct Hin.
Qed.

Lemma is_html_needs_lt (text : string) :
  forall_chars no_lt text = true -> _is_html text = false.
Proof.
  intros H. unfold _is_html.
  rewrite (dead_findall_count no_lt _ any_tag text
             (html_patterns_need_lt _ (or_introl eq_refl)) H).
  rewrite orb_false_r.
  destruct (existsb _ html_patterns) eqn:E; [|reflexivity].
  apply existsb_exists in E. destruct E as (r & Hin & Hs).
  rewrite (dead_search no_lt r text (html_patterns_need_lt r (or_intror Hin)) H) in Hs.
  discriminate.
Qed.

(** *** Without a slash, no URL *)

Definition no_slash (c : ascii) : bool := negb (Ascii.eqb "/" c).

Lemma forall_chars_remove_char (p : ascii -> bool) (c : ascii) (s : string) :
  forall_chars p s = true -> forall_chars p (remove_char c s) = true.
Proof.
  induction s as [|d s IH]; cbn [remove_char forall_chars]; [reflexivity|].
  intros H. apply andb_true_iff in H. destruct H as [Hd Hs].
  destruct (Ascii.eqb c d); [apply IH, Hs|].
  cbn [forall_chars]. rewrite Hd, (IH Hs). reflexivity.
Qed.

Lemma forall_chars_drop (p : ascii -> bool) (n : nat) (s : string) :
  forall_chars p s = true -> forall_chars p (drop n s) = true.
Proof.
  revert s. induction n as [|n IH]; intros [|c s] H; cbn [drop]; try exact H.
  cbn [forall_chars] in H. apply andb_true_iff in H. apply IH, H.
Qed.

Lemma no_slash_prefix (s : string) :
  forall_chars no_slash s = true -> String.prefix "//" s = false.
Proof.
  destruct s as [|c s]; [reflexivity|]. cbn [forall_chars]. intros H.
  apply andb_true_iff in H. destruct H as [Hc _].
  cbn [String.prefix]. destruct (ascii_dec "/" c) as [E|E]; [|reflexivity].
  subst c. discriminate Hc.
Qed.

Section WithHostCheck.
Variable check_bracketed_host : string -> bool.

Lemma url_needs_slash (text : string) :
  forall_chars no_slash text = true -> _is_url check_bracketed_host text = false.
Proof.
  intros H. unfold _is_url. destruct (has_char (chr 10) text); [reflexivity|].
  unfold UrlParse.urlparse.
  set (u := remove_char (chr 10) (remove_char (chr 13) (remove_char (chr 9) _))).
  assert (Hu : forall_chars no_slash u = true).
  { unfold u. repeat apply forall_chars_remove_char. apply forall_chars_lstrip, H. }
  assert (R : forall p : string * string,
             forall_chars no_slash (snd p) = true ->
             match (let (scheme, url) := p in
                    if String.prefix "//" url
                    then
                      let netloc := UrlParse.netloc_of (drop 2 url) in
                      let has_open := has_char "[" netloc in
                      let has_close := has_char "]" netloc in
                      if xorb has_open has_close then None
                      else if has_open && has_close
                           then if UrlParse._check_bracketed_netloc check_bracketed_host netloc
                                then Some (scheme, netloc) else None
                           else Some (scheme, netloc)
                    else Some (scheme, EmptyString))
             with
             | Some (scheme, netloc) =>
                 (String.eqb scheme "http" || String.eqb scheme "https")
                 && negb (is_empty netloc)
             | None => false
             end = false).
  { intros [scheme url'] Hp. cbn [snd] in Hp. rewrite (no_slash_prefix url' Hp).
    cbn [is_empty negb]. apply andb_false_r. }
  apply R.
  destruct (find_char ":" u) as [[|i]|]; [exact Hu| |exact Hu].
  destruct u as [|c0 u']; [exact Hu|].
  destruct (isalpha_ascii c0 && _); [|exact Hu].
  cbn [snd]. apply forall_chars_drop, Hu.
Qed.

(** X17. A text without the character [<] is never classified [html]. *)
Theorem html_needs_angle_bracket (text : string) :
  has_char "<" text = false ->
  detect_format check_bracketed_host text <> html.
Proof.
  intros H. apply has_char_forall in H.
  rewrite detect_by_strip. unfold classify.
  rewrite (is_html_needs_lt (strip text) (forall_chars_strip _ text H)).
  destruct (_is_url _ _); [discriminate|].
  destruct (startswith _ _); [discriminate|].
  destruct (_is_markdown _); discriminate.
Qed.

(** *** Prose *)

(** Letters, whitespace and the punctuation of a sentence. *)
Definition prose_char (c : ascii) : bool :=
  isalpha_ascii c || isspace c || has_char c (",.;:!?'()&" ++ DQ).

Lemma prose_char_no_lt (c : ascii) : prose_char c = true -> no_lt c = true.
Proof.
  intros H. unfold no_lt. destruct (Ascii.eqb "<" c) eqn:E; [|reflexivity].
  apply Ascii.eqb_eq in E. subst c. discriminate H.
Qed.

Lemma prose_char_no_slash (c : ascii) : prose_char c = true -> no_slash c = true.
Proof.
  intros H. unfold no_slash. destruct (Ascii.eqb "/" c) eqn:E; [|reflexivity].
  apply Ascii.eqb_eq in E. subst c. discriminate H.
Qed.

Lemma markdown_patterns_need_marker (p : bool * regex) :
  In p ((true, strong_heading) :: markdown_patterns) ->
  can_match prose_char (snd p) = false.
Proof.
  intros Hin. cbn [markdown_patterns In] in Hin.
  repeat (destruct Hin as [<-|Hin]; [vm_compute; reflexivity|]). destruct Hin.
Qed.

Lemma prose_is_not_markdown (text : string) :
  forall_chars prose_char text = true -> _is_markdown text = false.
Proof.
  intros H. unfold _is_markdown.
  rewrite (dead_search_bol prose_char strong_heading text
             (markdown_patterns_need_marker (true, strong_heading) (or_introl eq_refl)) H).
  assert (F : filter (fun p => search_pattern p text) markdown_patterns = []).
  { assert (G : forall l, (forall p, In p l -> can_match prose_char (snd p) = false) ->
                          filter (fun p => search_pattern p text) l = []).
    { induction l as [|p l IH]; intros Hl; [reflexivity|].
      cbn [filter]. unfold search_pattern at 1.
      rewrite (dead_search_bol prose_char (snd p) text (Hl p (or_introl eq_refl)) H).
      rewrite (dead_search prose_char (snd p) text (Hl p (or_introl eq_refl)) H).
      destruct (fst p); apply IH; intros q Hq; apply Hl; right; exact Hq. }
    apply G. intros p Hp. apply markdown_patterns_need_marker. right. exact Hp. }
  rewrite F. reflexivity.
Qed.

(** X18. Prose is plain: a text made of ASCII letters, whitespace (line
    breaks among it) and the punctuation [, . ; : ! ? ' ( ) &] and the
    double quote is classified [plain]. *)
Theorem prose_is_plain (text : string) :
  forall_chars prose_char text = true ->
  detect_format check_bracketed_host text = plain.
Proof.
  intros H. rewrite detect_by_strip. unfold classify.
  pose proof (forall_chars_strip _ text H) as Hs.
  rewrite (url_needs_slash (strip text)
             (forall_chars_weaken _ _ _ prose_char_no_slash Hs)).
  rewrite (is_html_needs_lt (strip text)
             (forall_chars_weaken _ _ _ prose_char_no_lt Hs)).
  rewrite (prose_is_not_markdown (strip text) Hs).
  destruct (strip text) as [|c t]; [reflexivity|].
  cbn [forall_chars] in Hs. apply andb_true_iff in Hs. destruct Hs as [Hc _].
  unfold startswith. cbn [append BSL String.prefix].
  destruct (ascii_dec "{" c) as [E|E]; [|reflexivity].
  subst c. discriminate Hc.
Qed.

(** *** A heading line *)

(** [n] hash signs before [s]. *)
Fixpoint hashes_text (n : nat) (s : string) : string :=
  match n with
  | O => s
  | S n' => String "#" (hashes_text n' s)
  end.

Ltac heading_step :=
  cbn [match_prefix deriv nullable seq alt strong_heading hashes rep1 upto opt plus seqs
       lit ws non_ws pred append andb orb negb hashes_text].

Lemma heading_matches (n : nat) (w c : ascii) (rest : string) :
  1 <= n <= 6 -> isspace w = true -> isspace c = false ->
  match_prefix strong_heading (hashes_text n (String w (String c rest))) = true.
Proof.
  intros Hn Hw Hc.
  assert (Hh : Ascii.eqb "#" w = false).
  { destruct (Ascii.eqb "#" w) eqn:E; [|reflexivity].
    apply Ascii.eqb_eq in E. subst w. discriminate Hw. }
  assert (Hs : isspace "#" = false) by reflexivity.
  destruct n as [|[|[|[|[|[|[|n]]]]]]]; try lia;
    do 9 (heading_step; rewrite ?Ascii.eqb_refl, ?Hs, ?Hh, ?Hw, ?Hc);
    destruct rest; reflexivity.
Qed.

Lemma urlparse_hash (t : string) :
  UrlParse.urlparse check_bracketed_host (String "#" t)
  = Some (EmptyString, EmptyString).
Proof.
  unfold UrlParse.urlparse.
  change (lstrip_with UrlParse.C0_CONTROL_OR_SPACE (String "#" t)) with (String "#" t).
  rewrite (DetectorMore.remove_char_other (chr 9) "#" t eq_refl).
  rewrite (DetectorMore.remove_char_other (chr 13) "#" _ eq_refl).
  rewrite (DetectorMore.remove_char_other (chr 10) "#" _ eq_refl).
  set (u := remove_char (chr 10) (remove_char (chr 13) (remove_char (chr 9) t))).
  destruct (find_char ":" (String "#" u)) as [[|i]|]; reflexivity.
Qed.

(** X19. A text that, stripped, opens with a Markdown heading (one to six
    hash signs, whitespace, then a character that is no whitespace) and
    holds no [<] is classified [markdown], whatever follows. *)
Theorem heading_line_is_markdown (text : string) (n : nat) (w c : ascii)
    (rest : string) :
  strip text = hashes_text n (String w (String c rest)) ->
  1 <= n <= 6 -> isspace w = true -> isspace c = false ->
  has_char "<" text = false ->
  detect_format check_bracketed_host text = markdown.
Proof.
  intros E Hn Hw Hc Hlt. apply has_char_forall in Hlt.
  rewrite detect_by_strip. unfold classify.
  rewrite (is_html_needs_lt (strip text) (forall_chars_strip _ text Hlt)).
  unfold _is_markdown, search_bol. rewrite E, (heading_matches n w c rest Hn Hw Hc).
  cbn [orb]. destruct n as [|n]; [lia|]. cbn [hashes_text].
  unfold _is_url. rewrite urlparse_hash.
  destruct (has_char (chr 10) _); reflexivity.
Qed.

End WithHostCheck.

Lemma html_needs_angle_bracket_witness :
  Env.detect_format "2 + 2 = 4 > 3" <> html.
Proof.
  apply (html_needs_angle_bracket Env.check_bracketed_host "2 + 2 = 4 > 3").
  vm_compute. reflexivity.
Defined.

Lemma prose_is_plain_witness :
  Env.detect_format ("Dear reader," ++ NL ++ NL ++ "is this (really) plain? Yes: it is.")
  = plain.
Proof.
  apply (prose_is_plain Env.check_bracketed_host
           ("Dear reader," ++ NL ++ NL ++ "is this (really) plain? Yes: it is.")).
  vm_compute. reflexivity.
Defined.

Lemma heading_line_is_markdown_witness :
  Env.detect_format ("## Title" ++ NL ++ "Some text, nothing more.") = markdown.
Proof.
  apply (heading_line_is_markdown Env.check_bracketed_host
           ("## Title" ++ NL ++ "Some text, nothing more.") 2 " " "T"
           ("itle" ++ NL ++ "Some text, nothing more."));
    [vm_compute; reflexivity|lia|reflexivity|reflexivity|vm_compute; reflexivity].
Defined.

End ProseFacts.


Module DetectorTests.
Import PyStr ContentDetector.

Example t1 : Env.detect_format EmptyString = plain. Proof. vm_compute. reflexivity. Qed.
Example t2 : Env.detect_format "Just some text" = plain. Proof. vm_compute. reflexivity. Qed.
Example t3 : Env.detect_format "https://example.com" = url. Proof. vm_compute. reflexivity. Qed.
Example t4 : Env.detect_format "http://example.com" = url. Proof. vm_compute. reflexivity. Qed.
Example t5 : Env.detect_format ("{" ++ BSL ++ "rtf1" ++ BSL ++ "ansi" ++ NL ++ "...") = rtf.
Proof. vm_compute. reflexivity. Qed.
Example t6 : Env.detect_format ("# Title" ++ NL ++ NL ++ "Some **bold** text.") = markdown.
Proof. vm_compute. reflexivity. Qed.
Example t7 : Env.detect_format "<html><body><h1>Title</h1><p>Text</p></body></html>" = html.
Proof. vm_compute. reflexivity. Qed.
Example t8 : Env.detect_format "a <b>c</b> <i>d</i>" = html. Proof. vm_compute. reflexivity. Qed.
Example t9 : Env.detect_format "a <b>c</b> d" = plain. Proof. vm_compute. reflexivity. Qed.
Example t10 : Env.detect_format "see *this* and `that`" = markdown. Proof. vm_compute. reflexivity. Qed.
Example t11 : Env.detect_format "ftp://example.com" = plain. Proof. vm_compute. reflexivity. Qed.
Example t12 : Env.detect_format "http:/example.com" = plain. Proof. vm_compute. reflexivity. Qed.

Example t13 : Env.detect_format ("   {" ++ BSL ++ "rtf1" ++ BSL ++ "ansi ...") = rtf.
Proof. vm_compute. reflexivity. Qed.
Example t14 : Env.detect_format ("https://example.com" ++ NL ++ "second line") = plain.
Proof. vm_compute. reflexivity. Qed.

End DetectorTests.
